(* ===================================================================== *)
(*  plsr: configuration resolution, deletion gate, port resolver,         *)
(*  migration ledger and cluster pull verification.                       *)
(*                                                                         *)
(*  A shallow embedding of the relevant functions of                       *)
(*    plsr/run_local.py, plsr/db_migrate.py, plsr/helm_release.py,         *)
(*    plsr/build.py, plsr/app.py and plsr/core/bootstrap.py                *)
(*  followed by the properties proved about them.                          *)
(*                                                                         *)
(*  Conventions.  A Python `str` is a Rocq `string` whose characters are   *)
(*  read as the code points 0..255.  A Python `int` is a `Z`.  `None` is   *)
(*  `None`; a dict is a `gmap`.  External behaviour (the file system, the  *)
(*  process environment, docker, kubectl, the mysql client, TCP ports)     *)
(*  enters every function as an explicit argument, and what a function    *)
(*  does to the outside world leaves it as an explicit list of effects.    *)
(* ===================================================================== *)

From Stdlib Require Import List ZArith Bool Ascii String Lia.
From Stdlib Require OrderedTypeEx.
From stdpp Require Import base option list sorting gmap strings pretty.
Import ListNotations.

Local Open Scope string_scope.
Local Open Scope Z_scope.

(* ===================================================================== *)
(** * Python string primitives                                            *)
(* ===================================================================== *)

Module Py.

Definition chars (s : string) : list ascii := list_ascii_of_string s.
Definition str (l : list ascii) : string := string_of_list_ascii l.

Definition code (c : ascii) : N := N_of_ascii c.

(** [str.isspace] on one code point below 256; the same set is what
    [\s] matches in a [str] pattern. *)
Definition isspace (c : ascii) : bool :=
  let n := code c in
  ((9 <=? n) && (n <=? 13) || (28 <=? n) && (n <=? 32)
   || (n =? 133) || (n =? 160))%N.

Definition is_upper (c : ascii) : bool :=
  let n := code c in ((65 <=? n) && (n <=? 90))%N.
Definition is_lower (c : ascii) : bool :=
  let n := code c in ((97 <=? n) && (n <=? 122))%N.
Definition is_digit (c : ascii) : bool :=
  let n := code c in ((48 <=? n) && (n <=? 57))%N.

(** [str.lower] on one code point below 256: the ASCII capitals and
    the capitals of Latin-1 (192..222 without the multiplication sign). *)
Definition lower_char (c : ascii) : ascii :=
  let n := code c in
  if is_upper c || ((192 <=? n) && (n <=? 222) && negb (n =? 215))%N
  then ascii_of_N (n + 32) else c.
(** The capital of an ASCII letter (the classes of the program's
    patterns hold ASCII letters only). *)
Definition upper_char (c : ascii) : ascii :=
  if is_lower c then ascii_of_N (code c - 32) else c.

Definition lower (s : string) : string := str (map lower_char (chars s)).

Fixpoint lstrip_by (p : ascii -> bool) (l : list ascii) : list ascii :=
  match l with
  | c :: l' => if p c then lstrip_by p l' else l
  | [] => []
  end.
Definition rstrip_by (p : ascii -> bool) (l : list ascii) : list ascii :=
  rev (lstrip_by p (rev l)).

(** [s.strip()], [s.lstrip()] *)
Definition strip (s : string) : string :=
  str (rstrip_by isspace (lstrip_by isspace (chars s))).
Definition lstrip (s : string) : string :=
  str (lstrip_by isspace (chars s)).

(** [s.rstrip("/")] *)
Definition rstrip_slash (s : string) : string :=
  str (rstrip_by (fun c => Ascii.eqb c "/") (chars s)).

(** Truthiness of a string and of an optional string ([if v:]). *)
Definition truthy (s : string) : bool := negb (String.eqb s "").
Definition otruthy (o : option string) : bool :=
  match o with Some s => truthy s | None => false end.

(** [a or b] where [a : Optional[str]] and [b : str]. *)
Definition or_str (a : option string) (b : string) : string :=
  match a with
  | Some s => if truthy s then s else b
  | None => b
  end.

(** [a or b] where both are [Optional[str]]. *)
Definition or_opt (a b : option string) : option string :=
  if otruthy a then a else b.

Fixpoint startswith_l (p s : list ascii) : bool :=
  match p, s with
  | [], _ => true
  | a :: p', b :: s' => Ascii.eqb a b && startswith_l p' s'
  | _ :: _, [] => false
  end.
Definition startswith (s p : string) : bool := startswith_l (chars p) (chars s).

(** Line boundaries of [str.splitlines()] among the code points below
    256: LF, CR (CR LF counts once), VT, FF, FS, GS, RS, NEL. *)
Definition is_linebreak (c : ascii) : bool :=
  let n := code c in
  ((10 <=? n) && (n <=? 13) || (28 <=? n) && (n <=? 30) || (n =? 133))%N.

Fixpoint splitlines_l (cur : list ascii) (l : list ascii) : list (list ascii) :=
  match l with
  | [] => match cur with [] => [] | _ => [rev cur] end
  | c :: l' =>
      if is_linebreak c then
        match l' with
        | d :: l'' =>
            if (Ascii.eqb c "013" && Ascii.eqb d "010")%bool
            then rev cur :: splitlines_l [] l''
            else rev cur :: splitlines_l [] l'
        | [] => [rev cur]
        end
      else splitlines_l (c :: cur) l'
  end.
Definition splitlines (s : string) : list string :=
  map str (splitlines_l [] (chars s)).

End Py.

(* ===================================================================== *)
(** * A backtracking matcher for the regular expressions of the program  *)
(* ===================================================================== *)

(** The patterns of the program are written below as terms of [regex]
  and run by [go], a backtracking matcher with the priorities of
  Python's [re]: the left alternative first, greedy repetition takes as
  many iterations as it can and gives them back one at a time, lazy
  repetition takes as few as it can. *)

Module Re.

Inductive regex : Type :=
| Eps                                   (* empty pattern *)
| Chr (p : ascii -> bool)               (* one character in a class *)
| Bol                                   (* ^ under re.M *)
| Eol                                   (* $ under re.M *)
| BolStr                                (* ^ without re.M *)
| EolStr                                (* $ without re.M *)
| Seq (a b : regex)
| Alt (a b : regex)                     (* a|b *)
| Star (greedy : bool) (a : regex)      (* a* or a*? *)
| Grp (n : nat) (a : regex).            (* capturing group number n *)

Record mstate : Type := MState {
  prev : option ascii;                  (* the character before the cursor *)
  rest : list ascii;                    (* the text from the cursor on *)
  caps : list (nat * list ascii)        (* groups closed so far, latest first *)
}.

Definition newline : ascii := "010"%char.

Definition at_bol (st : mstate) : bool :=
  match prev st with None => true | Some c => Ascii.eqb c newline end.
Definition at_bos (st : mstate) : bool :=
  match prev st with None => true | Some _ => false end.
Definition at_eol (st : mstate) : bool :=
  match rest st with [] => true | c :: _ => Ascii.eqb c newline end.
Definition at_eos (st : mstate) : bool :=
  match rest st with
  | [] => true
  | [c] => Ascii.eqb c newline
  | _ => false
  end.

(** The text consumed between two cursors of one scan. *)
Definition consumed (from to : list ascii) : list ascii :=
  firstn (length from - length to) from.

Definition close_group (n : nat) (st0 st : mstate) : mstate :=
  MState (prev st) (rest st) ((n, consumed (rest st0) (rest st)) :: caps st).

Definition progressed (st0 st : mstate) : bool :=
  (length (rest st) <? length (rest st0))%nat.

Fixpoint go (r : regex) (st : mstate) (k : mstate -> option mstate)
  {struct r} : option mstate :=
  match r with
  | Eps => k st
  | Chr p =>
      match rest st with
      | c :: cs => if p c then k (MState (Some c) cs (caps st)) else None
      | [] => None
      end
  | Bol => if at_bol st then k st else None
  | Eol => if at_eol st then k st else None
  | BolStr => if at_bos st then k st else None
  | EolStr => if at_eos st then k st else None
  | Seq a b => go a st (fun st' => go b st' k)
  | Alt a b =>
      match go a st k with
      | Some m => Some m
      | None => go b st k
      end
  | Star greedy a =>
      (fix loop (fuel : nat) (st : mstate) {struct fuel} : option mstate :=
         match fuel with
         | O => k st
         | S fuel' =>
             let again :=
               go a st (fun st' =>
                 if progressed st st' then loop fuel' st' else None) in
             if greedy then
               match again with
               | Some m => Some m
               | None => k st
               end
             else
               match k st with
               | Some m => Some m
               | None => again
               end
         end) (S (length (rest st))) st
  | Grp n a => go a st (fun st' => k (close_group n st st'))
  end.

(** [re.match]: at the start of the text only. *)
Definition match_l (r : regex) (s : list ascii) : option mstate :=
  go (Grp 0 r) (MState None s []) Some.

(** [re.search]: the leftmost position where the pattern matches. *)
Fixpoint search_from (r : regex) (p : option ascii) (s : list ascii)
  {struct s} : option mstate :=
  match go (Grp 0 r) (MState p s []) Some with
  | Some m => Some m
  | None =>
      match s with
      | [] => None
      | c :: s' => search_from r (Some c) s'
      end
  end.

Definition search (r : regex) (s : string) : option mstate :=
  search_from r None (Py.chars s).
Definition rmatch (r : regex) (s : string) : option mstate :=
  match_l r (Py.chars s).

Fixpoint assoc (n : nat) (l : list (nat * list ascii)) : option (list ascii) :=
  match l with
  | [] => None
  | (m, v) :: l' => if Nat.eqb n m then Some v else assoc n l'
  end.

(** [m.group(n)] for a group that took part in the match. *)
Definition group (m : mstate) (n : nat) : string :=
  match assoc n (caps m) with
  | Some v => Py.str v
  | None => ""
  end.

(** ** Pattern combinators *)

Definition chr (c : ascii) : regex := Chr (Ascii.eqb c).
(** a literal character under re.I *)
Definition chr_ci (c : ascii) : regex :=
  Chr (fun d => Ascii.eqb (Py.lower_char d) (Py.lower_char c)).
(** a character class under re.I: the class holds one case of the
    character *)
Definition ci (p : ascii -> bool) : ascii -> bool :=
  fun d => p d || p (Py.lower_char d) || p (Py.upper_char d).

Fixpoint seqs (l : list regex) : regex :=
  match l with
  | [] => Eps
  | [r] => r
  | r :: l' => Seq r (seqs l')
  end.

(** [re.escape(s)] as a pattern: the characters of [s], literally. *)
Definition lit (s : string) : regex := seqs (map chr (Py.chars s)).
Definition lit_ci (s : string) : regex := seqs (map chr_ci (Py.chars s)).

Definition star (a : regex) : regex := Star true a.          (* a*  *)
Definition plus (a : regex) : regex := Seq a (Star true a).  (* a+  *)
Definition plus_lazy (a : regex) : regex := Seq a (Star false a). (* a+? *)
Definition opt (a : regex) : regex := Alt a Eps.             (* a?  *)
Fixpoint times (n : nat) (a : regex) : regex :=              (* a{n} *)
  match n with
  | O => Eps
  | S O => a
  | S n' => Seq a (times n' a)
  end.

(** Character classes. *)
Definition ws : regex := Chr Py.isspace.                       (* \s *)
Definition dot : regex := Chr (fun c => negb (Ascii.eqb c newline)). (* . *)
Definition dot_all : regex := Chr (fun _ => true).             (* . under re.S *)
Definition one_of (s : string) : ascii -> bool :=
  fun c => existsb (Ascii.eqb c) (Py.chars s).
Definition none_of (s : string) : ascii -> bool :=
  fun c => negb (one_of s c).

End Re.


(* ===================================================================== *)
(** * Config extractor (run_local.py, db_migrate.py, helm_release.py,
    build.py: the four modules carry the same three functions)          *)
(* ===================================================================== *)

Module Config.
Import Re.

Definition dq : ascii := "034"%char.             (* the double quote *)
Definition sq : ascii := "'"%char.               (* the single quote *)
Definition cr : ascii := "013"%char.
Definition tab : ascii := "009"%char.

Definition is_quote (c : ascii) : bool := Ascii.eqb c sq || Ascii.eqb c dq.
(** the class [^#\r\n'\dq] of a value *)
Definition is_value_char (c : ascii) : bool :=
  negb (Ascii.eqb c "#" || Ascii.eqb c cr || Ascii.eqb c newline || is_quote c).
(** the class [ \t] *)
Definition is_blank (c : ascii) : bool := Ascii.eqb c " " || Ascii.eqb c tab.

(** rf'(?ms)^\s*{re.escape(section)}\s*:\s*\n(?P<blk>(?:[ \t].*\n)+)'
    The flag s (re.S) makes the dot match a newline as well. *)
Definition block_re (section : string) : regex :=
  seqs [ Bol; star ws; lit section; star ws; chr ":"; star ws; chr newline;
         Grp 1 (plus (seqs [ Chr is_blank; star dot_all; chr newline ])) ].

(** rf'(?mi)^\s*{re.escape(key)}\s*:\s*['\dq]?([^#\r\n'\dq]+)['\dq]?\s*(?:#.* )?$'
    (dq is the double quote; a blank is put before a closing parenthesis
    that follows a star) *)
Definition kv_re (key : string) : regex :=
  seqs [ Bol; star ws; lit_ci key; star ws; chr ":"; star ws;
         opt (Chr is_quote);
         Grp 1 (plus (Chr is_value_char));
         opt (Chr is_quote); star ws;
         opt (Seq (chr "#") (star dot)); Eol ].

Definition _extract_block (text section : string) : string :=
  match search (block_re section) text with
  | Some m => group m 1
  | None => ""
  end.

Definition _kv_from_block (block key : string) : option string :=
  match search (kv_re key) block with
  | Some m => Some (Py.strip (group m 1))
  | None => None
  end.

Definition _kv_top (text key : string) : option string :=
  match search (kv_re key) text with
  | Some m => Some (Py.strip (group m 1))
  | None => None
  end.

(** run_local._extract_env_block, db_migrate._env_block and
    run_host._env_block *)
Definition _extract_env_block (text env_name : string) : string :=
  let envs := _extract_block text "environments" in
  if negb (Py.truthy envs) then ""
  else match search (block_re env_name) envs with
       | Some m => group m 1
       | None => ""
       end.

End Config.

(* ===================================================================== *)
(** * Process environment and paths                                       *)
(* ===================================================================== *)

(** [os.environ]: [os.getenv(k)] is [environ !! k]. *)
Abbreviation environ := (gmap string string).

(** A resolved absolute path is the list of its components below the
    root directory: [/home/u/dev] is [["home"; "u"; "dev"]]. *)
Abbreviation Path := (list string).

Module PathOps.

(** [p / name] *)
Definition join (p : Path) (name : string) : Path := p ++ [name].

(** [p.name] *)
Definition name (p : Path) : string := List.last p "".

Fixpoint is_prefix (base p : Path) : bool :=
  match base, p with
  | [], _ => true
  | b :: base', c :: p' => String.eqb b c && is_prefix base' p'
  | _ :: _, [] => false
  end.

(** [p.is_relative_to(base)]: [base] is [p] or one of its parents. *)
Definition is_relative_to (p base : Path) : bool := is_prefix base p.

(** [p == q] on paths *)
Fixpoint eqb (p q : Path) : bool :=
  match p, q with
  | [], [] => true
  | a :: p', b :: q' => String.eqb a b && eqb p' q'
  | _, _ => false
  end.

(** [str(p)] *)
Definition show (p : Path) : string :=
  match p with
  | [] => "/"
  | _ => List.fold_right (fun c acc => "/" ++ c ++ acc) "" p
  end.

End PathOps.

(** What the program sees of the host it runs on. *)
Record Host : Type := {
  home : Path;                          (* Path.home() *)
  to_path : string -> Path;             (* Path(s).expanduser().resolve() *)
  resolve : Path -> Path;               (* p.expanduser().resolve() on a path *)
  path_exists : Path -> bool;           (* p.exists() *)
  rmtree_ok : Path -> bool;             (* shutil.rmtree(p) does not raise *)
  port_bindable : Z -> bool             (* s.bind((host, p)) does not raise OSError *)
}.

(** The outcome of a Python call that may raise. *)
Inductive result (A : Type) : Type :=
| Ok (a : A)
| Raise (exn : string).
Arguments Ok {A} a.
Arguments Raise {A} exn.

(** [a or b] on exit codes *)
Definition or_rc (a b : Z) : Z := if a =? 0 then b else a.

(* ===================================================================== *)
(** * run_local.py: resolvers                                             *)
(* ===================================================================== *)

Module RunLocal.
Import Re Config.

Definition db_aliases : list string :=
  ["mariadb"; "mysql"; "db-mariadb"; "db_mysql"].

Definition str_in (s : string) (l : list string) : bool :=
  existsb (String.eqb s) l.

Definition _detect_flavor (text : string) : string :=
  let svc := _extract_block text "service" in
  let fl := Py.or_str (_kv_from_block svc "flavor") "" in
  let fl := Py.strip (Py.lower fl) in
  if str_in fl db_aliases then "db-mariadb" else "python-app".

Definition is_lower_digit_dash (c : ascii) : bool :=
  Py.is_lower c || Py.is_digit c || Ascii.eqb c "-".
Definition is_alnum_dash (c : ascii) : bool :=
  Py.is_upper c || Py.is_lower c || Py.is_digit c || Ascii.eqb c "-".

(** r'([0-9]{12}\.dkr\.ecr\.[a-z0-9-]+\.amazonaws\.com)' *)
Definition _PRIV_ECR_HOST : regex :=
  Grp 1 (seqs [ times 12 (Chr Py.is_digit); lit ".dkr.ecr.";
                plus (Chr is_lower_digit_dash); lit ".amazonaws.com" ]).

(** r'(public\.ecr\.aws/[A-Za-z0-9-]+)' *)
Definition _PUB_ECR_HOST : regex :=
  Grp 1 (seqs [ lit "public.ecr.aws/"; plus (Chr is_alnum_dash) ]).

(** [s.strip().rstrip("/")] *)
Definition trim_root (s : string) : string := Py.rstrip_slash (Py.strip s).

Definition _discover_ecr_root (text env_name : string) : option string :=
  let env_blk := _extract_env_block text env_name in
  let ecr_env := _kv_from_block env_blk "ECR" in
  if Py.otruthy ecr_env then Some (trim_root (Py.or_str ecr_env "")) else
  let ecr_top := _kv_top text "ECR" in
  if Py.otruthy ecr_top then Some (trim_root (Py.or_str ecr_top "")) else
  match search _PRIV_ECR_HOST text with
  | Some m => Some (trim_root (group m 1))
  | None =>
      match search _PUB_ECR_HOST text with
      | Some m => Some (trim_root (group m 1))
      | None => None
      end
  end.

(** auto_run, lines 314-315 (and auto_stop, line 507, for the name):
    [name = _kv_top(cfg, "name") or root.name],
    [version = _kv_top(cfg, "version") or "0.0.0"] *)
Definition run_name_version (cfg : string) (root : Path) : string * string :=
  (Py.or_str (_kv_top cfg "name") (PathOps.name root),
   Py.or_str (_kv_top cfg "version") "0.0.0").

(** r'(?ms)^\s*root\s*:\s*\n(?P<blk>(?:[ \t].*\n)+)' is [block_re "root"]. *)
Definition _dev_root_password (text : string) : option string :=
  let dev := _extract_block text "dev" in
  let dev := if negb (Py.truthy dev) then _extract_block text "dev" else dev in
  let blk := match search (block_re "root") dev with
             | Some m => group m 1
             | None => dev
             end in
  _kv_from_block blk "password".

Definition _env_root_password (text env_name : string) : option string :=
  let blk := _extract_env_block text env_name in
  if negb (Py.truthy blk) then None
  else
    let val := _kv_from_block blk "root_pw" in
    if Py.otruthy val then Some (Py.strip (Py.or_str val "")) else None.

(** auto_run, line 465:
    [pw = _env_root_password(cfg, env_name) or _dev_root_password(cfg)
          or "Password1"] *)
Definition run_root_password (cfg env_name : string) : string :=
  Py.or_str (Py.or_opt (_env_root_password cfg env_name)
                       (_dev_root_password cfg))
            "Password1".

Definition _host_data_dir_from_config (h : Host) (text env_name : string)
  : option Path :=
  let blk := _extract_env_block text env_name in
  if negb (Py.truthy blk) then None
  else
    let raw := _kv_from_block blk "data_dir" in
    if Py.otruthy raw then Some (to_path h (Py.strip (Py.or_str raw "")))
    else None.

Definition _default_local_db_dir (h : Host) : Path :=
  PathOps.join (PathOps.join (PathOps.join (PathOps.join (home h) "dev") "plsr")
                             "local") "db".

Definition _data_dir_container (text : string) : string :=
  let svc := _extract_block text "service" in
  Py.or_str (_kv_from_block svc "data_dir") "/var/lib/mysql".

(** ** The deletion gate *)

Definition _allowed_delete_host_dir (h : Host) (host_dir root : Path)
  (cfg_text env_name : string) : bool :=
  let bases :=
    [ resolve h (_default_local_db_dir h);
      resolve h (PathOps.join (PathOps.join (PathOps.join root ".plsr") "data")
                              "mariadb") ] in
  let cfg_path := _host_data_dir_from_config h cfg_text env_name in
  let bases :=
    match cfg_path with
    | Some p => (bases ++ [resolve h p])%list
    | None => bases
    end in
  let host_dir := resolve h host_dir in
  if existsb (fun base =>
                let base := resolve h base in
                PathOps.eqb host_dir base || PathOps.is_relative_to host_dir base)
             bases
  then true
  else
    let home_plsr :=
      resolve h (PathOps.join (PathOps.join (home h) "dev") "plsr") in
    if PathOps.is_relative_to host_dir home_plsr then true else false.

(** What the runner does to the outside world. *)
Inductive effect : Type :=
| Console (level text : string)       (* console.<level>(text) *)
| Rmtree (p : Path)                   (* shutil.rmtree(p) *)
| Mkdir (p : Path)                    (* p.mkdir(parents=True, exist_ok=True) *)
| Run (argv : list string).           (* console.run(argv) *)

(** One entry of [Mounts] and the object of [docker inspect]. *)
Record mount : Type := {
  Destination : option string;
  Type_ : option string;
  Source : option string
}.
Record inspect : Type := {
  Running : bool;                     (* bool(State.Running) *)
  Mounts : list mount
}.

Definition opt_eqb (o : option string) (s : string) : bool :=
  match o with Some x => String.eqb x s | None => false end.

Fixpoint mount_source (h : Host) (mounts : list mount) (container_data_path : string)
  : option Path :=
  match mounts with
  | [] => None
  | m :: ms =>
      if opt_eqb (Destination m) container_data_path && opt_eqb (Type_ m) "bind"
      then
        if Py.otruthy (Source m)
        then Some (to_path h (Py.or_str (Source m) ""))
        else mount_source h ms container_data_path
      else mount_source h ms container_data_path
  end.

Definition _db_mount_host_dir_from_inspect (h : Host) (obj : option inspect)
  (container_data_path : string) : option Path :=
  match obj with
  | Some o => mount_source h (Mounts o) container_data_path
  | None => None
  end.

Definition or_path (a : option Path) (b : Path) : Path :=
  match a with Some p => p | None => b end.

(** auto_stop, lines 529-533: the docker commands to run *)
Definition stop_actions (cname : string) (insp : option inspect) : list (list string) :=
  (match insp with
   | Some o => if Running o then [["docker"; "stop"; cname]] else []
   | None => []
   end ++
   match insp with
   | Some _ => [["docker"; "rm"; cname]]
   | None => []
   end)%list.

(** auto_stop, lines 535-539: the data directory to remove *)
Definition stop_host_dir (h : Host) (cfg env_name flavor : string)
  (data_cont : option string) (insp : option inspect) (keep_data : bool)
  : option Path :=
  if String.eqb flavor "db-mariadb" && negb keep_data then
    let from_mount :=
      match insp with
      | Some _ =>
          _db_mount_host_dir_from_inspect h insp
            (Py.or_str data_cont "/var/lib/mysql")
      | None => None
      end in
    match from_mount with
    | Some p => Some p
    | None =>
        Some (or_path (_host_data_dir_from_config h cfg env_name)
                      (_default_local_db_dir h))
    end
  else None.

(** auto_stop from [actions: List[List[str]] = []] (line 529) to its
    end.  [run_rc] is the exit code [console.run] returns for a
    command. *)
Definition auto_stop_tail (h : Host) (run_rc : list string -> Z)
  (root : Path) (cfg env_name flavor cname : string)
  (data_cont : option string) (insp : option inspect)
  (keep_data dry_run : bool) : list effect * Z :=
  let actions := stop_actions cname insp in
  let host_dir := stop_host_dir h cfg env_name flavor data_cont insp keep_data in
  if dry_run then
    (([Console "info" "Dry run (not executing). Planned actions:"]
        ++ map (fun a => Console "command" (String.concat " " a)) actions)
       ++ match host_dir with
          | Some p => [Console "info" ("Would delete data dir: " ++ PathOps.show p)]
          | None => []
          end,
     0)%list
  else
    let rc := fold_left (fun rc a => or_rc rc (run_rc a)) actions 0 in
    let ran := map Run actions in
    match host_dir with
    | None => (ran, rc)
    | Some p =>
        let host_dir := resolve h p in
        if path_exists h host_dir then
          if _allowed_delete_host_dir h host_dir root cfg env_name then
            if rmtree_ok h host_dir then
              (app ran [Rmtree host_dir;
                       Console "success" ("Deleted DB data dir: " ++ PathOps.show host_dir)],
               rc)
            else
              (app ran [Rmtree host_dir;
                       Console "error" ("Failed to delete " ++ PathOps.show host_dir)],
               or_rc rc 1)
          else
            (app ran [Console "warn" ("Refusing to delete non-whitelisted path: "
                                       ++ PathOps.show host_dir);
                     Console "tip" "Use --keep-data to skip deletion or adjust environments.<env>.data_dir to a safe path."],
             rc)
        else
          (app ran [Console "info" ("Data dir not found (nothing to delete): "
                                     ++ PathOps.show host_dir)],
           rc)
    end.

(** auto_run, lines 402-420: the data directory of a database service
    that is being redeployed. *)
Definition auto_run_reset_data (h : Host) (root : Path) (cfg env_name flavor : string)
  (insp_existing : option inspect) : list effect :=
  if String.eqb flavor "db-mariadb" then
    let data_cont := _data_dir_container cfg in
    let host_dir :=
      match _db_mount_host_dir_from_inspect h insp_existing data_cont with
      | Some p => p
      | None => or_path (_host_data_dir_from_config h cfg env_name)
                        (_default_local_db_dir h)
      end in
    let host_dir := resolve h host_dir in
    if _allowed_delete_host_dir h host_dir root cfg env_name then
      (if path_exists h host_dir then
         if rmtree_ok h host_dir then
           [Rmtree host_dir;
            Console "success" ("Deleted DB data dir: " ++ PathOps.show host_dir)]
         else
           [Rmtree host_dir;
            Console "warn" ("Failed to delete DB data dir " ++ PathOps.show host_dir)]
       else [])
      ++ [Mkdir host_dir;
          Console "success" ("Recreated DB data dir: " ++ PathOps.show host_dir)]
    else
      [Console "warn" ("Refusing to delete non-whitelisted path: " ++ PathOps.show host_dir);
       Console "tip" "Adjust environments.<env>.data_dir to a safe path under ~/dev/plsr or use the default."]
  else [].

(** ** The host port *)

(** [_is_port_free]: the probe binds a socket; [bind] raises OSError
    when the port is taken (caught: the answer is False) and
    OverflowError when the number is no port at all (not caught). *)
Definition _is_port_free (h : Host) (port : Z) : result bool :=
  if (0 <=? port) && (port <=? 65535) then Ok (port_bindable h port)
  else Raise "OverflowError".

(** [for p in range(start, start + n): ...], [n] iterations left *)
Fixpoint scan_ports (h : Host) (p : Z) (n : nat) : result (option Z) :=
  match n with
  | O => Ok None
  | S n' =>
      match _is_port_free h p with
      | Raise e => Raise e
      | Ok true => Ok (Some p)
      | Ok false => scan_ports h (p + 1) n'
      end
  end.

Definition _find_free_port (h : Host) (start attempts : Z) : result (option Z) :=
  scan_ports h start (Z.to_nat (Z.max 1 attempts)).

Definition yes_words : list string := ["1"; "true"; "yes"; "y"].

(** How the port step of auto_run ends. *)
Inductive port_step : Type :=
| Proceed (host_port : Z)             (* the run goes on with this host port *)
| Return (rc : Z).                    (* auto_run returns rc *)

Definition show_Z (z : Z) : string := pretty z.

(** auto_run, lines 373-388.  [strict_env] is
    [os.getenv("PLSR_STRICT_PORT")]. *)
Definition auto_run_port (h : Host) (strict_env : option string)
  (port_overrides : list string) (env_name : string)
  (container_port host_port : Z) : result (list effect * port_step) :=
  match port_overrides with
  | _ :: _ => Ok ([], Proceed host_port)
  | [] =>
      let strict :=
        str_in (Py.lower (Py.strip (match strict_env with
                                     | Some v => v
                                     | None => "0"
                                     end))) yes_words in
      match _is_port_free h host_port with
      | Raise e => Raise e
      | Ok true => Ok ([], Proceed host_port)
      | Ok false =>
          if strict then
            Ok ([ Console "error" ("Host port " ++ show_Z host_port
                    ++ " is already in use. Refusing to auto-shift due to PLSR_STRICT_PORT=1.");
                  Console "tip" ("macOS:   lsof -nP -iTCP:" ++ show_Z host_port
                    ++ " | grep LISTEN");
                  Console "tip" ("Docker:  docker ps --format '{{.Names}} -> {{.Ports}}' | grep :"
                    ++ show_Z host_port);
                  Console "tip" ("Change environments." ++ env_name
                    ++ ".port in config.yaml, stop the blocker, or run with -p <host>:<cont>.") ],
                Return 1)
          else
            match _find_free_port h (host_port + 1) 50 with
            | Raise e => Raise e
            | Ok None =>
                Ok ([ Console "error" ("No free port found near " ++ show_Z host_port
                        ++ ". Try specifying -p <host>:<cont> or set environments."
                        ++ env_name ++ ".port.") ],
                    Return 1)
            | Ok (Some new_port) =>
                Ok ([ Console "warn" ("Host port " ++ show_Z host_port
                        ++ " is in use. Using next available port: " ++ show_Z new_port);
                      Console "tip" ("Connect to the DB on host " ++ show_Z new_port
                        ++ " (container " ++ show_Z container_port ++ ").") ],
                    Proceed new_port)
            end
      end
  end.

End RunLocal.

(* ===================================================================== *)
(** * db_migrate.py                                                       *)
(* ===================================================================== *)

Module DbMigrate.
Import Re Config.

(** ** Dotenv files *)

Definition is_ident_start (c : ascii) : bool :=
  Py.is_upper c || Py.is_lower c || Ascii.eqb c "_".
Definition is_ident_char (c : ascii) : bool :=
  is_ident_start c || Py.is_digit c.

(** r'^\s*([A-Za-z_][A-Za-z0-9_]* )\s*=\s*(.* )\s*$' *)
Definition dotenv_rx : regex :=
  seqs [ BolStr; star ws;
         Grp 1 (Seq (Chr is_ident_start) (star (Chr is_ident_char)));
         star ws; chr "="; star ws; Grp 2 (star dot); star ws; EolStr ].

(** [v[1:-1]] when [v] is wrapped in one kind of quote *)
Definition unquote (v : string) : string :=
  let l := Py.chars v in
  match l, rev l with
  | a :: l', z :: _ =>
      if (2 <=? length l)%nat && Ascii.eqb a z && is_quote a
      then Py.str (removelast l')
      else v
  | _, _ => v
  end.

(** [k.split(None, 1)[-1]] for a [k] that starts with [export ] *)
Definition after_export (k : string) : string :=
  let r := Py.lstrip_by Py.isspace (skipn 6 (Py.chars k)) in
  match r with
  | [] => "export"
  | _ => Py.str r
  end.

Definition dotenv_line (out : gmap string string) (raw : string)
  : gmap string string :=
  if negb (Py.truthy raw) || Py.startswith (Py.lstrip raw) "#" then out
  else
    match rmatch dotenv_rx raw with
    | None => out
    | Some m =>
        let k := group m 1 in
        let v := unquote (Py.strip (group m 2)) in
        let k := if Py.startswith k "export " then after_export k else k in
        <[k := v]> out
    end.

(** The text files directly under the service root, by name. *)
Abbreviation files := (gmap string string).

Fixpoint first_file (fs : files) (candidates : list string) : option string :=
  match candidates with
  | [] => None
  | c :: cs =>
      match fs !! c with
      | Some text => Some text
      | None => first_file fs cs
      end
  end.

Definition _load_dotenv_map (fs : files) (env_name : string)
  : gmap string string :=
  match first_file fs [".env." ++ env_name; "env." ++ env_name; ".env"] with
  | Some text => fold_left dotenv_line (Py.splitlines text) ∅
  | None => ∅
  end.

(** ** The connection string *)

Definition _db_url_from_config (env : environ) (fs : files)
  (text env_name : string) : option string :=
  let ev := env !! "DATABASE_URL" in
  if Py.otruthy ev && Py.truthy (Py.strip (Py.or_str ev ""))
  then Some (Py.strip (Py.or_str ev "")) else
  let env_map := _load_dotenv_map fs env_name in
  if Py.otruthy (env_map !! "DATABASE_URL")
  then Some (Py.strip (Py.or_str (env_map !! "DATABASE_URL") "")) else
  let blk := _extract_env_block text env_name in
  let v := if Py.truthy blk then _kv_from_block blk "DATABASE_URL" else None in
  if Py.otruthy v then Some (Py.strip (Py.or_str v "")) else
  let default_blk := _extract_block text "default" in
  let v := _kv_from_block default_blk "DATABASE_URL" in
  if Py.otruthy v then Some (Py.strip (Py.or_str v "")) else
  let v := _kv_top text "DATABASE_URL" in
  if Py.otruthy v then Some (Py.strip (Py.or_str v "")) else
  None.

Definition _root_password (text env_name : string) : string :=
  let blk := _extract_env_block text env_name in
  let v := if Py.truthy blk then _kv_from_block blk "root_pw" else None in
  if Py.otruthy v then Py.strip (Py.or_str v "") else
  let dev_blk := _extract_block text "dev" in
  let v :=
    if Py.truthy dev_blk then
      let sub := match search (block_re "root") dev_blk with
                 | Some m => group m 1
                 | None => ""
                 end in
      _kv_from_block sub "password"
    else None in
  if Py.otruthy v then Py.strip (Py.or_str v "") else
  "Password1".

(** ** The connection string, parsed *)

Record MySQLConn : Type := {
  conn_host : string; conn_port : Z; conn_user : string;
  conn_password : string; conn_db : string
}.

(** [s.split(sep, 1)]: the text before the first [sep] and the text
    after it, when [sep] occurs in [s]. *)
Fixpoint split_once_l (sep : list ascii) (acc s : list ascii)
  : option (list ascii * list ascii) :=
  if Py.startswith_l sep s then Some (rev acc, skipn (length sep) s)
  else match s with
       | [] => None
       | c :: s' => split_once_l sep (c :: acc) s'
       end.
Definition split_once (s sep : string) : option (string * string) :=
  match split_once_l (Py.chars sep) [] (Py.chars s) with
  | Some (a, b) => Some (Py.str a, Py.str b)
  | None => None
  end.

(** [urlparse] is the part of _parse_mysql_like that urllib does
    (lines 175-183), applied to [base://rest]. *)
Definition _parse_mysql_like (urlparse : string -> result MySQLConn)
  (url : string) : result MySQLConn :=
  match split_once url "://" with
  | None => Raise "ValueError"
  | Some (scheme, rest) =>
      let base := match split_once scheme "+" with
                  | Some (b, _) => b
                  | None => scheme
                  end in
      if negb (String.eqb base "mysql") then Raise "ValueError"
      else urlparse (base ++ "://" ++ rest)
  end.

(** ** The migration files *)

Inductive entry : Type :=
| File (content : string)
| Dir.
(** a directory: its entries by name *)
Abbreviation directory := (gmap string entry).

(** a path of [db/] that is a file, with its bytes *)
Record sqlfile : Type := { fname : string; fbytes : string }.

Definition endswith (s suffix : string) : bool :=
  Py.startswith_l (rev (Py.chars suffix)) (rev (Py.chars s)).

Definition name_le (a b : sqlfile) : Prop := String.leb (fname a) (fname b) = true.
#[export] Instance name_le_dec : RelDecision name_le.
Proof. intros a b. unfold name_le. apply _. Defined.

Definition sql_entry (ne : string * entry) : option sqlfile :=
  match ne.2 with
  | File c => if endswith ne.1 ".sql" then Some {| fname := ne.1; fbytes := c |} else None
  | Dir => None
  end.

(** [sorted([p for p in db_dir.glob("*.sql") if p.is_file()],
           key=lambda x: x.name)] *)
Definition _list_sql_files (db_dir : directory) : list sqlfile :=
  merge_sort name_le (omap sql_entry (map_to_list db_dir)).

(** ** The database *)

(** What a run does to the database, and what it prints. *)
Inductive event : Type :=
| Executed (name : string)            (* _exec_sql_file ran the file *)
| Inserted (name checksum : string)   (* a ledger row was inserted *)
| Console (level text : string).

(** The table schema_migrations ([name] is its primary key) and the
    events so far. *)
Record Db : Type := {
  ledger : gmap string string;
  history : list event
}.

(** The mysql client and the hash function, as the run meets them.
    An exit code may depend on everything that happened before. *)
Record Client : Type := {
  sha256_hex : string -> string;      (* hashlib.sha256(bytes).hexdigest() *)
  exec_rc : Db -> sqlfile -> Z;       (* exit code of running a file *)
  insert_err : Db -> string -> string -> Z;
                                      (* an INSERT failing for an outside reason *)
  select_rc : Db -> Z                 (* exit code of the ledger SELECT *)
}.

Definition say (db : Db) (level text : string) : Db :=
  {| ledger := ledger db; history := history db ++ [Console level text] |}.
Definition note (db : Db) (e : event) : Db :=
  {| ledger := ledger db; history := history db ++ [e] |}.

Definition _file_checksum (c : Client) (f : sqlfile) : string :=
  sha256_hex c (fbytes f).

(** The cells of the non-blank lines the client prints for
    SELECT name, checksum (the list [rows] of line 256): a header line
    and one line per row, nothing for an empty table. *)
Definition select_rows (db : Db) : list (list string) :=
  match map_to_list (ledger db) with
  | [] => []
  | rows => ["name"; "checksum"] :: map (fun nc => [nc.1; nc.2]) rows
  end.

Definition add_row (acc : result (gmap string string)) (row : list string)
  : result (gmap string string) :=
  match acc with
  | Raise e => Raise e
  | Ok m =>
      match row with
      | [name; cks] => if Py.truthy name then Ok (<[name := cks]> m) else Ok m
      | _ => Raise "ValueError"
      end
  end.

Definition _already_applied (code : Z) (rows : list (list string))
  : result (gmap string string) :=
  if negb (code =? 0) then Ok ∅
  else
    let rows :=
      match rows with
      | (c :: _) :: rest => if String.eqb (Py.lower c) "name" then rest else rows
      | _ => rows
      end in
    fold_left add_row rows (Ok ∅).

(** INSERT INTO schema_migrations: refused when the primary key is
    already there. *)
Definition _insert_ledger (c : Client) (db : Db) (name checksum : string)
  : Z * Db :=
  let err := insert_err c db name checksum in
  if negb (err =? 0) then (err, db)
  else
    match ledger db !! name with
    | Some _ => (1, db)
    | None =>
        (0, {| ledger := <[name := checksum]> (ledger db);
               history := history db ++ [Inserted name checksum] |})
    end.

Definition opt_str_eqb (o : option string) (s : string) : bool :=
  match o with Some x => String.eqb x s | None => false end.

(** migrate, lines 356-383: the loop and what follows it.  (The two
    progress messages are given without their leading glyph.) *)
Fixpoint apply_files (c : Client) (applied : gmap string string)
  (fs : list sqlfile) (db : Db) : Z * Db :=
  match fs with
  | [] => (0, say db "success" "All migrations are up to date.")
  | path :: fs' =>
      let name := fname path in
      let checksum := _file_checksum c path in
      if opt_str_eqb (applied !! name) checksum then
        apply_files c applied fs' (say db "info" (name ++ " (already applied)"))
      else if match applied !! name with
              | Some old => negb (String.eqb old checksum)
              | None => false
              end then
        (1, say (say db "error" ("Refusing to re-apply modified migration: " ++ name))
                "tip" "Create a new numbered migration file instead.")
      else
        let db := say db "info" ("Applying " ++ name) in
        let code := exec_rc c db path in
        let db := note db (Executed name) in
        if negb (code =? 0) then (code, say db "error" ("Migration failed: " ++ name))
        else
          let '(rec, db) := _insert_ledger c db name checksum in
          if negb (rec =? 0) then
            (rec, say db "error" ("Failed to record migration in ledger: " ++ name))
          else apply_files c applied fs' (say db "success" ("Applied " ++ name))
  end.

(** What migrate finds outside the database. *)
Record World : Type := {
  mysql_bin : bool;                   (* _mysql_bin() is not None *)
  env_vars : environ;                 (* os.environ *)
  root_files : files;                 (* the files of the service root *)
  urlparse : string -> result MySQLConn;
  ping_rc : nat -> Z;                 (* exit code of the n-th SELECT 1 *)
  ensure_db_rc : Z;                   (* _ensure_db_and_user *)
  ensure_ledger_rc : Z;               (* _ensure_ledger *)
  db_dir : option directory           (* root / "db", when a directory *)
}.

Definition _read_config_text (fs : files) : string :=
  match fs !! "config.yaml" with Some t => t | None => "" end.

(** [for _ in range(max(1, attempts))] over the pings *)
Definition _wait_for_db (w : World) (attempts : nat) : bool :=
  existsb (fun i => ping_rc w i =? 0) (seq 0 (Nat.max 1 attempts)).

(** migrate, lines 344-383 *)
Definition migrate_files (w : World) (c : Client) (db : Db) : result (Z * Db) :=
  match db_dir w with
  | None => Ok (0, say db "warn" "No 'db/' directory. Nothing to migrate.")
  | Some d =>
      let fs := _list_sql_files d in
      match fs with
      | [] => Ok (0, say db "warn" "No SQL files found under db/. Nothing to migrate.")
      | _ =>
          match _already_applied (select_rc c db) (select_rows db) with
          | Raise e => Raise e
          | Ok applied => Ok (apply_files c applied fs db)
          end
      end
  end.

Definition migrate (w : World) (c : Client) (env_name : string) (db : Db)
  : result (Z * Db) :=
  if negb (Py.truthy env_name) then
    Ok (2, say db "error" "Environment name is required. Use: ctl.sh db migrate <env>")
  else if negb (mysql_bin w) then
    Ok (127, say db "error" "MySQL client not found (mysql/mariadb).")
  else
    let cfg := _read_config_text (root_files w) in
    if negb (Py.truthy cfg) then Ok (2, say db "error" "No config.yaml found")
    else
      let url := _db_url_from_config (env_vars w) (root_files w) cfg env_name in
      if negb (Py.otruthy url) then
        Ok (2, say db "error"
                 "DATABASE_URL is required (in environments.<env>, default, .env, or env var).")
      else
        match _parse_mysql_like (urlparse w) (Py.or_str url "") with
        | Raise e => Ok (2, say db "error" ("Invalid DATABASE_URL: " ++ e))
        | Ok svc_conn =>
            if negb (_wait_for_db w 60) then
              Ok (1, say db "error"
                       "Database is not reachable at the configured host/port.")
            else if negb (ensure_db_rc w =? 0) then Ok (ensure_db_rc w, db)
            else if negb (ensure_ledger_rc w =? 0) then Ok (ensure_ledger_rc w, db)
            else migrate_files w c db
        end.

End DbMigrate.

(* ===================================================================== *)
(** * The project manifest (pyproject.toml), parsed                       *)
(* ===================================================================== *)

(** The four fields the program reads from the parsed manifest:
  [project.name], [project.version], [tool.poetry.name] and
  [tool.poetry.version].  A manifest that does not parse is the empty
  one ([data = {}]). *)
Record manifest : Type := {
  project_name : option string;
  project_version : option string;
  poetry_name : option string;
  poetry_version : option string
}.

Definition empty_manifest : manifest :=
{| project_name := None; project_version := None;
   poetry_name := None; poetry_version := None |}.

(* ===================================================================== *)
(** * helm_release.py                                                     *)
(* ===================================================================== *)

Module HelmRelease.
Import Re Config.

Definition _name_version (text : string) (root : Path) : string * string :=
  (Py.or_str (_kv_top text "name") (PathOps.name root),
   Py.or_str (_kv_top text "version") "0.0.0").

Definition _flavor (text : string) : string :=
  let svc := _extract_block text "service" in
  let fl := Py.strip (Py.lower (Py.or_str (_kv_from_block svc "flavor") "")) in
  if RunLocal.str_in fl RunLocal.db_aliases then "db-mariadb" else "python-app".

Definition not_quote (c : ascii) : bool := negb (is_quote c).

(** r'(?mi)^\s*ECR\s*:\s*[dq']?([^dq']+?)[dq']?\s*$' (dq is the double
    quote) *)
Definition explicit_ecr_re : regex :=
  seqs [ Bol; star ws; lit_ci "ECR"; star ws; chr ":"; star ws;
         opt (Chr is_quote); Grp 1 (plus_lazy (Chr not_quote));
         opt (Chr is_quote); star ws; Eol ].

(** r'([0-9]{12}\.dkr\.ecr\.[a-z0-9-]+)\.amazonaws\.com' with re.I *)
Definition priv_ecr_re_i : regex :=
  seqs [ Grp 1 (seqs [ times 12 (Chr Py.is_digit); lit_ci ".dkr.ecr.";
                       plus (Chr (ci RunLocal.is_lower_digit_dash)) ]);
         lit_ci ".amazonaws.com" ].

(** r'(public\.ecr\.aws/[A-Za-z0-9-]+)' with re.I *)
Definition pub_ecr_re_i : regex :=
  Grp 1 (seqs [ lit_ci "public.ecr.aws/"; plus (Chr (ci RunLocal.is_alnum_dash)) ]).

Definition ecr_vars : list string := ["ECR"; "ECR_URL"; "AWS_ECR"; "AWS_ECR_URL"].

(** [for var in (...): v = os.getenv(var); if v and v.strip(): return ...] *)
Fixpoint first_env (env : environ) (vars : list string) : option string :=
  match vars with
  | [] => None
  | var :: vars' =>
      let v := env !! var in
      if Py.otruthy v && Py.truthy (Py.strip (Py.or_str v ""))
      then Some (RunLocal.trim_root (Py.or_str v ""))
      else first_env env vars'
  end.

Definition _ecr_root (env : environ) (text : string) : option string :=
  match first_env env ecr_vars with
  | Some v => Some v
  | None =>
      match search explicit_ecr_re text with
      | Some m => Some (RunLocal.trim_root (group m 1))
      | None =>
          match search priv_ecr_re_i text with
          | Some m => Some (RunLocal.trim_root (group m 0))
          | None =>
              match search pub_ecr_re_i text with
              | Some m => Some (RunLocal.trim_root (group m 1))
              | None => None
              end
          end
      end
  end.

(** The first component of _db_env_values: the root password. *)
Definition db_env_root_pw (text env_name : string) : string :=
  let envs := _extract_block text "environments" in
  let blk :=
    if Py.truthy envs then
      match search (block_re env_name) envs with
      | Some m => group m 1
      | None => ""
      end
    else "" in
  let root_pw := _kv_from_block blk "root_pw" in
  let root_pw :=
    if negb (Py.otruthy root_pw) then
      let dev := _extract_block text "dev" in
      if Py.truthy dev then
        let root := _extract_block dev "root" in
        Py.or_opt (_kv_from_block root "password") root_pw
      else root_pw
    else root_pw in
  Py.or_str root_pw "Password1".

(** ** The pull check *)

(** [containerStatuses[i]]: the fields the loop reads ([imageID],
    [state.waiting.reason], [state.waiting.message]) and two it does
    not. *)
Record container_status : Type := {
  imageID : option string;
  waiting_reason : option string;
  waiting_message : option string;
  ready : bool;                         (* read by nothing in the program *)
  running : bool                        (* [state.running] is there; likewise *)
}.

(** One answer of _pod_status_json: [None] when it returns None or an
    empty object, else the list [status.containerStatuses] (empty when
    the key is missing). *)
Abbreviation observation := (option (list container_status)).

Definition terminal_reasons : list string :=
  ["ErrImagePull"; "ImagePullBackOff"; "RegistryUnavailable";
   "InvalidImageName"; "Unauthorized"; "Forbidden"].

Inductive event : Type :=
| Poll                                (* _pod_status_json(ns, pod_name) *)
| Sleep                               (* time.sleep(2) *)
| Console (level text : string)
| DeletePod.                          (* _delete_pod(ns, pod_name) *)

Inductive loop_end : Type :=
| Pulled                              (* return 0 from inside the loop *)
| Broke (reason message : string)     (* break *)
| Expired.                            (* the deadline passed *)

(** The while loop of lines 299-317.  The list holds the answers the
    pod gives to the successive polls that start before the deadline;
    the loop ends with [Expired] when they are used up. *)
Fixpoint poll_loop (answers : list observation) : list event * loop_end :=
  match answers with
  | [] => ([], Expired)
  | obj :: later =>
      let keep_polling :=
        let '(evs, e) := poll_loop later in (Poll :: Sleep :: evs, e) in
      match obj with
      | None => keep_polling
      | Some [] => keep_polling
      | Some (st :: _) =>
          let image_id := Py.or_str (imageID st) "" in
          if Py.truthy image_id then
            ([Poll; Console "success" "Cluster verified: image pulled successfully."],
             Pulled)
          else
            let reason := Py.strip (Py.or_str (waiting_reason st) "") in
            let message := Py.strip (Py.or_str (waiting_message st) "") in
            if RunLocal.str_in reason terminal_reasons
            then ([Poll], Broke reason message)
            else keep_polling
      end
  end.

(** _verify_namespace_can_pull_image *)
Definition _verify_namespace_can_pull_image (have_kubectl : bool) (apply_rc : Z)
  (answers : list observation) : Z * list event :=
  if negb have_kubectl then
    (127, [Console "error" "kubectl is required for image pull preflight."])
  else if negb (apply_rc =? 0) then
    (apply_rc, [Console "error" "Failed to create pullcheck pod."; DeletePod])
  else
    let '(evs, e) := poll_loop answers in
    match e with
    | Pulled => (0, app evs [DeletePod])
    | Broke last_reason last_message =>
        (1, app evs [Console "error" ("Image pull preflight failed: " ++ last_reason
                                       ++ ": " ++ last_message);
                     DeletePod])
    | Expired =>
        (1, app evs [Console "error" "Image pull preflight did not succeed before timeout.";
                     Console "tip" "Check node egress, cluster DNS, and image/credentials. Inspect events with: kubectl describe pod";
                     DeletePod])
    end.

End HelmRelease.

(* ===================================================================== *)
(** * build.py                                                            *)
(* ===================================================================== *)

Module Build.
Import Re Config.

(** r'(?m)^\s*KEY\s*:\s*[dq']?([^dq']+?)[dq']?\s*$' for KEY = name and
    KEY = version (dq is the double quote); also used by
    core/bootstrap.py *)
Definition top_re (key : string) : regex :=
  seqs [ Bol; star ws; lit key; star ws; chr ":"; star ws;
         opt (Chr is_quote); Grp 1 (plus_lazy (Chr HelmRelease.not_quote));
         opt (Chr is_quote); star ws; Eol ].

Definition top_field (key text : string) : option string :=
  match search (top_re key) text with
  | Some m => Some (Py.strip (group m 1))
  | None => None
  end.

(** [os.getenv("ECR") or os.getenv("ECR_URL") or os.getenv("AWS_ECR")
     or os.getenv("AWS_ECR_URL")] *)
Definition ecr_env (env : environ) : option string :=
  Py.or_opt (env !! "ECR")
    (Py.or_opt (env !! "ECR_URL")
       (Py.or_opt (env !! "AWS_ECR") (env !! "AWS_ECR_URL"))).

(** _read_fields_from_config_yaml: (name, version, ecr_root, flavor).
    [text] is what _read_text_config returns. *)
Definition _read_fields_from_config_yaml (env : environ) (text : string)
  : option string * option string * option string * string :=
  if negb (Py.truthy text) then (None, None, None, "python-app")
  else
    let name := top_field "name" text in
    let ver := top_field "version" text in
    let svc := _extract_block text "service" in
    let fl := Py.strip (Py.lower (Py.or_str (_kv_from_block svc "flavor") "")) in
    let flavor :=
      if RunLocal.str_in fl RunLocal.db_aliases then "db-mariadb" else "python-app" in
    let ecr :=
      match search HelmRelease.explicit_ecr_re text with
      | Some m => Some (RunLocal.trim_root (group m 1))
      | None => None
      end in
    let ecr :=
      if negb (Py.otruthy ecr) then
        let e := ecr_env env in
        if Py.otruthy e then Some (RunLocal.trim_root (Py.or_str e "")) else ecr
      else ecr in
    let ecr :=
      if negb (Py.otruthy ecr) then
        match search RunLocal._PRIV_ECR_HOST text with
        | Some m => Some (RunLocal.trim_root (group m 1))
        | None =>
            match search RunLocal._PUB_ECR_HOST text with
            | Some m => Some (RunLocal.trim_root (group m 1))
            | None => ecr
            end
        end
      else ecr in
    (name, ver, ecr, flavor).

Definition _compose_image_ref (name version ecr : string) : string :=
  Py.rstrip_slash ecr ++ "/" ++ name ++ ":" ++ version.

End Build.

(* ===================================================================== *)
(** * app.py and core/bootstrap.py: the identity of the service           *)
(* ===================================================================== *)

Module App.

(** app.read_app_metadata.  [pyproject] is the parsed manifest when
    [app_root / "pyproject.toml"] is a file. *)
Definition read_app_metadata (pyproject : option manifest) (app_root : Path)
  : string * string :=
  let name := "" in
  let version := "" in
  let '(name, version) :=
    match pyproject with
    | Some data =>
        let name := Py.or_str (Some (Py.or_str (project_name data) "")) name in
        let version := Py.or_str (Some (Py.or_str (project_version data) "")) version in
        let name := Py.or_str (Some name) (Py.or_str (poetry_name data) "") in
        let version := Py.or_str (Some version) (Py.or_str (poetry_version data) "") in
        (name, version)
    | None => (name, version)
    end in
  let name := if negb (Py.truthy name) then PathOps.name app_root else name in
  let version := if negb (Py.truthy version) then "0.0.0" else version in
  (name, version).

(** app.start: the identity it prints.  APP_NAME and APP_VERSION
    override what the manifest gives. *)
Definition start_identity (env : environ) (pyproject : option manifest)
  (root : Path) : string * string :=
  let '(app_name, app_version) := read_app_metadata pyproject root in
  (Py.or_str (env !! "APP_NAME") app_name,
   Py.or_str (env !! "APP_VERSION") app_version).

End App.

Module Bootstrap.

(** _read_name_version_from_config_yaml; [cfg] is the text of
    config.yaml when it is a file. *)
Definition _read_name_version_from_config_yaml (cfg : option string)
  : option string * option string :=
  match cfg with
  | None => (None, None)
  | Some text => (Build.top_field "name" text, Build.top_field "version" text)
  end.

Definition none_if_empty (s : string) : option string :=
  if Py.truthy s then Some s else None.

Definition _read_name_version_from_pyproject (pyproject : option manifest)
  : option string * option string :=
  match pyproject with
  | None => (None, None)
  | Some data =>
      let name := Py.or_str (Some (Py.or_str (project_name data) "")) "" in
      let version := Py.or_str (Some (Py.or_str (project_version data) "")) "" in
      let name := Py.or_str (Some name)
                    (Py.or_str (Some (Py.or_str (poetry_name data) "")) name) in
      let version := Py.or_str (Some version)
                       (Py.or_str (Some (Py.or_str (poetry_version data) "")) version) in
      (none_if_empty name, none_if_empty version)
  end.

(** _run_cli_inline: the identity handed to _export_identity_env. *)
Definition cli_identity (cfg : option string) (pyproject : option manifest)
  (app_root : Path) : string * string :=
  let '(name, ver) := _read_name_version_from_config_yaml cfg in
  if negb (Py.otruthy name) || negb (Py.otruthy ver) then
    let '(name2, ver2) := _read_name_version_from_pyproject pyproject in
    (Py.or_str (Py.or_opt name name2) (PathOps.name app_root),
     Py.or_str (Py.or_opt ver ver2) "0.0.0")
  else (Py.or_str name "", Py.or_str ver "").

End Bootstrap.

(* ===================================================================== *)
(** * Example inputs                                                      *)
(* ===================================================================== *)

Module Examples.

Fixpoint split_slash (cur : list ascii) (l : list ascii) : list string :=
  match l with
  | [] => match cur with [] => [] | _ => [Py.str (rev cur)] end
  | c :: l' =>
      if Ascii.eqb c "/"
      then match cur with
           | [] => split_slash [] l'
           | _ => Py.str (rev cur) :: split_slash [] l'
           end
      else split_slash (c :: cur) l'
  end.

(** [Path(s).expanduser().resolve()] for an absolute [s] on a host
    without symbolic links *)
Definition parse_path (s : string) : Path := split_slash [] (Py.chars s).

(** A host without symbolic links where every path exists, every
    removal succeeds and only port 3306 is taken. *)
Definition host : Host :=
  {| home := ["home"; "dev"];
     to_path := parse_path;
     resolve := fun p => p;
     path_exists := fun _ => true;
     rmtree_ok := fun _ => true;
     port_bindable := fun p => negb (p =? 3306) |}.

Definition service_root : Path := ["srv"; "svc-db"].

(** No flavor under [service]; a flavor key in a later block. *)
Definition cfg_flavor_elsewhere : string :=
"name: billing
version: 1.2.0
service:
  port: 8000
database:
  flavor: mysql
".

(** No data_dir under [environments.local]; the container path of the
    data under [service], after it. *)
Definition cfg_data_dir_elsewhere : string :=
"name: svc-db
environments:
  local:
    port: 3307
service:
  flavor: mariadb
  data_dir: /var/lib/mysql
".

(** A connection string for [dev] in config.yaml, a blank quoted one in
    [.env.dev]. *)
Definition cfg_dev_url : string :=
"environments:
  dev:
    DATABASE_URL: mysql://app:pw@db.internal/app
".
Definition files_blank_dotenv : DbMigrate.files :=
  <[ ".env.dev" := "DATABASE_URL='  '
" ]> (<[ "config.yaml" := cfg_dev_url ]> ∅).

(** A connection string for [prod] only. *)
Definition cfg_prod_url : string :=
"name: billing
environments:
  prod:
    DATABASE_URL: mysql://app:pw@prod-db/app
".

End Examples.

(* ===================================================================== *)
(** * Vocabulary of the statements                                        *)
(* ===================================================================== *)

Module Gate.

(** [p] is [base] or lies below it. *)
Definition nested_under (p base : Path) : Prop := exists rest, p = (base ++ rest)%list.

(** The bases of the deletion gate, resolved the way
    _allowed_delete_host_dir resolves them: the default directory, the
    directory under the service root, the directory the resolver
    _host_data_dir_from_config returns (when it returns one), and the
    namespace under the home directory. *)
Definition allow_list (h : Host) (root : Path) (cfg env_name : string) : list Path :=
  ([ resolve h (resolve h (RunLocal._default_local_db_dir h));
     resolve h (resolve h (PathOps.join (PathOps.join (PathOps.join root ".plsr")
                                                       "data") "mariadb")) ]
   ++ match RunLocal._host_data_dir_from_config h cfg env_name with
      | Some p => [resolve h (resolve h p)]
      | None => []
      end
   ++ [ resolve h (PathOps.join (PathOps.join (home h) "dev") "plsr") ])%list.

(** A mutation of the file system at [p] *)
Definition touches (p : Path) (e : RunLocal.effect) : Prop :=
  e = RunLocal.Rmtree p \/ e = RunLocal.Mkdir p.

End Gate.

Module MigrateExamples.
Import DbMigrate.

Definition conn : MySQLConn :=
  {| conn_host := "db.internal"; conn_port := 3306; conn_user := "app";
     conn_password := "pw"; conn_db := "app" |}.

(** A directory [db/] of two migrations and two entries that are none. *)
Definition db_dir_two : directory :=
  <[ "002_add_index.sql" := File "CREATE INDEX i ON t (a);" ]>
    (<[ "001_init.sql" := File "CREATE TABLE t (a INT);" ]>
       (<[ "README" := File "notes" ]> (<[ "old.sql" := Dir ]> ∅))).

(** A world where everything outside the database answers. *)
Definition world (env : environ) (fs : files) (d : option directory) : World :=
  {| mysql_bin := true; env_vars := env; root_files := fs;
     urlparse := fun _ => Ok conn; ping_rc := fun _ => 0;
     ensure_db_rc := 0; ensure_ledger_rc := 0; db_dir := d |}.

(** A client whose commands all succeed. *)
Definition client : Client :=
  {| sha256_hex := fun bytes => "sha256:" ++ bytes;
     exec_rc := fun _ _ => 0;
     insert_err := fun _ _ _ => 0;
     select_rc := fun _ => 0 |}.


Definition empty_db : Db := {| ledger := ∅; history := [] |}.

End MigrateExamples.

(** The precedences as the specification words them, over the values
    the extractor of the program returns for each source. *)
Module Claimed.




(** The first of two optional strings that is not empty *)
Definition first_of (a b : option string) : option string := Py.or_opt a b.

(** Section 4.2: the top-level config keys, then the manifest's name
    and version ([project], then [tool.poetry]), then the directory
    basename and "0.0.0".  [cfg_name] and [cfg_version] are what the
    reader of the config returns. *)
Definition identity (cfg_name cfg_version : option string) (m : option manifest)
  (root : Path) : string * string :=
  let m := match m with Some m => m | None => empty_manifest end in
  (Py.or_str (first_of cfg_name (first_of (project_name m) (poetry_name m)))
             (PathOps.name root),
   Py.or_str (first_of cfg_version (first_of (project_version m) (poetry_version m)))
             "0.0.0").

End Claimed.

Module RegistryExamples.





End RegistryExamples.

Module IdentityExamples.

(** A config without name and version. *)
Definition cfg_anonymous : string :=
"ECR: 111111111111.dkr.ecr.us-east-1.amazonaws.com
".

Definition cfg_named : string :=
"name: billing
version: 1.2.0
".

Definition pyproject : manifest :=
  {| project_name := Some "billing-api"; project_version := Some "3.4.5";
     poetry_name := None; poetry_version := None |}.

Definition root : Path := ["srv"; "checkout"].

End IdentityExamples.

Module PasswordExamples.


(** Neither key, and no [dev] block. *)
Definition cfg_plain : string :=
"name: svc-db
version: 1.0.0
".

End PasswordExamples.

Module Ports.





End Ports.

Module PullCheck.
Import HelmRelease.

(** An answer that decides nothing: no object, no container status, or
    a first status without image digest and without a terminal reason. *)
Definition undecided (o : observation) : bool :=
  match o with
  | None => true
  | Some [] => true
  | Some (st :: _) =>
      negb (Py.truthy (Py.or_str (imageID st) ""))
      && negb (RunLocal.str_in (Py.strip (Py.or_str (waiting_reason st) ""))
                               terminal_reasons)
  end.

(** What the loop does while nothing is decided: a poll and a sleep per
    answer. *)
Definition waited (answers : list observation) : list event :=
  flat_map (fun _ => [Poll; Sleep]) answers.

Definition is_poll (e : event) : bool :=
  match e with Poll => true | _ => false end.
Definition polls (evs : list event) : nat := length (List.filter is_poll evs).


(** A container whose image has a digest and which is not ready and not
    running. *)
Definition st_pulled : container_status :=
  {| imageID := Some "docker-pullable://registry/app@sha256:0123";
     waiting_reason := Some "ContainerCreating"; waiting_message := None;
     ready := false; running := false |}.


End PullCheck.

Module Ledger.
Import DbMigrate.

(** Every row of [db] is a row of [db'], unchanged. *)
Definition rows_kept (db db' : Db) : Prop :=
  forall n c, ledger db !! n = Some c -> ledger db' !! n = Some c.


(** What a run has added to the events of [db] *)
Definition added (db db' : Db) : list event := skipn (length (history db)) (history db').

(** The dictionary the comprehension of line 259 builds from the cells
    of the data rows *)
Definition dict_of (rows : list (string * string)) (m : gmap string string)
  : gmap string string :=
  fold_left (fun m nc => if Py.truthy nc.1 then <[nc.1 := nc.2]> m else m) rows m.

End Ledger.

Module LedgerExamples.
Import DbMigrate MigrateExamples.

Definition files_cfg : files :=
  <[ "config.yaml" := "DATABASE_URL: mysql://app:pw@db.internal/app
" ]> ∅.

Definition world_two : World := world ∅ files_cfg (Some db_dir_two).

(** A ledger that holds the first migration under another checksum. *)
Definition db_modified : Db :=
  {| ledger := <[ "001_init.sql" := "sha256:CREATE TABLE t (a TEXT);" ]> ∅;
     history := [] |}.

Definition file_001 : sqlfile :=
  {| fname := "001_init.sql"; fbytes := "CREATE TABLE t (a INT);" |}.
Definition file_002 : sqlfile :=
  {| fname := "002_add_index.sql"; fbytes := "CREATE INDEX i ON t (a);" |}.

(** The database after a first run over [db_dir_two] *)
Definition db_after_first : Db :=
  {| ledger := <[ "002_add_index.sql" := "sha256:CREATE INDEX i ON t (a);" ]>
                 (<[ "001_init.sql" := "sha256:CREATE TABLE t (a INT);" ]> ∅);
     history :=
       [ Console "info" "Applying 001_init.sql";
         Executed "001_init.sql";
         Inserted "001_init.sql" "sha256:CREATE TABLE t (a INT);";
         Console "success" "Applied 001_init.sql";
         Console "info" "Applying 002_add_index.sql";
         Executed "002_add_index.sql";
         Inserted "002_add_index.sql" "sha256:CREATE INDEX i ON t (a);";
         Console "success" "Applied 002_add_index.sql";
         Console "success" "All migrations are up to date." ] |}.

End LedgerExamples.
(* ===================================================================== *)
(** * The matcher, declaratively                                          *)
(* ===================================================================== *)

Module ReSem.
Import Re.

(** What it means for a pattern to take the cursor from one state to
    another, whatever the priorities of the matcher. *)
Inductive matches : regex -> mstate -> mstate -> Prop :=
| M_Eps st : matches Eps st st
| M_Chr p c cs pr cp :
    p c = true -> matches (Chr p) (MState pr (c :: cs) cp) (MState (Some c) cs cp)
| M_Bol st : at_bol st = true -> matches Bol st st
| M_Eol st : at_eol st = true -> matches Eol st st
| M_BolStr st : at_bos st = true -> matches BolStr st st
| M_EolStr st : at_eos st = true -> matches EolStr st st
| M_Seq a b st1 st2 st3 :
    matches a st1 st2 -> matches b st2 st3 -> matches (Seq a b) st1 st3
| M_AltL a b st st' : matches a st st' -> matches (Alt a b) st st'
| M_AltR a b st st' : matches b st st' -> matches (Alt a b) st st'
| M_Star0 g a st : matches (Star g a) st st
| M_StarS g a st1 st2 st3 :
    matches a st1 st2 -> progressed st1 st2 = true ->
    matches (Star g a) st2 st3 -> matches (Star g a) st1 st3
| M_Grp n a st st' : matches a st st' -> matches (Grp n a) st (close_group n st st').

(** The loop of [go] at a repetition, by name. *)
Definition star_loop (a : regex) (greedy : bool) (k : mstate -> option mstate) :=
  fix loop (fuel : nat) (st : mstate) {struct fuel} : option mstate :=
    match fuel with
    | O => k st
    | S fuel' =>
        let again :=
          go a st (fun st' =>
            if progressed st st' then loop fuel' st' else None) in
        if greedy then
          match again with
          | Some m => Some m
          | None => k st
          end
        else
          match k st with
          | Some m => Some m
          | None => again
          end
    end.

(** A pattern without a capturing group. *)
Fixpoint nogroup (r : regex) : bool :=
  match r with
  | Grp _ _ => false
  | Seq a b | Alt a b => nogroup a && nogroup b
  | Star _ a => nogroup a
  | _ => true
  end.

(** The character before the cursor once [w] has been read. *)
Definition after (pr : option ascii) (w : list ascii) : option ascii :=
  fold_left (fun _ c => Some c) w pr.

(** The text [r] does not go on with a character of the class [p]. *)
Definition stops (p : ascii -> bool) (r : list ascii) : Prop :=
  match r with c :: _ => p c = false | [] => True end.

End ReSem.

(* ===================================================================== *)
(** * The config extractor: what its patterns are made of                 *)
(* ===================================================================== *)

Module ConfigText.
Import Re Config.

(** The characters a value never holds: the comment sign, the carriage
    return, the newline and the two quotes. *)
Definition forbidden_in_value : list ascii := ["#"%char; cr; newline; sq; dq].

(** The part of the key/value pattern after the value: an optional
    closing quote, blanks, an optional comment, the end of the line. *)
Definition kv_tail : regex :=
  seqs [ opt (Chr is_quote); star ws; opt (Seq (chr "#") (star dot)); Eol ].

(** [n] spaces *)
Definition spaces (n : nat) : string := Py.str (repeat " "%char n).

(** the line feed as a text *)
Definition nl : string := String newline "".

(** A line [key: value] indented by [n] spaces. *)
Definition kv_line (n : nat) (key v : string) : string :=
  spaces n ++ key ++ ": " ++ v ++ nl.

(** One line of a block: a blank, anything (the dot takes newlines
    too), a newline. *)
Definition block_line : regex := seqs [ Chr is_blank; star dot_all; chr newline ].

Definition has_newline (l : list ascii) : bool := existsb (Ascii.eqb newline) l.

(** A name as the dotenv pattern takes it: a letter or an underscore,
    then letters, digits and underscores. *)
Definition is_identifier (k : string) : Prop :=
  exists c w, Py.chars k = c :: w /\ DbMigrate.is_ident_start c = true
              /\ forallb DbMigrate.is_ident_char w = true.

End ConfigText.

(* ===================================================================== *)
(** * re.sub                                                              *)
(* ===================================================================== *)

Module ReSub.
Import Re.

(** [re.sub(r, repl, s)] for a pattern that matches no empty text (the
    patterns the program substitutes are of that kind): the text is
    scanned from the left, every match is replaced by what [repl] makes
    of it and the scan goes on behind the match.  [skip] counts the
    characters of the last match still to pass. *)
Fixpoint sub_from (r : regex) (repl : mstate -> list ascii) (p : option ascii)
  (s : list ascii) (skip : nat) : list ascii :=
  match s with
  | [] => []
  | c :: s' =>
      match skip with
      | S n => sub_from r repl (Some c) s' n
      | O =>
          match go (Grp 0 r) (MState p s []) Some with
          | Some m =>
              match length (Py.chars (group m 0)) with
              | O => c :: sub_from r repl (Some c) s' 0
              | S n => (repl m ++ sub_from r repl (Some c) s' n)%list
              end
          | None => c :: sub_from r repl (Some c) s' 0
          end
      end
  end.

Definition sub (r : regex) (repl : mstate -> list ascii) (s : string) : string :=
  Py.str (sub_from r repl None (Py.chars s) 0).

End ReSub.

(* ===================================================================== *)
(** * Container names (run_local.py, build.py)                            *)
(* ===================================================================== *)

Module Names.
Import Re ReSub Config.

(** the class [a-zA-Z0-9_.-] *)
Definition is_name_char (c : ascii) : bool :=
  Py.is_lower c || Py.is_upper c || Py.is_digit c
  || Ascii.eqb c "_" || Ascii.eqb c "." || Ascii.eqb c "-".

(** r'[^a-zA-Z0-9_.-]+' *)
Definition unsafe_run : regex := plus (Chr (fun c => negb (is_name_char c))).

(** run_local._sanitize_name and build._sanitize_name:
    [re.sub(r'[^a-zA-Z0-9_.-]+', '-', n)[:63] or 'plsr-service'] *)
Definition _sanitize_name (n : string) : string :=
  let s := Py.str (firstn 63 (Py.chars (sub unsafe_run (fun _ => ["-"%char]) n))) in
  if Py.truthy s then s else "plsr-service".

(** A name docker takes for a container, as far as the sanitizer
    goes: 1 to 63 characters of the class above. *)
Definition valid_name (s : string) : Prop :=
  (1 <= length (Py.chars s) <= 63)%nat /\ forallb is_name_char (Py.chars s) = true.

(** run_local._db_container_name; r'(?ms)^\s*compose\s*:\s*\n(?P<blk>...)'
    is [block_re "compose"]. *)
Definition _db_container_name (cfg_text service_name : string) : string :=
  let dev_blk := _extract_block cfg_text "dev" in
  let comp_blk :=
    if Py.truthy dev_blk then
      match search (block_re "compose") dev_blk with
      | Some m => Some (group m 1)
      | None => None
      end
    else None in
  let cname :=
    if Py.otruthy comp_blk
    then _kv_from_block (Py.or_str comp_blk "") "container_name"
    else None in
  _sanitize_name (Py.or_str cname service_name).

(** build._read_dev_compose_container_name, on the text of config.yaml *)
Definition _read_dev_compose_container_name (text : string) : option string :=
  let dev_blk := _extract_block text "dev" in
  if negb (Py.truthy dev_blk) then None
  else
    let comp_blk :=
      match search (block_re "compose") dev_blk with
      | Some m => group m 1
      | None => ""
      end in
    let cname := _kv_from_block comp_blk "container_name" in
    if Py.otruthy cname then Some (Py.strip (Py.or_str cname "")) else None.

(** build._db_default_container_name *)
Definition _db_default_container_name (text service_name : string) : string :=
  _sanitize_name (Py.or_str (_read_dev_compose_container_name text) service_name).

End Names.

(* ===================================================================== *)
(** * cli.py: the global flags                                            *)
(* ===================================================================== *)

Module Cli.

Definition is_dev_flag (a : string) : bool := String.eqb a "-dev" || String.eqb a "--dev".

(** _consume_global_flags: the loop over [argv], from a state
    [(dev, theme, out)]. *)
Fixpoint consume (argv : list string) (dev : bool) (theme : option string)
  (out : list string) : bool * option string * list string :=
  match argv with
  | [] => (dev, theme, out)
  | a :: argv' =>
      if is_dev_flag a then consume argv' true theme out
      else
        match argv' with
        | v :: argv'' =>
            if String.eqb a "--theme" then consume argv'' dev (Some v) out
            else consume argv' dev theme (out ++ [a])
        | [] => consume argv' dev theme (out ++ [a])
        end
  end.

Definition _consume_global_flags (argv : list string)
  : bool * option string * list string :=
  consume argv false None [].

End Cli.

(* ===================================================================== *)
(** * aws: image references and build arguments                           *)
(* ===================================================================== *)

Module Aws.
Import Re.

(** r'(?P<host>(?P<acct>\d{12})\.dkr\.ecr\.(?P<region>[a-z0-9-]+)\.amazonaws\.com)'
    with the groups numbered 1 (host), 2 (acct) and 3 (region) *)
Definition _PRIV_ECR_HOST : regex :=
  Grp 1 (seqs [ Grp 2 (times 12 (Chr Py.is_digit)); lit ".dkr.ecr.";
                Grp 3 (plus (Chr RunLocal.is_lower_digit_dash));
                lit ".amazonaws.com" ]).

(** r'(?:^|/)(public\.ecr\.aws)(?:/|$)' *)
Definition _PUB_ECR_HOST : regex :=
  seqs [ Alt BolStr (chr "/"); Grp 1 (lit "public.ecr.aws"); Alt (chr "/") EolStr ].

(** [c in s] for a one-character [c] *)
Definition has_char (c : ascii) (s : string) : bool :=
  existsb (Ascii.eqb c) (Py.chars s).

(** [s.split(c, 1)] as a pair, for a [c] that occurs in [s]; [(s, "")]
    stands for the one-element list otherwise. *)
Definition split1 (s : string) (c : ascii) : string * string :=
  match DbMigrate.split_once s (String c "") with
  | Some ab => ab
  | None => (s, "")
  end.

(** [s.rsplit(c, 1)] as a pair, for a [c] that occurs in [s] *)
Definition rsplit1 (s : string) (c : ascii) : string * string :=
  match DbMigrate.split_once_l [c] [] (rev (Py.chars s)) with
  | Some (a, b) => (Py.str (rev b), Py.str (rev a))
  | None => (s, "")
  end.

(** The dict parse_ecr_image_ref returns. *)
Record ecr_ref : Type := {
  ref_host : string; ref_region : string; ref_account : string;
  ref_repository : string; ref_tag : string; ref_private : bool
}.

Definition parse_ecr_image_ref (image_ref : string) : option ecr_ref :=
  let image_ref :=
    if has_char "@" image_ref then
      if has_char "/" image_ref then
        let '(host, rest) := split1 image_ref "/" in
        let repo_part := fst (split1 rest "@") in
        host ++ "/" ++ repo_part
      else fst (split1 image_ref "@")
    else image_ref in
  if negb (has_char "/" image_ref) then None
  else
    let '(host, rest) := split1 image_ref "/" in
    let '(repository, tag) :=
      if has_char ":" rest then rsplit1 rest ":" else (rest, "latest") in
    match rmatch _PRIV_ECR_HOST host with
    | Some m =>
        Some {| ref_host := host; ref_region := group m 3; ref_account := group m 2;
                ref_repository := repository; ref_tag := tag; ref_private := true |}
    | None =>
        match search _PUB_ECR_HOST host with
        | Some _ =>
            Some {| ref_host := host; ref_region := ""; ref_account := "";
                    ref_repository := repository; ref_tag := tag; ref_private := false |}
        | None => None
        end
    end.

(** What parse_ecr_image_ref makes of a host alone. *)
Definition classify_host (host repository tag : string) : option ecr_ref :=
  match rmatch _PRIV_ECR_HOST host with
  | Some m =>
      Some {| ref_host := host; ref_region := group m 3; ref_account := group m 2;
              ref_repository := repository; ref_tag := tag; ref_private := true |}
  | None =>
      match search _PUB_ECR_HOST host with
      | Some _ =>
          Some {| ref_host := host; ref_region := ""; ref_account := "";
                  ref_repository := repository; ref_tag := tag; ref_private := false |}
      | None => None
      end
  end.

(** _build_arg_map (and the same loop in
    build.docker_build_from_config): one item of the list *)
Definition build_arg_item (m : gmap string string) (item : string) : gmap string string :=
  if has_char "=" item then
    let '(k, v) := split1 item "=" in
    let k := Py.strip k in
    if Py.truthy k then <[k := v]> m else m
  else m.

Definition _build_arg_map (build_args : list string) : gmap string string :=
  fold_left build_arg_item build_args ∅.

(** build._buildx_build_and_maybe_push, line 279:
    [[f"{k}={v}" for k, v in (build_args_map or {}).items()]], the items
    in the order the map lists them. *)
Definition render_build_args (m : gmap string string) : list string :=
  map (fun kv => kv.1 ++ "=" ++ kv.2) (map_to_list m).

(** A key as _build_arg_map stores it. *)
Definition arg_key (k : string) : Prop :=
  k <> "" /\ Py.strip k = k /\ has_char "=" k = false.

End Aws.

(* ===================================================================== *)
(** * db_migrate.py: what a run leaves behind                             *)
(* ===================================================================== *)

Module MigrationRun.
Import DbMigrate.

(** The names of the files a run has handed to the client, in the
    order of the events. *)
Definition executed (evs : list event) : list string :=
  omap (fun e => match e with Executed n => Some n | _ => None end) evs.

End MigrationRun.

(* ===================================================================== *)
(** * Python numbers                                                      *)
(* ===================================================================== *)

Module PyInt.

(** What [int(s)] strips from the two ends of a text: the ASCII blanks
    (tab to carriage return, space) and, above 127, the Unicode spaces
    (NEL and the no-break space among the code points below 256).  The
    separators 28 to 31, which [str.strip] removes, are not among
    them. *)
Definition int_space (c : ascii) : bool :=
  let n := Py.code c in
  ((9 <=? n) && (n <=? 13) || (n =? 32) || (n =? 133) || (n =? 160))%N.

Definition digit_val (c : ascii) : Z := Z.of_N (Py.code c) - 48.

(** The digits of a literal: a digit, then digits, each of which one
    underscore may precede.  [acc] is the value and [n] the number of
    digits read so far. *)
Fixpoint digits (l : list ascii) (acc : Z) (n : nat) : option (Z * nat) :=
  match l with
  | [] => Some (acc, n)
  | c :: l' =>
      if Py.is_digit c then digits l' (10 * acc + digit_val c) (S n)
      else if Ascii.eqb c "_" then
        match l' with
        | d :: l'' =>
            if Py.is_digit d then digits l'' (10 * acc + digit_val d) (S n) else None
        | [] => None
        end
      else None
  end.

(** [int(s)] for a text [s]: [None] stands for ValueError.  A literal
    of more than 4300 digits is refused. *)
Definition int (s : string) : option Z :=
  let l := Py.rstrip_by int_space (Py.lstrip_by int_space (Py.chars s)) in
  let '(neg, l) :=
    match l with
    | c :: r => if Ascii.eqb c "-" then (true, r)
                else if Ascii.eqb c "+" then (false, r) else (false, l)
    | [] => (false, l)
    end in
  match l with
  | c :: r =>
      if Py.is_digit c then
        match digits r (digit_val c) 1 with
        | Some (v, n) => if (n <=? 4300)%nat then Some (if neg : bool then - v else v) else None
        | None => None
        end
      else None
  | [] => None
  end.

(** [s.isdigit()] on code points below 256: the ASCII digits and the
    superscripts one, two and three. *)
Definition isdigit_char (c : ascii) : bool :=
  let n := Py.code c in
  (Py.is_digit c || (n =? 178) || (n =? 179) || (n =? 185))%N.
Definition isdigit (s : string) : bool :=
  match Py.chars s with
  | [] => false
  | l => forallb isdigit_char l
  end.

End PyInt.

(* ===================================================================== *)
(** * run_local.py: the runner as a whole                                 *)
(* ===================================================================== *)

Module Runner.
Import Config RunLocal Names.

(** ** Image and ports *)

Definition _compose_image (text flavor name version env_name : string)
  : option string :=
  let ecr := _discover_ecr_root text env_name in
  if Py.otruthy ecr
  then Some (Py.rstrip_slash (Py.or_str ecr "") ++ "/" ++ name ++ ":" ++ version)
  else
    let img_block := _extract_block text "image" in
    let local_fb := _kv_from_block img_block "local_fallback" in
    if Py.otruthy local_fb then local_fb
    else if Py.truthy name && Py.truthy version then Some (name ++ ":" ++ version)
    else None.

(** [None] is Python's None; an exception of [int] is caught. *)
Definition _env_port (text env_name : string) : option Z :=
  let blk := _extract_env_block text env_name in
  if negb (Py.truthy blk) then None
  else
    let p := _kv_from_block blk "port" in
    if negb (Py.otruthy p) then None
    else PyInt.int (Py.strip (Py.or_str p "")).

(** [int(p) if p and p.isdigit() else dflt]: [int] may raise here. *)
Definition digits_or (p : option string) (dflt : Z) : result Z :=
  if Py.otruthy p && PyInt.isdigit (Py.or_str p "") then
    match PyInt.int (Py.or_str p "") with
    | Some v => Ok v
    | None => Raise "ValueError"
    end
  else Ok dflt.

(** [x or dflt] for an optional number *)
Definition or_int (x : option Z) (dflt : Z) : Z :=
  match x with
  | Some v => if v =? 0 then dflt else v
  | None => dflt
  end.

(** (container_port, host_port) *)
Definition _guess_ports (text flavor env_name : string) : result (Z * Z) :=
  if String.eqb flavor "db-mariadb" then
    let env_p := _env_port text env_name in
    if negb (or_int env_p 0 =? 0) then Ok (3306, or_int env_p 0)
    else
      let svc := _extract_block text "service" in
      match digits_or (_kv_from_block svc "port") 3306 with
      | Ok host_port => Ok (3306, host_port)
      | Raise e => Raise e
      end
  else
    let default := _extract_block text "default" in
    match digits_or (_kv_from_block default "APP_PORT") 8000 with
    | Ok cport => Ok (cport, or_int (_env_port text env_name) cport)
    | Raise e => Raise e
    end.

(** ** The steps of a run *)

(** The object of [docker inspect], with the status text the messages
    quote. *)
Record container : Type := {
  c_inspect : inspect;                (* State.Running and Mounts *)
  c_status : option string            (* State.Status *)
}.

(** docker and the helpers of other modules, as a run meets them. *)
Record Docker : Type := {
  docker_found : bool;                (* shutil.which("docker") is not None *)
  inspect_first : string -> option container;
                                      (* _docker_inspect_json before anything is removed *)
  inspect_again : string -> option container;
                                      (* _docker_inspect_json(cname), line 391 *)
  run_rc : list string -> Z;          (* console.run(cmd) *)
  confirm : bool;                     (* _confirm("Redeploy the container now?") *)
  ensure_db_image_rc : Z;             (* ensure_db_image_in_ecr(mode="run")[1] *)
  pullable_rc : string -> bool -> bool -> Z
                                      (* ensure_image_pullable(image, allow_skip, force_pull) *)
}.

Inductive step : Type :=
| Do (e : effect)                     (* a message, rmtree, mkdir, console.run *)
| Ask (prompt : string)               (* _confirm(prompt) *)
| EnsureDbImage                       (* ensure_db_image_in_ecr(mode="run") *)
| EnsurePullable (image : string) (allow_skip force_pull : bool).

(** How a part of the function ends: it goes on with a value, it
    returns an exit code, or it raises. *)
Inductive outcome (A : Type) : Type :=
| Go (a : A)
| Stop (rc : Z)
| Throw (exn : string).
Arguments Go {A} a.
Arguments Stop {A} rc.
Arguments Throw {A} exn.

(** The steps taken so far and how the part ends. *)
Definition flow (A : Type) : Type := list step * outcome A.

Definition bind {A B : Type} (m : flow A) (f : A -> flow B) : flow B :=
  match m with
  | (evs, Go a) => let '(evs', o) := f a in ((evs ++ evs')%list, o)
  | (evs, Stop rc) => (evs, Stop rc)
  | (evs, Throw e) => (evs, Throw e)
  end.

Notation "x <- m ;; k" := (bind m (fun x => k))
  (at level 100, m at next level, right associativity).
Notation "m ;;; k" := (bind m (fun _ => k))
  (at level 100, right associativity).

Definition go_on {A : Type} (a : A) : flow A := ([], Go a).
Definition ret {A : Type} (rc : Z) : flow A := ([], Stop rc).
Definition say (level text : string) : flow unit := ([Do (Console level text)], Go tt).
Definition run (dk : Docker) (cmd : list string) : flow Z :=
  ([Do (Run cmd)], Go (run_rc dk cmd)).
Definition effects (l : list effect) : flow unit := (map Do l, Go tt).

Definition is_running (c : container) : bool := Running (c_inspect c).
Definition status_text (c : container) : string :=
  Py.or_str (c_status c) (if is_running c then "running" else "exited").

(** [["docker", "rm"]], [-f] for a running container, the name *)
Definition rm_cmd (running : bool) (name : string) : list string :=
  (["docker"; "rm"] ++ (if running then ["-f"] else []) ++ [name])%list.

(** ** auto_run, a part at a time *)

(** lines 318-338: the name of the container; a database container
    under the legacy name is removed on the way. *)
Definition run_container_name (dk : Docker) (cfg flavor name env_name : string)
  (name_override : option string) : flow string :=
  if String.eqb flavor "db-mariadb" then
    let cname := _db_container_name cfg name in
    let legacy_name := _sanitize_name (name ++ "-" ++ env_name) in  (* line 320 *)
    if negb (String.eqb legacy_name cname) then
      match inspect_first dk legacy_name with
      | Some c =>
          say "warn" ("Legacy container '" ++ legacy_name ++ "' detected (state: "
                      ++ status_text c ++ "). Removing") ;;;
          rm_rc <- run dk (rm_cmd (is_running c) legacy_name) ;;
          if negb (rm_rc =? 0) then ret rm_rc else go_on cname
      | None => go_on cname
      end
    else go_on cname
  else go_on (_sanitize_name (Py.or_str name_override (name ++ "-" ++ env_name))).

(** lines 340-356: is the container to be replaced? *)
Definition run_wants_redeploy (dk : Docker) (cname : string)
  (insp_existing : option container) : flow bool :=
  match insp_existing with
  | Some c =>
      if is_running c then
        say "info" ("Container '" ++ cname ++ "' is currently " ++ status_text c ++ ".") ;;;
        ([Ask "Redeploy the container now?"], Go tt) ;;;
        if negb (confirm dk) then
          say "info" "OK. Leaving the running container as-is." ;;; ret 0
        else go_on true
      else
        say "warn" ("Container '" ++ cname
                    ++ "' exists but is not running. It will be replaced.") ;;;
        go_on true
  | None => go_on false
  end.

(** lines 390-420: the old container and, for a database, its data *)
Definition run_replace (h : Host) (dk : Docker) (root : Path)
  (cfg env_name flavor cname : string) (insp_existing : option container)
  (wants_redeploy : bool) : flow unit :=
  if wants_redeploy then
    match inspect_again dk cname with
    | Some now =>
        rm_rc <- run dk (rm_cmd (is_running now) cname) ;;
        if negb (rm_rc =? 0) then ret rm_rc else go_on tt
    | None => go_on tt
    end ;;;
    effects (auto_run_reset_data h root cfg env_name flavor
               (option_map c_inspect insp_existing))
  else go_on tt.

(** lines 431-440: the port mappings of the command *)
Definition port_args (port_overrides : list string) (host_port container_port : Z)
  : list string :=
  match port_overrides with
  | [] => ["-p"; show_Z host_port ++ ":" ++ show_Z container_port]
  | _ =>
      flat_map (fun mapping =>
                  let mp := Py.strip mapping in
                  if negb (Py.truthy mp) then []
                  else if Aws.has_char ":" mp then ["-p"; mp]
                  else ["-p"; mp ++ ":" ++ mp])
               port_overrides
  end.

(** lines 442-447: the environment of the container *)
Definition env_args (env_overrides : list string) (env_name : string) : list string :=
  let have_app_env := existsb (fun s => Py.startswith s "APP_ENV=") env_overrides in
  (flat_map (fun e => if Aws.has_char "=" e then ["-e"; e] else []) env_overrides
   ++ (if have_app_env then [] else ["-e"; ("APP_ENV=" ++ env_name)%string]))%list.

(** lines 449-467: the volume and the root password of a database;
    the directory of the volume is created on the way. *)
Definition db_args (h : Host) (cfg env_name flavor : string)
  (env_overrides : list string) (data_host_dir : option string)
  : list effect * list string :=
  if String.eqb flavor "db-mariadb" then
    let data_cont := _data_dir_container cfg in
    let host_dir_for_run :=
      if Py.otruthy data_host_dir then to_path h (Py.or_str data_host_dir "")
      else or_path (_host_data_dir_from_config h cfg env_name)
                   (_default_local_db_dir h) in
    let have_root_pw_override :=
      existsb (fun s => Py.startswith s "MARIADB_ROOT_PASSWORD="
                        || Py.startswith s "MYSQL_ROOT_PASSWORD=") env_overrides in
    ([Mkdir host_dir_for_run],
     (["-v"; (PathOps.show host_dir_for_run ++ ":" ++ data_cont)%string]
      ++ (if have_root_pw_override then []
          else
            let pw := run_root_password cfg env_name in
            ["-e"; ("MARIADB_ROOT_PASSWORD=" ++ pw)%string;
             "-e"; ("MYSQL_ROOT_PASSWORD=" ++ pw)%string]))%list)
  else ([], []).

(** lines 422-469: the command *)
Definition run_command (detach : bool) (cname : string) (ports envs db : list string)
  (image : string) : list string :=
  (["docker"; "run"] ++ (if detach then ["-d"] else []) ++ ["--name"; cname]
   ++ ports ++ envs ++ db ++ [image])%list.

(** ** auto_run *)

(** lines 357-483: from the image check to the docker run command *)
Definition run_rest (h : Host) (dk : Docker) (env : environ) (root : Path)
  (cfg env_name name version flavor cname : string)
  (insp_existing : option container) (wants_redeploy : bool)
  (image_override : option string)
  (port_overrides env_overrides : list string) (data_host_dir : option string)
  (detach force_pull skip_aws dry_run : bool) : flow unit :=
  (if String.eqb flavor "db-mariadb" then
     ([EnsureDbImage],
      if negb (ensure_db_image_rc dk =? 0) then Stop (ensure_db_image_rc dk)
      else Go tt)
   else go_on tt) ;;;
  let image := Py.or_opt image_override
                 (_compose_image cfg flavor name version env_name) in
  if negb (Py.otruthy image) then
    say "error" "Unable to determine docker image (set --image or add ECR/name/version in config.yaml)." ;;;
    ret 2
  else
    let image := Py.or_str image "" in
    ports <- match _guess_ports cfg flavor env_name with
             | Ok p => go_on p
             | Raise e => ([], Throw e)
             end ;;
    let '(container_port, host_port) := ports in
    host_port <- match auto_run_port h (env !! "PLSR_STRICT_PORT") port_overrides
                         env_name container_port host_port with
                 | Ok (effs, Proceed p) => (map Do effs, Go p)
                 | Ok (effs, Return rc) => (map Do effs, Stop rc)
                 | Raise e => ([], Throw e)
                 end ;;
    run_replace h dk root cfg env_name flavor cname insp_existing wants_redeploy ;;;
    let force_pull_effective :=
      force_pull || (wants_redeploy && String.eqb flavor "db-mariadb") in
    ([EnsurePullable image skip_aws force_pull_effective],
     let rc := pullable_rc dk image skip_aws force_pull_effective in
     if negb (rc =? 0) then Stop rc else Go tt) ;;;
    let '(made, db) := db_args h cfg env_name flavor env_overrides data_host_dir in
    effects made ;;;
    let cmd := run_command detach cname
                 (port_args port_overrides host_port container_port)
                 (env_args env_overrides env_name) db image in
    say "section" "Local Runner" ;;;
    say "info" ("Env:    " ++ env_name) ;;;
    say "info" ("Flavor: " ++ flavor) ;;;
    say "info" ("Image:  " ++ image) ;;;
    say "info" ("Name:   " ++ cname) ;;;
    say "info" ("Ports:  host " ++ show_Z host_port ++ " -> container "
                ++ show_Z container_port) ;;;
    if dry_run then
      say "info" "Dry run (not executing):" ;;;
      say "command" (String.concat " " cmd) ;;;
      ret 0
    else
      rc <- run dk cmd ;; ret rc.

(** The name under which a database container ran before containers
    were named after the service alone. *)
Definition legacy_name (name env_name : string) : string :=
  _sanitize_name (name ++ "-" ++ env_name).

Definition auto_run (h : Host) (dk : Docker) (env : environ) (root : Path)
  (cfg env_name : string) (image_override name_override : option string)
  (port_overrides env_overrides : list string) (data_host_dir : option string)
  (detach force_pull skip_aws dry_run : bool) : flow unit :=
  if negb (Py.truthy env_name) then
    say "error" "Environment name is required." ;;;
    say "tip" "Use: plsr docker run <env> [options]" ;;;
    say "info" "Examples:" ;;;
    say "info" "  ./ctl.sh docker run local" ;;;
    ret 2
  else if negb (docker_found dk) then
    say "error" "docker not found on PATH." ;;; ret 1
  else
    (if negb (Py.truthy cfg)
     then say "warn" ("No config.yaml found under " ++ PathOps.show root
                      ++ ". Using conservative defaults.")
     else go_on tt) ;;;
    let name := Py.or_str (_kv_top cfg "name") (PathOps.name root) in
    let version := Py.or_str (_kv_top cfg "version") "0.0.0" in
    let flavor := _detect_flavor cfg in
    cname <- run_container_name dk cfg flavor name env_name name_override ;;
    let insp_existing := inspect_first dk cname in
    wants_redeploy <- run_wants_redeploy dk cname insp_existing ;;
    run_rest h dk env root cfg env_name name version flavor cname insp_existing
      wants_redeploy image_override port_overrides env_overrides data_host_dir
      detach force_pull skip_aws dry_run.

(** ** auto_stop *)

Definition auto_stop (h : Host) (dk : Docker) (root : Path) (cfg env_name : string)
  (name_override : option string) (keep_data dry_run : bool) : list effect * Z :=
  if negb (Py.truthy env_name) then
    ([Console "error" "Environment name is required.";
      Console "tip" "Use: plsr docker stop <env> [options]";
      Console "info" "Examples:";
      Console "info" "  ./ctl.sh docker stop local"], 2)
  else if negb (docker_found dk) then
    ([Console "error" "docker not found on PATH."], 1)
  else
    let name := Py.or_str (_kv_top cfg "name") (PathOps.name root) in
    let flavor := _detect_flavor cfg in
    let data_cont :=
      if String.eqb flavor "db-mariadb" then Some (_data_dir_container cfg) else None in
    let cname :=
      if String.eqb flavor "db-mariadb" then _db_container_name cfg name
      else _sanitize_name (Py.or_str name_override (name ++ "-" ++ env_name)) in
    let insp := inspect_first dk cname in
    let head :=
      [Console "section" "Local Stop";
       Console "info" ("Env:    " ++ env_name);
       Console "info" ("Name:   " ++ cname);
       Console "info" ("Flavor: " ++ flavor);
       match insp with
       | None => Console "warn" ("Container '" ++ cname ++ "' not found.")
       | Some c => Console "info" ("Current state: " ++ Py.or_str (c_status c) "unknown")
       end] in
    let '(tail, rc) :=
      auto_stop_tail h (run_rc dk) root cfg env_name flavor cname data_cont
        (option_map c_inspect insp) keep_data dry_run in
    ((head ++ tail)%list, rc).

(** A docker run command gives the container an APP_ENV: the
    environment name, or what an override of the caller sets. *)
Definition sets_app_env (env_overrides : list string) (env_name : string) (s : step)
  : Prop :=
  match s with
  | Do (Run cmd) =>
      forall args, cmd = "docker" :: "run" :: args ->
      exists v pre post,
        args = (pre ++ ["-e"; ("APP_ENV=" ++ v)%string] ++ post)%list
        /\ (v = env_name \/ In ("APP_ENV=" ++ v)%string env_overrides)
  | _ => True
  end.

(** The container auto_stop works on. *)
Definition stop_container_name (root : Path) (cfg env_name : string)
  (name_override : option string) : string :=
  let name := Py.or_str (_kv_top cfg "name") (PathOps.name root) in
  if String.eqb (_detect_flavor cfg) "db-mariadb" then _db_container_name cfg name
  else _sanitize_name (Py.or_str name_override (name ++ "-" ++ env_name)).

(** What auto_stop may do: print; stop or remove its one container;
    remove a directory the gate allows, and that for a database, without
    --keep-data.  With --dry-run it prints only. *)
Definition stop_effect_ok (h : Host) (root : Path) (cfg env_name : string)
  (name_override : option string) (keep_data dry_run : bool) (e : effect) : Prop :=
  match e with
  | Console _ _ => True
  | Mkdir _ => False
  | Rmtree q =>
      dry_run = false /\ keep_data = false /\ _detect_flavor cfg = "db-mariadb"
      /\ _allowed_delete_host_dir h q root cfg env_name = true
  | Run cmd =>
      dry_run = false
      /\ let cname := stop_container_name root cfg env_name name_override in
         cmd = ["docker"; "stop"; cname] \/ cmd = ["docker"; "rm"; cname]
  end.

(** ** What a dry run is to a run *)

(** [dry] is [real] itself, or [real] ends with the docker run
    command and [dry] prints that command instead and returns 0. *)
Definition dry_of (dk : Docker) (dry real : flow unit) : Prop :=
  dry = real
  \/ exists pre cmd,
       real = ((pre ++ [Do (Run cmd)])%list, Stop (run_rc dk cmd))
       /\ dry = ((pre ++ [Do (Console "info" "Dry run (not executing):");
                          Do (Console "command" (String.concat " " cmd))])%list,
                 Stop 0).

(** A step that changes nothing outside the program, or the removal
    of the container [legacy]. *)
Definition quiet (legacy : string) (s : step) : Prop :=
  match s with
  | Do (Console _ _) => True
  | Do (Run cmd) => exists running, cmd = rm_cmd running legacy
  | _ => False
  end.

(** A step that removes no directory but one the gate allows. *)
Definition removes_gated (h : Host) (root : Path) (cfg env_name : string) (s : step)
  : Prop :=
  match s with
  | Do (Rmtree q) => _allowed_delete_host_dir h q root cfg env_name = true
  | _ => True
  end.

Definition not_ask (s : step) : Prop :=
  match s with Ask _ => False | _ => True end.

End Runner.
(* ===================================================================== *)
(** * helm_release.py: the release as a whole                             *)
(* ===================================================================== *)

(** The messages are given without the ellipsis that ends some of
    them in the source. *)
Module Release.
Import Re Config HelmRelease Aws.

(** r'(?mi)^\s*image\.repository\s*:\s*[dq']?([^dq']+?)[dq']?\s*$' (dq
    is the double quote) *)
Definition image_repository_re : regex :=
  seqs [ Bol; star ws; lit_ci "image.repository"; star ws; chr ":"; star ws;
         opt (Chr is_quote); Grp 1 (plus_lazy (Chr not_quote));
         opt (Chr is_quote); star ws; Eol ].

Definition _image_repository (text service_name : string) : option string :=
  let img_blk := _extract_block text "image" in
  let repo := _kv_from_block img_blk "repository" in
  if Py.otruthy repo then Some (Py.strip (Py.or_str repo ""))
  else
    match search image_repository_re text with
    | Some m => Some (Py.strip (group m 1))
    | None => None
    end.

(** _db_env_values: (root_pw, db_name, db_user, db_pw) *)
Definition _db_env_values (text env_name : string)
  : string * option string * option string * option string :=
  let envs := _extract_block text "environments" in
  let blk :=
    if Py.truthy envs then
      match search (block_re env_name) envs with
      | Some m => group m 1
      | None => ""
      end
    else "" in
  let root_pw := _kv_from_block blk "root_pw" in
  let root_pw :=
    if negb (Py.otruthy root_pw) then
      let dev := _extract_block text "dev" in
      if Py.truthy dev then
        let root := _extract_block dev "root" in
        Py.or_opt (_kv_from_block root "password") root_pw
      else root_pw
    else root_pw in
  let db_blk := _extract_block blk "database" in
  (Py.or_str root_pw "Password1",
   _kv_from_block db_blk "name", _kv_from_block db_blk "user",
   _kv_from_block db_blk "password").

(** helm, kubectl, aws and the cluster, as a release meets them. *)
Record Cluster : Type := {
  have_helm : bool;                   (* _have("helm") *)
  have_kubectl : bool;                (* _have("kubectl") *)
  helm_dir : string;                  (* the resolved chart directory *)
  helm_dir_is_dir : bool;
  helm_timeout : string;              (* os.getenv("plsr_HELM_TIMEOUT", "5m") *)
  ensure_namespace_rc : string -> Z;  (* console.run of the line of _ensure_namespace *)
  sts_rc : string -> Z;               (* aws_sts_identity(region)[0] *)
  login : string -> Z * string;       (* ecr_get_login_password(region) *)
  pull_secret_rc : Z;                 (* kubectl apply of the pull secret *)
  pod_apply_rc : Z;                   (* kubectl apply of the probe pod *)
  answers : list observation;         (* what the probe pod answers *)
  helm_rc : list string -> Z          (* console.run of the helm command *)
}.

Inductive action : Type :=
| Say (level text : string)                         (* console.* *)
| EnsureNamespace (ns : string)                     (* kubectl get ns || create *)
| ApplySecret (ns name : string) (kv : list (string * string))
| Adopt (ns kind name release_name : string)        (* label and annotate *)
| StsIdentity (region : string)                     (* aws_sts_identity *)
| GetLoginPassword (region : string)                (* ecr_get_login_password *)
| ApplyPullSecret (ns name host password : string)
| PullCheck (ns image release_name : string) (secret : option string)
            (evs : list event)                      (* the pull check and what it did *)
| Helm (cmd : list string) (cwd : string).

Definition _ensure_namespace (k : Cluster) (ns : string) : list action * Z :=
  if negb (have_kubectl k) then
    ([Say "warn" "kubectl not found on PATH; relying on Helm to create namespace."], 0)
  else ([EnsureNamespace ns], ensure_namespace_rc k ns).

(** The exit code of _adopt_for_helm is read by none of its callers. *)
Definition _adopt_for_helm (k : Cluster) (ns kind name release_name : string)
  : list action :=
  if negb (have_kubectl k) then [] else [Adopt ns kind name release_name].

Definition _ensure_ecr_pull_secret (k : Cluster) (ns secret_name registry_host password
  : string) : list action * Z :=
  if negb (have_kubectl k) then
    ([Say "error" "kubectl is required to create image pull secrets."], 127)
  else ([ApplyPullSecret ns secret_name registry_host password], pull_secret_rc k).

(** The exit code of _apply_opaque_secret is not read by release. *)
Definition _apply_opaque_secret (k : Cluster) (ns name : string)
  (kv : list (string * string)) : list action :=
  if negb (have_kubectl k) then [Say "error" "kubectl is required to create secrets."]
  else [ApplySecret ns name kv].

Definition pull_check (k : Cluster) (ns image release_name : string)
  (secret : option string) : list action * Z :=
  let '(rc, evs) :=
    _verify_namespace_can_pull_image (have_kubectl k) (pod_apply_rc k) (answers k) in
  ([PullCheck ns image release_name secret evs], rc).

(** _preflight_ecr_for_k8s_pull: what it did, and (extra_helm_sets,
    exit_code) *)
Definition _preflight_ecr_for_k8s_pull (k : Cluster)
  (namespace image_repo tag release_name : string)
  : list action * (list string * Z) :=
  let image_ref := image_repo ++ ":" ++ tag in
  match parse_ecr_image_ref image_ref with
  | None =>
      ([Say "warn"
          "Image does not look like an ECR reference; skipping ECR-specific preflight."],
       ([], 0))
  | Some parts =>
      let host := ref_host parts in
      let region := ref_region parts in
      let is_private := ref_private parts in
      let secret_name := "ecr-pull-" ++ release_name in
      let head :=
        ([Say "section" "ECR connectivity (cluster preflight)";
          Say "info" ("Registry: " ++ host)%string]
         ++ (if Py.truthy region then [Say "info" ("Region:   " ++ region)%string] else [])
         ++ (if is_private then [Say "info" ("Secret:   " ++ secret_name)%string] else []))%list in
      if is_private then
        if negb (Py.truthy region) then
          ((head ++ [Say "error" "Could not determine AWS region from ECR host."])%list,
           ([], 1))
        else
          let rc := sts_rc k region in
          if negb (rc =? 0) then
            ((head ++ [StsIdentity region;
                       Say "error" "AWS identity check failed; cannot verify cluster pull."])%list,
             ([], rc))
          else
            let '(rc, password) := login k region in
            if negb (rc =? 0) || negb (Py.truthy password) then
              ((head ++ [StsIdentity region; GetLoginPassword region;
                         Say "error"
                           "Failed to get ECR login password; cannot verify cluster pull."])%list,
               ([], if rc =? 0 then 1 else rc))
            else
              let '(sec, rc) := _ensure_ecr_pull_secret k namespace secret_name host password in
              if negb (rc =? 0) then
                ((head ++ [StsIdentity region; GetLoginPassword region] ++ sec
                  ++ [Say "error"
                        "Failed to provision image pull secret in the cluster namespace."])%list,
                 ([], rc))
              else
                let adopt := _adopt_for_helm k namespace "secret" secret_name release_name in
                let '(chk, rc) :=
                  pull_check k namespace image_ref release_name (Some secret_name) in
                ((head ++ [StsIdentity region; GetLoginPassword region] ++ sec ++ adopt
                  ++ chk)%list,
                 if negb (rc =? 0) then ([], rc)
                 else (["--set"; "imagePullSecrets[0]=" ++ secret_name], 0))
      else
        let '(chk, rc) := pull_check k namespace image_ref release_name None in
        ((head ++ [Say "info" "Public ECR image detected; verifying pull without a secret"]
          ++ chk)%list,
         ([], rc))
  end.

(** release, lines 434-443: the image repository, or None where the
    function gives up *)
Definition release_image_repo (env : environ) (cfg_text name : string)
  : option string :=
  let image_repo := _image_repository cfg_text name in
  if negb (Py.otruthy image_repo) then
    let ecr := _ecr_root env cfg_text in
    if Py.otruthy ecr then Some (Py.rstrip_slash (Py.or_str ecr "") ++ "/" ++ name)
    else None
  else image_repo.

(** release, lines 462-490: the helm command *)
Definition helm_command (k : Cluster) (cfg_text env_name name ver flavor image_repo
  : string) (extra_sets : list string) : list string :=
  let '(root_pw, db_name, db_user, db_pw) := _db_env_values cfg_text env_name in
  let root_secret := name ++ "-root-" ++ env_name in
  let set_if (key : string) (v : option string) : list string :=
    if Py.otruthy v then ["--set"; key ++ "=" ++ Py.or_str v ""] else [] in
  (["helm"; "upgrade"; "--install"; name; helm_dir k;
    "-n"; env_name; "--create-namespace";
    "--wait"; "--atomic"; "--timeout"; helm_timeout k;
    "--set"; ("fullnameOverride=" ++ name)%string;
    "--set"; ("flavor=" ++ flavor)%string;
    "--set"; ("image.repository=" ++ image_repo)%string;
    "--set"; ("image.tag=" ++ ver)%string;
    "--set"; "persistentVolume.enabled=true";
    "--set-string"; "persistentVolume.size=10Gi"]
   ++ extra_sets
   ++ (if String.eqb flavor "db-mariadb" then
         ["--set"; "service.port=3306";
          "--set-string"; "service.name=mysql";
          "--set-string"; ("auth.secretName=" ++ root_secret)%string;
          "--set"; ("auth.rootPassword=" ++ root_pw)%string]
         ++ set_if "auth.database" db_name
         ++ set_if "auth.username" db_user
         ++ set_if "auth.password" db_pw
       else []))%list.

(** release(env_name), for the service root and the config text that
    _detect_app_root and _read_cfg_text found *)
Definition release (k : Cluster) (env : environ) (app_root : Path)
  (cfg : option string) (env_name : string) : list action * Z :=
  if negb (Py.truthy env_name) then
    ([Say "error" "Environment name is required. Use: ctl.sh <env> helm release"], 2)
  else if negb (have_helm k) then
    ([Say "error" "Helm is not installed or not on PATH."], 127)
  else if negb (Py.otruthy cfg) then
    ([Say "error" ("No config.yaml found under " ++ PathOps.show app_root)], 2)
  else
    let cfg_text := Py.or_str cfg "" in
    if negb (helm_dir_is_dir k) then
      ([Say "error" ("No Helm chart directory at: " ++ helm_dir k);
        Say "tip" "Set plsr_HELM_DIR to override or ensure plsr/helm exists."], 2)
    else
      let '(name, ver) := _name_version cfg_text app_root in
      let flavor := _flavor cfg_text in
      match release_image_repo env cfg_text name with
      | None =>
          ([Say "error" "Could not determine image repository.";
            Say "tip" "Add 'image.repository: <registry>/<repo>' to config.yaml, or top-level 'ECR: <registry>'."],
           2)
      | Some image_repo =>
          let namespace := env_name in
          let root_pw := fst (fst (fst (_db_env_values cfg_text env_name))) in
          let '(ns_steps, ns_rc) := _ensure_namespace k namespace in
          if negb (ns_rc =? 0) then (ns_steps, 1)
          else
            let release_name := name in
            let root_secret := name ++ "-root-" ++ env_name in
            let secret_steps :=
              (_apply_opaque_secret k namespace root_secret [("ROOT_DB_PW", root_pw)]
               ++ _adopt_for_helm k namespace "secret" root_secret release_name)%list in
            let '(pre_steps, (extra_sets, rc)) :=
              _preflight_ecr_for_k8s_pull k namespace image_repo ver release_name in
            if negb (rc =? 0) then
              ((ns_steps ++ secret_steps ++ pre_steps
                ++ [Say "error"
                      "Aborting Helm release: cluster cannot pull the image from the registry (preflight failed)."])%list,
               rc)
            else
              let cmd :=
                helm_command k cfg_text env_name name ver flavor image_repo extra_sets in
              ((ns_steps ++ secret_steps ++ pre_steps
                ++ [Say "section" "Helm Release";
                    Say "info" ("Env:        " ++ env_name)%string;
                    Say "info" ("Namespace:  " ++ namespace)%string;
                    Say "info" ("Release:    " ++ release_name)%string;
                    Say "info" ("Flavor:     " ++ flavor)%string;
                    Say "info" ("Chart:      " ++ helm_dir k)%string;
                    Say "command" (String.concat " " cmd);
                    Helm cmd (helm_dir k)])%list,
               helm_rc k cmd)
      end.

(** An answer with an image digest, after answers that decided
    nothing. *)
Definition pulled (answers : list observation) : Prop :=
  exists pre st others later,
    answers = (pre ++ Some (st :: others) :: later)%list
    /\ forallb PullCheck.undecided pre = true
    /\ Py.or_str (imageID st) "" <> "".

(** The steps that use AWS credentials or a registry password. *)
Definition uses_credentials (a : action) : bool :=
  match a with
  | StsIdentity _ | GetLoginPassword _ | ApplyPullSecret _ _ _ _ => true
  | _ => false
  end.

Definition is_say (a : action) : bool :=
  match a with Say _ _ => true | _ => false end.

Definition is_Some_b {A : Type} (o : option A) : bool :=
  match o with Some _ => true | None => false end.

Definition is_helm (a : action) : bool :=
  match a with Helm _ _ => true | _ => false end.

End Release.
(* ===================================================================== *)
(** * build.py: the database image in the registry                        *)
(* ===================================================================== *)

Module EnsureImage.
Import Config Names Aws.

(** docker, the registry and the user, as the function meets them. *)
Record Registry : Type := {
  docker_present : bool;              (* shutil.which("docker") is not None *)
  container_exists : string -> bool;  (* _container_exists(cname) *)
  ecr_login_rc : string -> string -> Z;   (* ecr_login(host, region) *)
  ensure_repo_rc : Z;                 (* ecr_ensure_repo(...) *)
  image_exists : bool;                (* ecr_image_exists(...)[0] *)
  rebuild_confirmed : bool;           (* _confirm(prompt_text, default_no=True) *)
  stop_rc : string -> Z;              (* console.run of the stop command for a name *)
  delete_tag_rc : Z;                  (* ecr_delete_image_by_tag(...) *)
  build_rc : bool -> Z                (* _buildx_build_and_maybe_push, by no_cache *)
}.

(** The calls of the function.  A build is always one with push and
    pre_pull; its Dockerfile, target, platforms and build arguments,
    which are read from the config, are not part of the event. *)
Inductive act : Type :=
| Note (level text : string)                          (* console.* *)
| Login (host region : string)                        (* ecr_login *)
| EnsureRepo (host region repo acct : string)         (* ecr_ensure_repo *)
| QueryImage (host region repo tag acct : string)     (* ecr_image_exists *)
| Confirm (prompt : string)                           (* _confirm *)
| StopLocal (cname env_name : string)                 (* plsr docker stop env --name cname *)
| DeleteTag (host region repo tag acct : string)      (* ecr_delete_image_by_tag *)
| BuildPush (image_ref : string) (no_cache : bool).   (* _buildx_build_and_maybe_push *)

Definition _stop_local_container_and_delete_data_if_exists (g : Registry)
  (env : environ) (cname : string) : list act * Z :=
  if negb (docker_present g) then ([], 0)
  else if negb (container_exists g cname) then ([], 0)
  else
    let env_name := Py.or_str (env !! "PLSR_ENV") "local" in
    ([Note "info" ("Stopping & cleaning local DB container before rebuild: " ++ cname
                   ++ " (env: " ++ env_name ++ ")");
      StopLocal cname env_name],
     stop_rc g cname).

(** ensure_db_image_in_ecr(mode) on the text of config.yaml: what it
    did, and (image_ref, exit_code) *)
Definition ensure_db_image_in_ecr (g : Registry) (env : environ) (text mode : string)
  : list act * (string * Z) :=
  let '(name, ver, ecr, flavor) := Build._read_fields_from_config_yaml env text in
  if negb (Py.otruthy name) || negb (Py.otruthy ver) then
    ([Note "error" "config.yaml must contain top-level 'name' and 'version'."], ("", 2))
  else if negb (String.eqb flavor "db-mariadb") then ([], ("", 0))
  else if negb (Py.otruthy ecr) then
    ([Note "error"
        "ECR root is required for DB image enforcement. Add 'ECR: <registry-root>' to config.yaml."],
     ("", 2))
  else
    let name := Py.or_str name "" in
    let image_ref := Build._compose_image_ref name (Py.or_str ver "") (Py.or_str ecr "") in
    let env_name := Py.or_str (env !! "PLSR_ENV") "local" in
    let cname_db := _db_default_container_name text name in
    let cname_env := _sanitize_name (name ++ "-" ++ env_name) in
    let skip :=
      ([Note "warn"
          "Non-private ECR detected or unable to parse ECR host; skipping ECR enforcement."],
       (image_ref, 0)) in
    match parse_ecr_image_ref image_ref with
    | None => skip
    | Some parts =>
        if negb (ref_private parts) then skip
        else
          let host := ref_host parts in
          let region := ref_region parts in
          let acct := ref_account parts in
          let repo := ref_repository parts in
          let tag := ref_tag parts in
          let rc := ecr_login_rc g host region in
          if negb (rc =? 0) then ([Login host region], (image_ref, rc))
          else
            let rc := ensure_repo_rc g in
            if negb (rc =? 0) then
              ([Login host region; EnsureRepo host region repo acct], (image_ref, rc))
            else
              let checked :=
                [Login host region; EnsureRepo host region repo acct;
                 QueryImage host region repo tag acct] in
              if negb (image_exists g) then
                ((checked
                  ++ [Note "info" ("ECR: '" ++ image_ref
                                   ++ "' does not exist. Building and pushing")%string;
                      BuildPush image_ref false])%list,
                 (image_ref, build_rc g false))
              else
                let prompt_text :=
                  "ECR image already exists: " ++ image_ref ++ ". Rebuild from scratch?" in
                if rebuild_confirmed g then
                  let '(stop1, stop_rc1) :=
                    _stop_local_container_and_delete_data_if_exists g env cname_db in
                  let '(stop2, stop_rc) :=
                    if negb (String.eqb cname_env cname_db) then
                      let '(s2, rc2) :=
                        _stop_local_container_and_delete_data_if_exists g env cname_env in
                      (s2, or_rc stop_rc1 rc2)
                    else ([], stop_rc1) in
                  let warned :=
                    if negb (stop_rc =? 0) then
                      [Note "warn"
                         "Local stop/cleanup reported a non-zero exit; continuing with rebuild."]
                    else [] in
                  let front :=
                    (checked ++ [Confirm prompt_text] ++ stop1 ++ stop2 ++ warned
                     ++ [Note "info" "Deleting existing tag from ECR";
                         DeleteTag host region repo tag acct])%list in
                  let rc := delete_tag_rc g in
                  if negb (rc =? 0) then (front, (image_ref, rc))
                  else
                    ((front ++ [Note "info" "Rebuilding (no cache) and pushing";
                                BuildPush image_ref true])%list,
                     (image_ref, build_rc g true))
                else
                  ((checked ++ [Confirm prompt_text;
                                Note "info"
                                  (if String.eqb mode "build"
                                   then "Skipping build (image exists)."
                                   else "Proceeding without rebuild (image exists).")])%list,
                   (image_ref, 0))
    end.

(** What changes something outside the function: local containers and
    their data, the tag in the registry, a build that is pushed. *)
Definition changes_something (a : act) : bool :=
  match a with
  | StopLocal _ _ | DeleteTag _ _ _ _ _ | BuildPush _ _ => true
  | _ => false
  end.

(** The image is there and the user has said yes. *)
Definition consented (g : Registry) (a : act) : Prop :=
  match a with
  | StopLocal _ _ | DeleteTag _ _ _ _ _ =>
      image_exists g = true /\ rebuild_confirmed g = true
  | BuildPush _ no_cache =>
      no_cache = image_exists g
      /\ (image_exists g = true -> rebuild_confirmed g = true)
  | _ => True
  end.

End EnsureImage.
(* ===================================================================== *)
(** * Example inputs, continued                                           *)
(* ===================================================================== *)

Module Samples.
Import Config ConfigText.

(** One line of a block, with a comment after the value. *)
Definition block_port : string := "    port: 3307   # on the host" ++ nl.

(** What _extract_block takes for the service block of
    [Examples.cfg_flavor_elsewhere]: the rest of the file. *)
Definition block_service : string :=
"  port: 8000
database:
  flavor: mysql
".

Definition files_dotenv : DbMigrate.files :=
  <[ ".env.dev" := "# local settings
DATABASE_URL=mysql://app:pw@db.internal/app
export TOKEN=abc
" ]> ∅.

Definition registry_host : string := "123456789012.dkr.ecr.eu-west-1.amazonaws.com".

Definition parsed_ref : Aws.ecr_ref :=
  {| Aws.ref_host := registry_host; Aws.ref_region := "eu-west-1";
     Aws.ref_account := "123456789012"; Aws.ref_repository := "billing";
     Aws.ref_tag := "1.2.0"; Aws.ref_private := true |}.

(** The database after a run that met a modified migration. *)
Definition db_refused : DbMigrate.Db :=
  {| DbMigrate.ledger := DbMigrate.ledger LedgerExamples.db_modified;
     DbMigrate.history :=
       [ DbMigrate.Console "error" "Refusing to re-apply modified migration: 001_init.sql";
         DbMigrate.Console "tip" "Create a new numbered migration file instead." ] |}.

Definition cfg_app : string :=
"name: billing
version: 1.2.0
".

(** A running container, and a user who declines. *)
Definition running_container : Runner.container :=
  {| Runner.c_inspect := {| RunLocal.Running := true; RunLocal.Mounts := [] |};
     Runner.c_status := Some "running" |}.

Definition docker_declined : Runner.Docker :=
  {| Runner.docker_found := true;
     Runner.inspect_first := fun _ => Some running_container;
     Runner.inspect_again := fun _ => Some running_container;
     Runner.run_rc := fun _ => 0;
     Runner.confirm := false;
     Runner.ensure_db_image_rc := 0;
     Runner.pullable_rc := fun _ _ _ => 0 |}.

Definition app_root : Path := ["srv"; "billing"].

(** A cluster where every step succeeds; the probe pod reports the
    image digest at its second answer. *)
Definition cluster : Release.Cluster :=
  {| Release.have_helm := true; Release.have_kubectl := true;
     Release.helm_dir := "/opt/plsr/helm"; Release.helm_dir_is_dir := true;
     Release.helm_timeout := "5m";
     Release.ensure_namespace_rc := fun _ => 0;
     Release.sts_rc := fun _ => 0;
     Release.login := fun _ => (0, "token");
     Release.pull_secret_rc := 0;
     Release.pod_apply_rc := 0;
     Release.answers := [None; Some [PullCheck.st_pulled]];
     Release.helm_rc := fun _ => 0 |}.

Definition cfg_release : string :=
"name: billing
version: 1.2.0
ECR: 123456789012.dkr.ecr.eu-west-1.amazonaws.com
".

Definition release_cmd : list string :=
  Release.helm_command cluster cfg_release "dev" "billing" "1.2.0" "python-app"
    (registry_host ++ "/billing")
    ["--set"; "imagePullSecrets[0]=ecr-pull-billing"].

(** A config that names neither an image repository nor a registry. *)
Definition cfg_no_image : string :=
"name: billing
".

End Samples.

(* ===================================================================== *)
(** * Properties                                                          *)
(* ===================================================================== *)

(** ** Truthiness *)


Lemma truthy_true_iff (s : string) : Py.truthy s = true <-> s <> "".
Proof.
  unfold Py.truthy. rewrite negb_true_iff. apply String.eqb_neq.
Qed.

Lemma otruthy_true_iff (o : option string) :
  Py.otruthy o = true <-> exists s, o = Some s /\ s <> "".
Proof.
  destruct o as [s|]; simpl.
  - rewrite truthy_true_iff. split.
    + intros H. exists s. auto.
    + intros [s' [E H]]. congruence.
  - split; [discriminate | intros [s [E _]]; discriminate].
Qed.

Lemma or_str_truthy (o : option string) (s d : string) :
  o = Some s -> s <> "" -> Py.or_str o d = s.
Proof.
  intros -> H. unfold Py.or_str. apply truthy_true_iff in H. now rewrite H.
Qed.

Lemma or_str_falsy (o : option string) (d : string) :
  Py.otruthy o = false -> Py.or_str o d = d.
Proof.
  destruct o as [s|]; simpl; [|reflexivity]. now intros ->.
Qed.

Lemma str_in_In (s : string) (l : list string) : RunLocal.str_in s l = true <-> In s l.
Proof.
  unfold RunLocal.str_in. rewrite existsb_exists. split.
  - intros [x [Hx E]]. apply String.eqb_eq in E. now subst.
  - intros H. exists s. split; [assumption | apply String.eqb_refl].
Qed.

(** ** Flavor *)

(** The three flavor detectors agree, and the flavor is db-mariadb
    exactly when the value the extractor returns for [flavor] in the
    text it returns for [service] is an alias. *)
Lemma flavor_of_extracted (text : string) :
  let fl := Py.strip (Py.lower (Py.or_str
              (Config._kv_from_block (Config._extract_block text "service") "flavor") "")) in
  (RunLocal._detect_flavor text = "db-mariadb" <-> In fl RunLocal.db_aliases)
  /\ (RunLocal._detect_flavor text = "python-app" <-> ~ In fl RunLocal.db_aliases)
  /\ HelmRelease._flavor text = RunLocal._detect_flavor text.
Proof.
  intros fl. unfold RunLocal._detect_flavor, HelmRelease._flavor. fold fl.
  rewrite <- str_in_In.
  destruct (RunLocal.str_in fl RunLocal.db_aliases); repeat split;
    try discriminate; try congruence; auto.
Qed.

(** C5 (the code at the failing input).  In [cfg_flavor_elsewhere] the
    service block is the one indented line with the port, which has no
    flavor key; a key [flavor] stands in the block [database] after it.
    _extract_block returns the text from the line after [service:] to
    the last newline of the file, so all three flavor detectors read
    [mysql] and answer db-mariadb. *)
Theorem C5_flavor_read_from_later_block :
  Config._kv_from_block "  port: 8000
" "flavor" = None
  /\ Config._extract_block Examples.cfg_flavor_elsewhere "service"
    = "  port: 8000
database:
  flavor: mysql
"
  /\ RunLocal._detect_flavor Examples.cfg_flavor_elsewhere = "db-mariadb"
  /\ HelmRelease._flavor Examples.cfg_flavor_elsewhere = "db-mariadb"
  /\ snd (Build._read_fields_from_config_yaml ∅ Examples.cfg_flavor_elsewhere)
       = "db-mariadb".
Proof. vm_compute. repeat split; reflexivity. Qed.

(** ** The deletion gate *)

Lemma is_prefix_nested (base p : Path) :
  PathOps.is_prefix base p = true <-> Gate.nested_under p base.
Proof.
  unfold Gate.nested_under. revert p.
  induction base as [|b base IH]; intros p; simpl.
  - split; [intros _; now exists p | reflexivity].
  - destruct p as [|c p]; simpl.
    + split; [discriminate | intros [rest H]; discriminate].
    + rewrite andb_true_iff, String.eqb_eq, IH. split.
      * intros [-> [rest ->]]. now exists rest.
      * intros [rest H]. injection H as -> ->. split; [reflexivity | now exists rest].
Qed.

Lemma path_eqb_eq (p q : Path) : PathOps.eqb p q = true <-> p = q.
Proof.
  revert q. induction p as [|a p IH]; intros [|b q]; simpl;
    try (split; [discriminate | discriminate]); try (split; reflexivity).
  rewrite andb_true_iff, String.eqb_eq, IH. split.
  - now intros [-> ->].
  - intros H. now injection H as -> ->.
Qed.

Lemma nested_under_refl (p : Path) : Gate.nested_under p p.
Proof. exists []. now rewrite app_nil_r. Qed.

(** The gate answers True exactly for the paths that resolve to a base
    of its list or below one. *)
Lemma gate_allows_iff (h : Host) (p root : Path) (cfg env_name : string) :
  RunLocal._allowed_delete_host_dir h p root cfg env_name = true
  <-> exists base, In base (Gate.allow_list h root cfg env_name)
                   /\ Gate.nested_under (resolve h p) base.
Proof.
  unfold RunLocal._allowed_delete_host_dir, Gate.allow_list.
  set (d := resolve h (RunLocal._default_local_db_dir h)).
  set (r := resolve h (PathOps.join (PathOps.join (PathOps.join root ".plsr") "data") "mariadb")).
  set (hp := resolve h (PathOps.join (PathOps.join (home h) "dev") "plsr")).
  set (test := fun base : Path =>
                 PathOps.eqb (resolve h p) (resolve h base)
                 || PathOps.is_relative_to (resolve h p) (resolve h base)).
  assert (Htest : forall base, test base = true
                               <-> Gate.nested_under (resolve h p) (resolve h base)).
  { intros base. unfold test, PathOps.is_relative_to.
    rewrite orb_true_iff, path_eqb_eq, is_prefix_nested. split.
    - intros [-> | H]; [apply nested_under_refl | exact H].
    - intros H. now right. }
  destruct (RunLocal._host_data_dir_from_config h cfg env_name) as [c|]; simpl.
  - destruct (test d) eqn:Ed; [| destruct (test r) eqn:Er; [| destruct (test (resolve h c)) eqn:Ec]];
      simpl.
    + split; [intros _ | reflexivity]. exists (resolve h d). split; [now left | now apply Htest].
    + split; [intros _ | reflexivity]. exists (resolve h r).
      split; [right; now left | now apply Htest].
    + split; [intros _ | reflexivity]. exists (resolve h (resolve h c)).
      split; [right; right; now left | now apply Htest].
    + unfold PathOps.is_relative_to.
      destruct (PathOps.is_prefix hp (resolve h p)) eqn:Eh.
      * split; [intros _ | reflexivity]. exists hp.
        split; [right; right; right; now left | now apply is_prefix_nested].
      * split; [discriminate |].
        intros [base [[<- | [<- | [<- | [<- | []]]]] Hn]].
        -- apply Htest in Hn. congruence.
        -- apply Htest in Hn. congruence.
        -- apply Htest in Hn. congruence.
        -- apply is_prefix_nested in Hn. congruence.
  - destruct (test d) eqn:Ed; [| destruct (test r) eqn:Er]; simpl.
    + split; [intros _ | reflexivity]. exists (resolve h d). split; [now left | now apply Htest].
    + split; [intros _ | reflexivity]. exists (resolve h r).
      split; [right; now left | now apply Htest].
    + unfold PathOps.is_relative_to.
      destruct (PathOps.is_prefix hp (resolve h p)) eqn:Eh.
      * split; [intros _ | reflexivity]. exists hp.
        split; [right; right; now left | now apply is_prefix_nested].
      * split; [discriminate |].
        intros [base [[<- | [<- | [<- | []]]] Hn]].
        -- apply Htest in Hn. congruence.
        -- apply Htest in Hn. congruence.
        -- apply is_prefix_nested in Hn. congruence.
Qed.

Lemma in_map_run_not_touch (l : list (list string)) (q : Path) (e : RunLocal.effect) :
  In e (map RunLocal.Run l) -> ~ Gate.touches q e.
Proof.
  intros Hin [E | E]; subst e; apply in_map_iff in Hin as [a [Ha _]]; discriminate.
Qed.

(** Whatever the flags and the container, auto_stop removes only a path
    the gate has allowed, and creates none. *)
Lemma stop_touches_gated (h : Host) (run_rc : list string -> Z) (root : Path)
  (cfg env_name flavor cname : string) (data_cont : option string)
  (insp : option RunLocal.inspect) (keep_data dry_run : bool)
  (q : Path) (e : RunLocal.effect) :
  In e (fst (RunLocal.auto_stop_tail h run_rc root cfg env_name flavor cname
               data_cont insp keep_data dry_run)) ->
  Gate.touches q e ->
  e = RunLocal.Rmtree q
  /\ RunLocal._allowed_delete_host_dir h q root cfg env_name = true.
Proof.
  unfold RunLocal.auto_stop_tail.
  generalize (RunLocal.stop_actions cname insp) as actions.
  generalize (RunLocal.stop_host_dir h cfg env_name flavor data_cont insp keep_data)
    as host_dir.
  intros host_dir actions Hin Ht.
  destruct dry_run.
  - exfalso. simpl in Hin.
    destruct Hin as [<- | Hin]; [destruct Ht; discriminate |].
    apply in_app_or in Hin as [Hin | Hin].
    + apply in_map_iff in Hin as [a [<- _]]. destruct Ht; discriminate.
    + destruct host_dir as [p|]; simpl in Hin.
      * destruct Hin as [<- | Hin]; [destruct Ht; discriminate | destruct Hin].
      * destruct Hin.
  - destruct host_dir as [p|]; simpl in Hin.
    2:{ exfalso. eapply in_map_run_not_touch; eauto. }
    destruct (path_exists h (resolve h p)).
    2:{ exfalso. simpl in Hin. apply in_app_or in Hin as [Hin | [<- | []]].
        - eapply in_map_run_not_touch; eauto.
        - destruct Ht; discriminate. }
    destruct (RunLocal._allowed_delete_host_dir h (resolve h p) root cfg env_name) eqn:Eg.
    2:{ exfalso. simpl in Hin. apply in_app_or in Hin as [Hin | [<- | [<- | []]]].
        - eapply in_map_run_not_touch; eauto.
        - destruct Ht; discriminate.
        - destruct Ht; discriminate. }
    destruct (rmtree_ok h (resolve h p)); simpl in Hin;
      apply in_app_or in Hin as [Hin | [<- | [<- | []]]];
      try (exfalso; eapply in_map_run_not_touch; eauto; fail);
      try (destruct Ht; discriminate; fail);
      destruct Ht as [E | E]; try discriminate; injection E as <-; auto.
Qed.

(** auto_run, when it resets the data of a redeployed database, removes
    or creates only a path the gate has allowed. *)
Lemma run_touches_gated (h : Host) (root : Path) (cfg env_name flavor : string)
  (insp_existing : option RunLocal.inspect) (q : Path) (e : RunLocal.effect) :
  In e (RunLocal.auto_run_reset_data h root cfg env_name flavor insp_existing) ->
  Gate.touches q e ->
  RunLocal._allowed_delete_host_dir h q root cfg env_name = true.
Proof.
  unfold RunLocal.auto_run_reset_data.
  destruct (String.eqb flavor "db-mariadb"); [| intros []].
  match goal with
  | |- context [RunLocal._allowed_delete_host_dir h ?hd _ _ _] =>
      generalize hd; intros host_dir
  end.
  destruct (RunLocal._allowed_delete_host_dir h host_dir root cfg env_name) eqn:Eg.
  - intros Hin Ht. apply in_app_or in Hin as [Hin | Hin].
    + destruct (path_exists h host_dir); [| destruct Hin].
      destruct (rmtree_ok h host_dir); destruct Hin as [<- | [<- | []]];
        destruct Ht as [E | E]; try discriminate; injection E as <-; exact Eg.
    + destruct Hin as [<- | [<- | []]];
        destruct Ht as [E | E]; try discriminate; injection E as <-; exact Eg.
  - intros [<- | [<- | []]] [E | E]; discriminate.
Qed.

(** The gate as a safety property over the list of bases it builds:
    a path that resolves outside every base is refused, and neither
    auto_stop nor auto_run ever removes or creates it. *)
Lemma gate_refuses_outside (h : Host) (root : Path) (cfg env_name : string) (q : Path)
  (Hout : forall base, In base (Gate.allow_list h root cfg env_name) ->
                       ~ Gate.nested_under (resolve h q) base) :
  RunLocal._allowed_delete_host_dir h q root cfg env_name = false
  /\ (forall run_rc flavor cname data_cont insp keep_data dry_run e,
        In e (fst (RunLocal.auto_stop_tail h run_rc root cfg env_name flavor cname
                     data_cont insp keep_data dry_run)) ->
        ~ Gate.touches q e)
  /\ (forall flavor insp e,
        In e (RunLocal.auto_run_reset_data h root cfg env_name flavor insp) ->
        ~ Gate.touches q e).
Proof.
  assert (Hg : RunLocal._allowed_delete_host_dir h q root cfg env_name = false).
  { destruct (RunLocal._allowed_delete_host_dir h q root cfg env_name) eqn:E; [| reflexivity].
    apply gate_allows_iff in E as [base [Hin Hn]]. exfalso. eapply Hout; eauto. }
  split; [exact Hg |]. split.
  - intros run_rc flavor cname data_cont insp keep_data dry_run e Hin Ht.
    destruct (stop_touches_gated _ _ _ _ _ _ _ _ _ _ _ _ _ Hin Ht) as [_ Ha]. congruence.
  - intros flavor insp e Hin Ht.
    pose proof (run_touches_gated _ _ _ _ _ _ _ _ Hin Ht). congruence.
Qed.

(** C1 (the code at the failing input).  With [cfg_data_dir_elsewhere]
    the block of [environments.local] holds no data_dir, and
    /var/lib/mysql is below none of the default directory, the
    directory under the service root and the namespace under the home
    directory.  The resolver of the configured directory reads
    [service.data_dir] all the same (the environment block it is given
    runs to the end of the file), the gate takes that path for a base,
    and a stop of the database service removes /var/lib/mysql. *)
Theorem C1_gate_allows_unconfigured_path :
  let h := Examples.host in
  let cfg := Examples.cfg_data_dir_elsewhere in
  let root := Examples.service_root in
  let victim := ["var"; "lib"; "mysql"] in
  Config._extract_env_block cfg "local"
    = "    port: 3307
service:
  flavor: mariadb
  data_dir: /var/lib/mysql
"
  /\ RunLocal._host_data_dir_from_config h cfg "local" = Some victim
  /\ Forall (fun base => ~ Gate.nested_under victim base)
        [ RunLocal._default_local_db_dir h;
          PathOps.join (PathOps.join (PathOps.join root ".plsr") "data") "mariadb";
          PathOps.join (PathOps.join (home h) "dev") "plsr" ]
  /\ RunLocal._allowed_delete_host_dir h victim root cfg "local" = true
  /\ RunLocal.auto_stop_tail h (fun _ => 0) root cfg "local"
       (RunLocal._detect_flavor cfg) "svc-db"
       (Some (RunLocal._data_dir_container cfg)) None false false
     = ([RunLocal.Rmtree victim;
         RunLocal.Console "success" "Deleted DB data dir: /var/lib/mysql"], 0).
Proof.
  cbv zeta. split; [vm_compute; reflexivity |]. split; [vm_compute; reflexivity |].
  split.
  - repeat constructor; intros [rest E]; vm_compute in E; discriminate E.
  - split; vm_compute; reflexivity.
Qed.

(** ** The connection string *)

(** When no source gives a value, migrate returns 2 and does not raise. *)
Lemma migrate_without_url (w : DbMigrate.World) (c : DbMigrate.Client)
  (env_name : string) (db : DbMigrate.Db) :
  DbMigrate.mysql_bin w = true ->
  env_name <> "" ->
  DbMigrate._read_config_text (DbMigrate.root_files w) <> "" ->
  Py.otruthy (DbMigrate._db_url_from_config (DbMigrate.env_vars w) (DbMigrate.root_files w)
                (DbMigrate._read_config_text (DbMigrate.root_files w)) env_name) = false ->
  exists db', DbMigrate.migrate w c env_name db = Ok (2, db').
Proof.
  intros Hbin Henv Hcfg Hurl. unfold DbMigrate.migrate.
  apply truthy_true_iff in Henv. apply truthy_true_iff in Hcfg.
  rewrite Henv, Hbin, Hcfg, Hurl. simpl. eauto.
Qed.

(** C7 (the code at two failing inputs).  First: [.env.dev] gives
    DATABASE_URL a quoted blank value and config.yaml gives
    [environments.dev] a connection string; the dotenv value is tested
    before it is stripped, wins, and is returned empty, so migrate
    answers 2 (no DATABASE_URL) although a later source has one.
    Second: only [environments.prod] holds a DATABASE_URL; for [dev] no
    source has a value, yet the lookup of the top-level key accepts the
    indented line and migrate gets the connection string of prod. *)
Theorem C7_cascade_at_failing_inputs :
  (DbMigrate._load_dotenv_map Examples.files_blank_dotenv "dev" !! "DATABASE_URL"
     = Some "  "
   /\ Config._kv_from_block (Config._extract_env_block Examples.cfg_dev_url "dev")
        "DATABASE_URL" = Some "mysql://app:pw@db.internal/app"
   /\ DbMigrate._db_url_from_config ∅ Examples.files_blank_dotenv
        Examples.cfg_dev_url "dev" = Some ""
   /\ exists db',
        DbMigrate.migrate
          (MigrateExamples.world ∅ Examples.files_blank_dotenv None)
          MigrateExamples.client "dev" MigrateExamples.empty_db = Ok (2, db'))
  /\ (Config._extract_env_block Examples.cfg_prod_url "dev" = ""
      /\ Config._extract_block Examples.cfg_prod_url "default" = ""
      /\ DbMigrate._db_url_from_config ∅ ∅ Examples.cfg_prod_url "dev"
           = Some "mysql://app:pw@prod-db/app").
Proof.
  split; [split; [| split; [| split]] | split; [| split]];
    try (vm_compute; reflexivity).
  eexists. vm_compute. reflexivity.
Qed.

(** ** The registry root *)

Lemma trim_root_empty : RunLocal.trim_root "" = "".
Proof. reflexivity. Qed.





(** ** The identity of the service *)

Lemma or_opt_truthy (a b : option string) (s : string) :
  a = Some s -> s <> "" -> Py.or_opt a b = Some s.
Proof.
  intros -> H. unfold Py.or_opt. simpl. apply truthy_true_iff in H. now rewrite H.
Qed.

Lemma or_opt_falsy (a b : option string) : Py.otruthy a = false -> Py.or_opt a b = b.
Proof. intros H. unfold Py.or_opt. now rewrite H. Qed.

Lemma or_str_or_opt (a b : option string) (d : string) :
  Py.or_str (Py.or_opt a b) d = Py.or_str a (Py.or_str b d).
Proof.
  unfold Py.or_opt, Py.or_str.
  destruct a as [s|]; simpl; [destruct (Py.truthy s) eqn:E; [now rewrite E | reflexivity] |].
  reflexivity.
Qed.

Lemma or_str_some_or_str (a : option string) (d : string) :
  Py.or_str (Some (Py.or_str a "")) d = Py.or_str a d.
Proof.
  destruct a as [s|]; simpl; [| reflexivity].
  destruct (Py.truthy s) eqn:E; simpl; now rewrite ?E.
Qed.

(** Case analysis over the truthiness tests of a chain of [or]s. *)
Ltac or_cases :=
  unfold Py.or_str, Py.or_opt, Py.otruthy, Bootstrap.none_if_empty in *;
  change (Py.truthy "") with false in *;
  repeat (simpl in *;
          match goal with
          | H : Py.truthy ?x = _ |- context [Py.truthy ?x] => rewrite H
          | |- context [match ?o with Some _ => _ | None => _ end] =>
              is_var o; destruct o
          | |- context [if Py.truthy ?x then _ else _] =>
              is_var x; destruct (Py.truthy x) eqn:?
          end);
  try reflexivity; try congruence.

(** C8, as stated, fails.  With no name and version in the config and
    both in the manifest, the runners (docker run and stop, helm
    release) take the directory basename and "0.0.0" where the stated
    cascade gives the manifest's values; and read_app_metadata never
    reads the config. *)
Lemma C8_stated_cascade_fails :
  Config._kv_top IdentityExamples.cfg_anonymous "name" = None
  /\ Config._kv_top IdentityExamples.cfg_anonymous "version" = None
  /\ Claimed.identity (Config._kv_top IdentityExamples.cfg_anonymous "name")
       (Config._kv_top IdentityExamples.cfg_anonymous "version")
       (Some IdentityExamples.pyproject) IdentityExamples.root
     = ("billing-api", "3.4.5")
  /\ HelmRelease._name_version IdentityExamples.cfg_anonymous IdentityExamples.root
     = ("checkout", "0.0.0")
  /\ RunLocal.run_name_version IdentityExamples.cfg_anonymous IdentityExamples.root
     = ("checkout", "0.0.0")
  /\ Claimed.identity (Config._kv_top IdentityExamples.cfg_named "name")
       (Config._kv_top IdentityExamples.cfg_named "version")
       (Some IdentityExamples.pyproject) IdentityExamples.root
     = ("billing", "1.2.0")
  /\ App.read_app_metadata (Some IdentityExamples.pyproject) IdentityExamples.root
     = ("billing-api", "3.4.5").
Proof. vm_compute. repeat split; reflexivity. Qed.

(** C8, amended.  The three-step cascade (config keys, then manifest,
    then directory basename and "0.0.0") is what the bootstrap entry
    point computes for the identity it exports.  The runners (docker run
    and stop, helm release) take the top-level config key when it has a
    value and else the directory basename, respectively "0.0.0", and
    never read the manifest.  read_app_metadata takes the manifest's
    [project] field, then its [tool.poetry] field, then the directory
    basename, respectively "0.0.0", and never reads the config. *)
Theorem C8_identity_per_entry_point :
  (forall cfg pyproject root,
     Bootstrap.cli_identity cfg pyproject root
     = Claimed.identity (fst (Bootstrap._read_name_version_from_config_yaml cfg))
                        (snd (Bootstrap._read_name_version_from_config_yaml cfg))
                        pyproject root)
  /\ (forall text root,
        HelmRelease._name_version text root = RunLocal.run_name_version text root)
  /\ (forall text root v,
        Config._kv_top text "name" = Some v -> v <> "" ->
        fst (RunLocal.run_name_version text root) = v)
  /\ (forall text root,
        Py.otruthy (Config._kv_top text "name") = false ->
        fst (RunLocal.run_name_version text root) = PathOps.name root)
  /\ (forall text root v,
        Config._kv_top text "version" = Some v -> v <> "" ->
        snd (RunLocal.run_name_version text root) = v)
  /\ (forall text root,
        Py.otruthy (Config._kv_top text "version") = false ->
        snd (RunLocal.run_name_version text root) = "0.0.0")
  /\ (forall pyproject root,
        App.read_app_metadata pyproject root = Claimed.identity None None pyproject root).
Proof.
  repeat match goal with |- _ /\ _ => split end.
  - intros cfg pyproject root.
    unfold Bootstrap.cli_identity, Claimed.identity, Claimed.first_of.
    destruct (Bootstrap._read_name_version_from_config_yaml cfg) as [name ver].
    destruct pyproject as [[pn pv qn qv]|]; simpl;
      destruct name as [n|], ver as [v|]; or_cases.
  - reflexivity.
  - intros text root v E Hv. simpl. now apply or_str_truthy.
  - intros text root E. simpl. now apply or_str_falsy.
  - intros text root v E Hv. simpl. now apply or_str_truthy.
  - intros text root E. simpl. now apply or_str_falsy.
  - intros pyproject root. unfold App.read_app_metadata, Claimed.identity, Claimed.first_of.
    destruct pyproject as [[pn pv qn qv]|]; simpl; or_cases.
Qed.

(** ** The root password *)

Lemma kv_empty_root_pw : Config._kv_from_block "" "root_pw" = None.
Proof. reflexivity. Qed.

Lemma kv_empty_password : Config._kv_from_block "" "password" = None.
Proof. reflexivity. Qed.

Lemma extract_block_empty_root : Config._extract_block "" "root" = "".
Proof. reflexivity. Qed.

(** When the extractor finds no value for [root_pw] in the block of the
    environment and none for [password] in the [root] block of [dev],
    migrations and the helm release use Password1.  The local container
    uses Password1 under the same two conditions when [dev] has a
    [root] block; when it has none, the local container looks for
    [password] in the whole [dev] block and uses Password1 only when
    there is none there either. *)
Lemma default_root_password (text env_name : string)
  (Henv : Py.otruthy (Config._kv_from_block
                        (Config._extract_env_block text env_name) "root_pw") = false)
  (Hdev : Py.otruthy (Config._kv_from_block
                        (Config._extract_block (Config._extract_block text "dev") "root")
                        "password") = false) :
  DbMigrate._root_password text env_name = "Password1"
  /\ HelmRelease.db_env_root_pw text env_name = "Password1"
  /\ (forall m, Re.search (Config.block_re "root") (Config._extract_block text "dev") = Some m ->
                RunLocal.run_root_password text env_name = "Password1")
  /\ (Re.search (Config.block_re "root") (Config._extract_block text "dev") = None ->
      Py.otruthy (Config._kv_from_block (Config._extract_block text "dev") "password") = false ->
      RunLocal.run_root_password text env_name = "Password1").
Proof.
  assert (Hmig : DbMigrate._root_password text env_name = "Password1").
  { unfold DbMigrate._root_password.
    destruct (Py.truthy (Config._extract_env_block text env_name)); simpl;
      rewrite ?Henv; simpl.
    - unfold Config._extract_block in Hdev at 1.
      destruct (Py.truthy (Config._extract_block text "dev")); [| reflexivity].
      destruct (Re.search (Config.block_re "root") (Config._extract_block text "dev"));
        now rewrite Hdev.
    - unfold Config._extract_block in Hdev at 1.
      destruct (Py.truthy (Config._extract_block text "dev")); [| reflexivity].
      destruct (Re.search (Config.block_re "root") (Config._extract_block text "dev"));
        now rewrite Hdev. }
  assert (Hhelm : HelmRelease.db_env_root_pw text env_name = "Password1").
  { unfold HelmRelease.db_env_root_pw.
    fold (Config._extract_env_block text env_name) in *.
    assert (Hblk : (if Py.truthy (Config._extract_block text "environments")
                    then match Re.search (Config.block_re env_name)
                                 (Config._extract_block text "environments") with
                         | Some m => Re.group m 1
                         | None => ""
                         end
                    else "") = Config._extract_env_block text env_name).
    { unfold Config._extract_env_block.
      now destruct (Py.truthy (Config._extract_block text "environments")). }
    rewrite Hblk, Henv. simpl.
    destruct (Py.truthy (Config._extract_block text "dev")).
    + rewrite (or_opt_falsy _ _ Hdev). now rewrite or_str_falsy.
    + now rewrite or_str_falsy. }
  assert (Henv' : RunLocal._env_root_password text env_name = None).
  { unfold RunLocal._env_root_password.
    destruct (Py.truthy (Config._extract_env_block text env_name)); simpl; [| reflexivity].
    now rewrite Henv. }
  repeat split; try assumption.
  - intros m Em. unfold RunLocal.run_root_password, RunLocal._dev_root_password.
    rewrite Henv'. rewrite or_opt_falsy by reflexivity.
    assert (Hd : (if negb (Py.truthy (Config._extract_block text "dev"))
                  then Config._extract_block text "dev"
                  else Config._extract_block text "dev") = Config._extract_block text "dev").
    { now destruct (negb (Py.truthy (Config._extract_block text "dev"))). }
    rewrite Hd, Em.
    unfold Config._extract_block in Hdev at 1. rewrite Em in Hdev.
    now apply or_str_falsy.
  - intros Em Hpw. unfold RunLocal.run_root_password, RunLocal._dev_root_password.
    rewrite Henv'. rewrite or_opt_falsy by reflexivity.
    assert (Hd : (if negb (Py.truthy (Config._extract_block text "dev"))
                  then Config._extract_block text "dev"
                  else Config._extract_block text "dev") = Config._extract_block text "dev").
    { now destruct (negb (Py.truthy (Config._extract_block text "dev"))). }
    rewrite Hd, Em. now apply or_str_falsy.
Qed.

(** At a config with neither key the three agree. *)
Lemma default_root_password_plain :
  DbMigrate._root_password PasswordExamples.cfg_plain "local" = "Password1"
  /\ HelmRelease.db_env_root_pw PasswordExamples.cfg_plain "local" = "Password1"
  /\ RunLocal.run_root_password PasswordExamples.cfg_plain "local" = "Password1".
Proof.
  pose proof (default_root_password PasswordExamples.cfg_plain "local"
                ltac:(vm_compute; reflexivity) ltac:(vm_compute; reflexivity))
    as [H1 [H2 [_ H3]]].
  split; [exact H1 | split; [exact H2 |]].
  apply H3; vm_compute; reflexivity.
Defined.



(** ** The host port *)









(** ** The pull check *)

Lemma poll_loop_undecided (pre rest : list HelmRelease.observation) :
  forallb PullCheck.undecided pre = true ->
  HelmRelease.poll_loop (pre ++ rest)
  = ((PullCheck.waited pre ++ fst (HelmRelease.poll_loop rest))%list,
     snd (HelmRelease.poll_loop rest)).
Proof.
  induction pre as [|o pre IH]; intros Hall.
  - simpl. now destruct (HelmRelease.poll_loop rest).
  - simpl in Hall. apply andb_true_iff in Hall as [Ho Hpre].
    specialize (IH Hpre). cbn [app HelmRelease.poll_loop].
    rewrite IH. cbn [PullCheck.waited flat_map app].
    destruct o as [[|st sts]|]; try reflexivity.
    unfold PullCheck.undecided in Ho. apply andb_true_iff in Ho as [Hi Hr].
    apply negb_true_iff in Hi, Hr. now rewrite Hi, Hr.
Qed.




(** ** The ledger as the run reads it *)

Section LedgerRead.
Import DbMigrate.

Lemma add_rows_dict (rows : list (string * string)) (m : gmap string string) :
  fold_left add_row (map (fun nc => [nc.1; nc.2]) rows) (Ok m)
  = Ok (Ledger.dict_of rows m).
Proof.
  revert m. induction rows as [|[n c] rows IH]; intros m; [reflexivity |].
  cbn [map fold_left]. unfold Ledger.dict_of. cbn [fold_left].
  unfold add_row at 2. cbn [fst snd].
  destruct (Py.truthy n); apply IH.
Qed.

Lemma dict_of_other (rows : list (string * string)) (m : gmap string string) (n : string) :
  n ∉ rows.*1 \/ n = "" -> Ledger.dict_of rows m !! n = m !! n.
Proof.
  revert m. induction rows as [|[k c] rows IH]; intros m Hn; [reflexivity |].
  unfold Ledger.dict_of. cbn [fold_left fst snd]. fold (Ledger.dict_of rows).
  assert (Hrest : n ∉ rows.*1 \/ n = "").
  { destruct Hn as [Hn | Hn]; [left | now right].
    intros Hin. apply Hn. rewrite fmap_cons. apply elem_of_cons. now right. }
  destruct (Py.truthy k) eqn:Ek; rewrite (IH _ Hrest); [| reflexivity].
  apply lookup_insert_ne. intros ->.
  destruct Hn as [Hn | Hn].
  - apply Hn. rewrite fmap_cons. apply elem_of_cons. now left.
  - subst n. discriminate Ek.
Qed.

Lemma dict_of_row (rows : list (string * string)) (m : gmap string string) (n c : string) :
  NoDup rows.*1 -> (n, c) ∈ rows -> n <> "" -> Ledger.dict_of rows m !! n = Some c.
Proof.
  revert m. induction rows as [|[k v] rows IH]; intros m Hnd Hin Hn.
  - inversion Hin.
  - rewrite fmap_cons in Hnd. apply NoDup_cons in Hnd as [Hk Hnd].
    unfold Ledger.dict_of. cbn [fold_left fst snd]. fold (Ledger.dict_of rows).
    apply elem_of_cons in Hin as [E | Hin].
    + injection E as <- <-. rewrite dict_of_other by (now left).
      apply truthy_true_iff in Hn. rewrite Hn. apply lookup_insert_eq.
    + now apply IH.
Qed.

(** What _already_applied makes of the client's answer: never a row
    that is not in the table and, when the SELECT succeeds, every row
    with a name. *)
Lemma already_applied_reads (code : Z) (db : Db) :
  exists applied,
    _already_applied code (select_rows db) = Ok applied
    /\ (forall n c, applied !! n = Some c -> ledger db !! n = Some c)
    /\ (code = 0 -> forall n, n <> "" -> applied !! n = ledger db !! n).
Proof.
  unfold _already_applied. destruct (code =? 0) eqn:Ec; simpl.
  2:{ exists ∅. split; [reflexivity |]. split.
      - intros n c H. now rewrite lookup_empty in H.
      - intros ->. discriminate Ec. }
  unfold select_rows.
  destruct (map_to_list (ledger db)) as [|r rows] eqn:El.
  - exists ∅. split; [reflexivity |].
    apply map_to_list_empty_iff in El. rewrite El. split; [auto |]. intros _ n _. reflexivity.
  - change (String.eqb (Py.lower "name") "name") with true. cbv iota.
    rewrite <- El. rewrite add_rows_dict.
    exists (Ledger.dict_of (map_to_list (ledger db)) ∅). split; [reflexivity |].
    assert (Hread : forall n, n <> "" ->
              Ledger.dict_of (map_to_list (ledger db)) ∅ !! n = ledger db !! n).
    { intros n Hn. destruct (ledger db !! n) as [c|] eqn:E.
      - apply dict_of_row; [apply NoDup_fst_map_to_list | | assumption].
        now apply elem_of_map_to_list.
      - rewrite dict_of_other; [apply lookup_empty |]. left.
        intros Hin. apply list_elem_of_fmap in Hin as [[k v] [-> Hin]].
        apply elem_of_map_to_list in Hin. simpl in E. congruence. }
    split; [| intros _; exact Hread].
    intros n c H. destruct (String.eqb n "") eqn:En.
    + apply String.eqb_eq in En. subst n.
      rewrite dict_of_other in H by (now right). now rewrite lookup_empty in H.
    + apply String.eqb_neq in En. now rewrite Hread in H.
Qed.

End LedgerRead.

(** ** The migration loop *)

Section MigrationLoop.
Import DbMigrate.

Variable c : Client.
Variable applied : gmap string string.

Lemma opt_str_eqb_true (o : option string) (s : string) :
  opt_str_eqb o s = true <-> o = Some s.
Proof.
  destruct o as [x|]; simpl; [| split; discriminate].
  rewrite String.eqb_eq. split; congruence.
Qed.

Lemma insert_ledger_cases (db : Db) (name checksum : string) (rc : Z) (db' : Db) :
  _insert_ledger c db name checksum = (rc, db') ->
  (rc <> 0 /\ db' = db)
  \/ (rc = 0 /\ ledger db !! name = None
      /\ db' = {| ledger := <[name := checksum]> (ledger db);
                  history := history db ++ [Inserted name checksum] |}).
Proof.
  unfold _insert_ledger.
  destruct (insert_err c db name checksum =? 0) eqn:Ee; simpl.
  - destruct (ledger db !! name) eqn:El; intros H; injection H as <- <-.
    + left. split; [discriminate | reflexivity].
    + right. auto.
  - intros H. injection H as <- <-. left. split; [| reflexivity].
    intros E. rewrite E in Ee. discriminate.
Qed.



(** The loop never changes or removes a row of the ledger. *)
Lemma apply_files_keeps_rows (fs : list sqlfile) (db : Db) (rc : Z) (db' : Db) :
  apply_files c applied fs db = (rc, db') -> Ledger.rows_kept db db'.
Proof.
  revert db. induction fs as [|f fs IH]; intros db H.
  - simpl in H. injection H as _ <-. intros n v Hn. exact Hn.
  - cbn [apply_files] in H.
    destruct (opt_str_eqb (applied !! fname f) (_file_checksum c f)).
    { apply IH in H. exact H. }
    destruct (match applied !! fname f with
              | Some old => negb (String.eqb old (_file_checksum c f))
              | None => false
              end).
    { injection H as _ <-. intros n v Hn. exact Hn. }
    destruct (negb (exec_rc c _ f =? 0)).
    { injection H as _ <-. intros n v Hn. exact Hn. }
    destruct (_insert_ledger c _ (fname f) (_file_checksum c f)) as [rec db2] eqn:Ei.
    apply insert_ledger_cases in Ei as [[_ ->] | [_ [Habs ->]]].
    + destruct (negb (rec =? 0)).
      * injection H as _ <-. intros n v Hn. exact Hn.
      * apply IH in H. exact H.
    + assert (Hk : forall n v, ledger db !! n = Some v ->
                               <[fname f := _file_checksum c f]> (ledger db) !! n = Some v).
      { intros n v Hn. rewrite lookup_insert_ne; [exact Hn |].
        intros E. subst n. simpl in Habs. congruence. }
      destruct (negb (rec =? 0)).
      * injection H as _ <-. exact Hk.
      * apply IH in H. intros n v Hn. apply H. simpl. now apply Hk.
Qed.

(** After a run that returns 0 every file has its row, with its
    checksum, when the dictionary of the run held nothing that the
    ledger did not. *)
Lemma apply_files_records (fs : list sqlfile) (db db' : Db) :
  apply_files c applied fs db = (0, db') ->
  (forall n v, applied !! n = Some v -> ledger db !! n = Some v) ->
  forall f, In f fs -> ledger db' !! fname f = Some (_file_checksum c f).
Proof.
  revert db. induction fs as [|g fs IH]; intros db H Happ f Hin; [destruct Hin |].
  cbn [apply_files] in H.
  destruct (opt_str_eqb (applied !! fname g) (_file_checksum c g)) eqn:Es.
  { destruct Hin as [<- | Hin]; [| now apply (IH _ H)].
    apply opt_str_eqb_true in Es. apply Happ in Es.
    apply apply_files_keeps_rows in H. now apply H. }
  destruct (match applied !! fname g with
            | Some old => negb (String.eqb old (_file_checksum c g))
            | None => false
            end); [discriminate H |].
  destruct (negb (exec_rc c _ g =? 0)) eqn:Ex.
  { injection H as E _. apply negb_true_iff in Ex. rewrite E in Ex. discriminate. }
  destruct (_insert_ledger c _ (fname g) (_file_checksum c g)) as [rec db2] eqn:Ei.
  destruct (negb (rec =? 0)) eqn:Er.
  { injection H as E _. apply negb_true_iff in Er. rewrite E in Er. discriminate. }
  apply insert_ledger_cases in Ei as [[Hrec _] | [_ [Habs ->]]].
  { apply negb_false_iff, Z.eqb_eq in Er. contradiction. }
  destruct Hin as [<- | Hin].
  - apply apply_files_keeps_rows in H. apply H. simpl. apply lookup_insert_eq.
  - apply (IH _ H); [| assumption].
    intros n v Hn. simpl. rewrite lookup_insert_ne; [now apply Happ |].
    intros E. subst n. apply Happ in Hn. simpl in Habs. congruence.
Qed.



Lemma apply_files_zero_or_abort (fs : list sqlfile) (db : Db) :
  fst (apply_files c applied fs db) = 0
  \/ fst (apply_files c applied fs db) <> 0.
Proof. destruct (Z.eq_dec (fst (apply_files c applied fs db)) 0); auto. Qed.

End MigrationLoop.

(** ** The list of migration files *)

Section SqlFiles.
Import DbMigrate.

Lemma string_leb_iff (a b : string) :
  String.leb a b = true <-> a = b \/ OrderedTypeEx.String_as_OT.lt a b.
Proof.
  unfold String.leb.
  destruct (String.compare a b) eqn:E.
  - apply OrderedTypeEx.String_as_OT.cmp_eq in E. split; auto.
  - apply OrderedTypeEx.String_as_OT.cmp_lt in E. split; auto.
  - split; [discriminate |]. intros [-> | Hlt].
    + assert (Hb : String.compare b b = Eq)
        by (now apply OrderedTypeEx.String_as_OT.cmp_eq).
      congruence.
    + apply OrderedTypeEx.String_as_OT.cmp_lt in Hlt.
      unfold OrderedTypeEx.String_as_OT.cmp in Hlt. congruence.
Qed.

Lemma string_leb_trans (a b d : string) :
  String.leb a b = true -> String.leb b d = true -> String.leb a d = true.
Proof.
  rewrite !string_leb_iff. intros [-> | H1] [-> | H2]; auto.
  right. eapply OrderedTypeEx.String_as_OT.lt_trans; eauto.
Qed.

#[local] Instance name_le_transitive : Transitive name_le.
Proof. intros x y z. unfold name_le. apply string_leb_trans. Qed.

#[local] Instance name_le_total : Total name_le.
Proof. intros x y. unfold name_le. apply String.leb_total. Qed.


Lemma endswith_nonempty (n : string) : endswith n ".sql" = true -> n <> "".
Proof. intros H ->. discriminate H. Qed.

(** Every listed file is a file of the directory whose name ends in
    .sql, and every such file is listed. *)
Lemma list_sql_files_spec (d : directory) (f : sqlfile) :
  In f (_list_sql_files d)
  <-> d !! fname f = Some (File (fbytes f)) /\ endswith (fname f) ".sql" = true.
Proof.
  unfold _list_sql_files. rewrite <- list_elem_of_In.
  rewrite merge_sort_Permutation. rewrite list_elem_of_omap. split.
  - intros [[n e] [Hin Hs]]. apply elem_of_map_to_list in Hin.
    unfold sql_entry in Hs. simpl in Hs.
    destruct e as [bytes|]; [| discriminate].
    destruct (endswith n ".sql") eqn:E; [| discriminate].
    injection Hs as <-. simpl. auto.
  - intros [Hd He]. exists (fname f, File (fbytes f)). split.
    + now apply elem_of_map_to_list.
    + unfold sql_entry. simpl. rewrite He. now destruct f.
Qed.

Lemma list_sql_files_named (d : directory) (f : sqlfile) :
  In f (_list_sql_files d) -> fname f <> "".
Proof. intros H. apply list_sql_files_spec in H as [_ H]. now apply endswith_nonempty. Qed.


End SqlFiles.

(** ** The migration ledger *)

Section MigrationLedger.
Import DbMigrate.




Lemma migrate_reaches_files (w : World) (c : Client) (env_name : string) (db db' : Db) :
  migrate w c env_name db = Ok (0, db') ->
  migrate_files w c db = Ok (0, db')
  /\ forall other, migrate w c env_name other = migrate_files w c other.
Proof.
  unfold migrate.
  destruct (negb (Py.truthy env_name)); [discriminate |].
  destruct (negb (mysql_bin w)); [discriminate |].
  destruct (negb (Py.truthy (_read_config_text (root_files w)))); [discriminate |].
  destruct (negb (Py.otruthy _)); [discriminate |].
  destruct (_parse_mysql_like _ _); [| discriminate].
  destruct (negb (_wait_for_db w 60)); [discriminate |].
  destruct (negb (ensure_db_rc w =? 0)) eqn:E1.
  { intros H. injection H as E _. apply negb_true_iff in E1. rewrite E in E1. discriminate. }
  destruct (negb (ensure_ledger_rc w =? 0)) eqn:E2.
  { intros H. injection H as E _. apply negb_true_iff in E2. rewrite E in E2. discriminate. }
  auto.
Qed.

Lemma migrate_files_listed (w : World) (c : Client) (db : Db) (d : directory) :
  db_dir w = Some d -> _list_sql_files d <> [] ->
  migrate_files w c db
  = match _already_applied (select_rc c db) (select_rows db) with
    | Raise e => Raise e
    | Ok applied => Ok (apply_files c applied (_list_sql_files d) db)
    end.
Proof.
  intros Ed Hne. unfold migrate_files. rewrite Ed.
  destruct (_list_sql_files d); [now elim Hne | reflexivity].
Qed.




End MigrationLedger.
(* ===================================================================== *)
(** * The matcher: soundness and completeness                             *)
(* ===================================================================== *)

Section Matcher.
Import Re ReSem.


Import Re ReSem.

Lemma go_star (g : bool) (a : regex) (st : mstate) (k : mstate -> option mstate) :
  go (Star g a) st k = star_loop a g k (S (length (rest st))) st.
Proof. reflexivity. Qed.

Lemma go_sound (r : regex) :
  forall st k m, go r st k = Some m -> exists st', matches r st st' /\ k st' = Some m.
Proof.
  induction r as [| p | | | | | a IHa b IHb | a IHa b IHb | g a IHa | n a IHa];
    intros st k m H.
  - exists st. split; [constructor | exact H].
  - simpl in H. destruct st as [pr [|c cs] cp]; simpl in H; [discriminate |].
    destruct (p c) eqn:E; [| discriminate].
    eexists. split; [now constructor | exact H].
  - simpl in H. destruct (at_bol st) eqn:E; [| discriminate].
    exists st. split; [now constructor | exact H].
  - simpl in H. destruct (at_eol st) eqn:E; [| discriminate].
    exists st. split; [now constructor | exact H].
  - simpl in H. destruct (at_bos st) eqn:E; [| discriminate].
    exists st. split; [now constructor | exact H].
  - simpl in H. destruct (at_eos st) eqn:E; [| discriminate].
    exists st. split; [now constructor | exact H].
  - simpl in H. apply IHa in H as [st1 [H1 H]]. apply IHb in H as [st2 [H2 H]].
    exists st2. split; [econstructor; eauto | exact H].
  - simpl in H. destruct (go a st k) eqn:E.
    + injection H as ->. apply IHa in E as [st' [H1 H2]].
      exists st'. split; [now apply M_AltL | exact H2].
    + apply IHb in H as [st' [H1 H2]].
      exists st'. split; [now apply M_AltR | exact H2].
  - rewrite go_star in H.
    remember (S (length (rest st))) as fuel eqn:Ef. clear Ef. revert st m H.
    induction fuel as [|fuel IH]; intros st m H.
    + exists st. split; [constructor | exact H].
    + simpl in H.
      assert (Hagain : forall m',
        go a st (fun st' => if progressed st st' then star_loop a g k fuel st' else None)
          = Some m' ->
        exists st', matches (Star g a) st st' /\ k st' = Some m').
      { intros m' E. apply IHa in E as [st1 [H1 E]].
        destruct (progressed st st1) eqn:Ep; [| discriminate].
        apply IH in E as [st2 [H2 E]].
        exists st2. split; [eapply M_StarS; eauto | exact E]. }
      destruct g.
      * destruct (go a st _) eqn:E.
        -- injection H as ->. now apply Hagain.
        -- exists st. split; [constructor | exact H].
      * destruct (k st) eqn:E.
        -- injection H as ->. exists st. split; [constructor | exact E].
        -- now apply Hagain.
  - simpl in H. apply IHa in H as [st' [H1 H]].
    exists (close_group n st st'). split; [now constructor | exact H].
Qed.

Lemma go_complete (r : regex) :
  forall st st', matches r st st' ->
  forall k, is_Some (k st') -> is_Some (go r st k).
Proof.
  induction r as [| p | | | | | a IHa b IHb | a IHa b IHb | g a IHa | n a IHa];
    intros st st' Hm k Hk.
  - inversion Hm; subst. exact Hk.
  - inversion Hm; subst. simpl. rewrite H0. exact Hk.
  - inversion Hm; subst. simpl. rewrite H. exact Hk.
  - inversion Hm; subst. simpl. rewrite H. exact Hk.
  - inversion Hm; subst. simpl. rewrite H. exact Hk.
  - inversion Hm; subst. simpl. rewrite H. exact Hk.
  - inversion Hm; subst. simpl. eapply IHa; eauto.
  - inversion Hm; subst; simpl.
    + destruct (go a st k) eqn:E; [eauto |].
      exfalso. pose proof (IHa _ _ H3 k Hk) as [x Hx]. congruence.
    + destruct (go a st k) eqn:E; [eauto |]. eapply IHb; eauto.
  - rewrite go_star.
    assert (Hfuel : (length (rest st) < S (length (rest st)))%nat) by lia.
    revert Hfuel. generalize (S (length (rest st))) as fuel.
    remember (Star g a) as r eqn:Er.
    induction Hm; try discriminate; injection Er as -> ->; intros fuel Hfuel.
    + destruct fuel as [|fuel]; [lia |]. simpl.
      destruct g.
      * destruct (go a st _); [eauto | exact Hk].
      * destruct Hk as [m Hk]. rewrite Hk. eauto.
    + destruct fuel as [|fuel]; [lia |]. simpl.
      assert (Hagain : is_Some
        (go a st1 (fun st' => if progressed st1 st' then star_loop a g k fuel st' else None))).
      { eapply IHa; [exact Hm1 |]. rewrite H.
        apply IHHm2; [reflexivity | assumption |].
        unfold progressed in H. apply Nat.ltb_lt in H. lia. }
      destruct Hagain as [m Hagain].
      destruct g.
      * rewrite Hagain. eauto.
      * destruct (k st1); [eauto |]. rewrite Hagain. eauto.
  - inversion Hm; subst. simpl. eapply IHa; eauto.
Qed.

(** ** What a match consumes and records *)

Lemma matches_nogroup (r : regex) (st st' : mstate) :
  matches r st st' -> nogroup r = true -> caps st' = caps st.
Proof.
  induction 1; simpl; intros Hn; try reflexivity;
    try (apply andb_true_iff in Hn as [Ha Hb]); try discriminate; auto.
  - rewrite IHmatches2, IHmatches1; auto.
  - rewrite IHmatches2, IHmatches1; auto.
Qed.

Lemma matches_rest (r : regex) (st st' : mstate) :
  matches r st st' -> exists w, rest st = (w ++ rest st')%list.
Proof.
  induction 1; try (now exists []).
  - now exists [c].
  - destruct IHmatches1 as [w1 E1], IHmatches2 as [w2 E2].
    exists (w1 ++ w2)%list. now rewrite E1, E2, app_assoc.
  - assumption.
  - assumption.
  - destruct IHmatches1 as [w1 E1], IHmatches2 as [w2 E2].
    exists (w1 ++ w2)%list. now rewrite E1, E2, app_assoc.
  - assumption.
Qed.

Lemma consumed_app (w r : list ascii) : consumed (w ++ r) r = w.
Proof.
  unfold consumed. rewrite length_app.
  replace (length w + length r - length r)%nat with (length w) by lia.
  rewrite firstn_app, Nat.sub_diag, firstn_all. simpl. now rewrite app_nil_r.
Qed.

Lemma matches_star_chr (g : bool) (p : ascii -> bool) (st st' : mstate) :
  matches (Star g (Chr p)) st st' ->
  exists w, rest st = (w ++ rest st')%list /\ forallb p w = true /\ caps st' = caps st.
Proof.
  intros H. remember (Star g (Chr p)) as r eqn:Er.
  induction H; try discriminate; injection Er as -> ->.
  - now exists [].
  - destruct (IHmatches2 eq_refl) as [w [E [F C]]].
    inversion H; subst. simpl in *.
    exists (c :: w). simpl.
    match goal with Hp : p c = true |- _ => rewrite Hp end.
    rewrite E, F. auto.
Qed.

Lemma matches_plus_chr (p : ascii -> bool) (st st' : mstate) :
  matches (plus (Chr p)) st st' ->
  exists c w, rest st = (c :: w ++ rest st')%list /\ p c = true /\ forallb p w = true
              /\ caps st' = caps st.
Proof.
  intros H. inversion H; subst.
  match goal with Hc : matches (Chr p) _ _ |- _ => inversion Hc; subst end.
  match goal with Hs : matches (Star _ _) _ _ |- _ =>
    apply matches_star_chr in Hs as [w [E [F C]]] end.
  simpl in *. exists c, w. rewrite E. auto.
Qed.

Lemma search_from_sound (r : regex) (s : list ascii) :
  forall p m, search_from r p s = Some m ->
  exists p' s', go (Grp 0 r) (MState p' s' []) Some = Some m
                /\ exists pre, (pre ++ s')%list = s.
Proof.
  induction s as [|c s IH]; intros p m H; cbn [search_from] in H.
  - destruct (go (Grp 0 r) (MState p [] []) Some) eqn:E; [| discriminate].
    injection H as ->. exists p, []. split; [exact E | now exists []].
  - destruct (go (Grp 0 r) (MState p (c :: s) []) Some) eqn:E.
    + injection H as ->. exists p, (c :: s). split; [exact E | now exists []].
    + apply IH in H as [p' [s' [H [pre Hp]]]].
      exists p', s'. split; [exact H |]. exists (c :: pre). simpl. now rewrite Hp.
Qed.

(** A successful search is a match of the pattern at some position of
    the text. *)
Lemma search_matches (r : regex) (s : string) (m : mstate) :
  search r s = Some m ->
  exists st0 st, caps st0 = [] /\ matches r st0 st /\ m = close_group 0 st0 st
                 /\ exists pre, (pre ++ rest st0)%list = Py.chars s.
Proof.
  unfold search. intros H. apply search_from_sound in H as [p [s' [H Hp]]].
  apply go_sound in H as [st' [Hm E]]. injection E as <-.
  inversion Hm; subst.
  exists (MState p s' []), st'0. simpl. auto.
Qed.

End Matcher.

Section ConfigValues.
Import Re ReSem Config ConfigText.



Lemma matches_seq_inv (a b : regex) (st st' : mstate) :
  matches (Seq a b) st st' -> exists mid, matches a st mid /\ matches b mid st'.
Proof. intros H. inversion H; subst. eauto. Qed.

Lemma matches_grp_inv (n : nat) (a : regex) (st st' : mstate) :
  matches (Grp n a) st st' -> exists st1, matches a st st1 /\ st' = close_group n st st1.
Proof. intros H. inversion H; subst. eauto. Qed.

Lemma nogroup_seqs (l : list regex) :
  forallb nogroup l = true -> nogroup (seqs l) = true.
Proof.
  induction l as [|r [|r' l] IH]; simpl; intros H; auto.
  - now rewrite andb_true_r in H.
  - apply andb_true_iff in H as [H1 H2]. rewrite H1. simpl. apply IH. exact H2.
Qed.

Lemma nogroup_lit_ci (s : string) : nogroup (lit_ci s) = true.
Proof.
  unfold lit_ci. apply nogroup_seqs. induction (Py.chars s); simpl; auto.
Qed.

Lemma nogroup_lit (s : string) : nogroup (lit s) = true.
Proof.
  unfold lit. apply nogroup_seqs. induction (Py.chars s); simpl; auto.
Qed.

(** ** Stripping *)

Lemma chars_str (l : list ascii) : Py.chars (Py.str l) = l.
Proof. apply list_ascii_of_string_of_list_ascii. Qed.

Lemma str_chars (s : string) : Py.str (Py.chars s) = s.
Proof. apply string_of_list_ascii_of_string. Qed.

Lemma lstrip_by_suffix (p : ascii -> bool) (l : list ascii) :
  exists pre, l = (pre ++ Py.lstrip_by p l)%list /\ forallb p pre = true.
Proof.
  induction l as [|c l [pre [E F]]]; simpl.
  - now exists [].
  - destruct (p c) eqn:Ec.
    + exists (c :: pre). simpl. now rewrite Ec, F, <- E.
    + now exists [].
Qed.

Lemma lstrip_by_head (p : ascii -> bool) (l : list ascii) :
  match Py.lstrip_by p l with
  | c :: _ => p c = false
  | [] => True
  end.
Proof.
  induction l as [|c l IH]; simpl; [exact I |].
  destruct (p c) eqn:Ec; [exact IH | exact Ec].
Qed.

Lemma lstrip_by_fix (p : ascii -> bool) (l : list ascii) :
  match l with c :: _ => p c = false | [] => True end -> Py.lstrip_by p l = l.
Proof. destruct l as [|c l]; simpl; [reflexivity | now intros ->]. Qed.

Lemma lstrip_by_idem (p : ascii -> bool) (l : list ascii) :
  Py.lstrip_by p (Py.lstrip_by p l) = Py.lstrip_by p l.
Proof. apply lstrip_by_fix, lstrip_by_head. Qed.

Lemma rstrip_by_prefix (p : ascii -> bool) (l : list ascii) :
  exists suf, l = (Py.rstrip_by p l ++ suf)%list /\ forallb p suf = true.
Proof.
  unfold Py.rstrip_by. destruct (lstrip_by_suffix p (rev l)) as [pre [E F]].
  exists (rev pre). split.
  - rewrite <- (rev_involutive l), E at 1. now rewrite rev_app_distr.
  - rewrite forallb_forall in *. intros x Hx. apply F. now apply in_rev.
Qed.

Lemma rstrip_by_idem (p : ascii -> bool) (l : list ascii) :
  Py.rstrip_by p (Py.rstrip_by p l) = Py.rstrip_by p l.
Proof. unfold Py.rstrip_by. now rewrite rev_involutive, lstrip_by_idem. Qed.

(** Stripping on the right keeps the first character. *)
Lemma rstrip_by_head (p : ascii -> bool) (l : list ascii) :
  match l with c :: _ => p c = false | [] => True end ->
  match Py.rstrip_by p l with c :: _ => p c = false | [] => True end.
Proof.
  destruct (rstrip_by_prefix p l) as [suf [E F]].
  destruct (Py.rstrip_by p l) as [|c r]; [trivial |].
  rewrite E. simpl. trivial.
Qed.

Lemma strip_idem (s : string) : Py.strip (Py.strip s) = Py.strip s.
Proof.
  unfold Py.strip. rewrite chars_str. f_equal.
  rewrite (lstrip_by_fix Py.isspace (Py.rstrip_by _ _)).
  - apply rstrip_by_idem.
  - apply rstrip_by_head, lstrip_by_head.
Qed.

Lemma strip_forall (P : ascii -> Prop) (s : string) :
  Forall P (Py.chars s) -> Forall P (Py.chars (Py.strip s)).
Proof.
  unfold Py.strip. rewrite chars_str. intros H.
  destruct (lstrip_by_suffix Py.isspace (Py.chars s)) as [pre [E _]].
  destruct (rstrip_by_prefix Py.isspace (Py.lstrip_by Py.isspace (Py.chars s))) as [suf [E' _]].
  rewrite E, E' in H. apply Forall_app in H as [_ H]. now apply Forall_app in H as [H _].
Qed.

(** ** The key/value pattern *)



Lemma kv_re_group (key : string) (st0 st : mstate) :
  matches (kv_re key) st0 st ->
  exists w, caps st = (1%nat, w) :: caps st0 /\ w <> [] /\ forallb is_value_char w = true.
Proof.
  unfold kv_re. cbn [seqs]. intros H.
  apply matches_seq_inv in H as [s1 [H1 H]]. apply matches_nogroup in H1; [| reflexivity].
  apply matches_seq_inv in H as [s2 [H2 H]]. apply matches_nogroup in H2; [| reflexivity].
  apply matches_seq_inv in H as [s3 [H3 H]].
  apply matches_nogroup in H3; [| apply nogroup_lit_ci].
  apply matches_seq_inv in H as [s4 [H4 H]]. apply matches_nogroup in H4; [| reflexivity].
  apply matches_seq_inv in H as [s5 [H5 H]]. apply matches_nogroup in H5; [| reflexivity].
  apply matches_seq_inv in H as [s6 [H6 H]]. apply matches_nogroup in H6; [| reflexivity].
  apply matches_seq_inv in H as [s7 [H7 H]]. apply matches_nogroup in H7; [| reflexivity].
  apply matches_seq_inv in H as [s8 [H8 H]].
  apply matches_nogroup in H; [| reflexivity].
  apply matches_grp_inv in H8 as [s9 [H8 ->]].
  apply matches_plus_chr in H8 as [c [w [E [Pc [Pw C]]]]].
  exists (c :: w). split; [| split].
  - rewrite H. simpl. rewrite E.
    change (c :: w ++ rest s9)%list with ((c :: w) ++ rest s9)%list.
    rewrite consumed_app. congruence.
  - discriminate.
  - simpl. now rewrite Pc, Pw.
Qed.

Lemma is_value_char_spec (c : ascii) :
  is_value_char c = true -> ~ In c forbidden_in_value.
Proof.
  unfold is_value_char, is_quote, forbidden_in_value.
  rewrite negb_true_iff, !orb_false_iff, !Ascii.eqb_neq. simpl. intuition congruence.
Qed.

Lemma kv_search_value (text key : string) (m : mstate) :
  search (kv_re key) text = Some m ->
  exists w, group m 1 = Py.str w /\ w <> [] /\ forallb is_value_char w = true.
Proof.
  intros H. apply search_matches in H as [st0 [st [C0 [Hm [-> _]]]]].
  apply kv_re_group in Hm as [w [C [Hw F]]].
  exists w. split; [| auto].
  unfold group, close_group. simpl. rewrite C. reflexivity.
Qed.

(** X1.  A value that _kv_from_block (and _kv_top) returns is stripped of
    blanks at both ends and holds no comment sign, no quote and no
    line break. *)
Theorem kv_value_is_clean (block key v : string) :
  _kv_from_block block key = Some v ->
  Forall (fun c => ~ In c forbidden_in_value) (Py.chars v) /\ Py.strip v = v.
Proof.
  unfold _kv_from_block. destruct (search (kv_re key) block) as [m|] eqn:E; [| discriminate].
  intros [= <-]. apply kv_search_value in E as [w [-> [_ F]]]. split.
  - apply strip_forall. rewrite chars_str. rewrite forallb_forall in F.
    apply List.Forall_forall. intros c Hc. apply is_value_char_spec. now apply F.
  - apply strip_idem.
Qed.

(** At an input: the value of a line that carries a comment. *)
Lemma kv_value_is_clean_witness :
  Forall (fun c => ~ In c forbidden_in_value) (Py.chars "3307") /\ Py.strip "3307" = "3307".
Proof.
  apply (kv_value_is_clean Samples.block_port "port" "3307").
  vm_compute. reflexivity.
Defined.



(** ** Running the matcher forward *)

Lemma go_seq (a b : regex) (st : mstate) (k : mstate -> option mstate) :
  go (Seq a b) st k = go a st (fun st' => go b st' k).
Proof. reflexivity. Qed.

Lemma go_grp (n : nat) (a : regex) (st : mstate) (k : mstate -> option mstate) :
  go (Grp n a) st k = go a st (fun st' => k (close_group n st st')).
Proof. reflexivity. Qed.

Lemma go_chr_hit (p : ascii -> bool) (pr : option ascii) (c : ascii) (cs : list ascii)
  (cp : list (nat * list ascii)) (k : mstate -> option mstate) :
  p c = true -> go (Chr p) (MState pr (c :: cs) cp) k = k (MState (Some c) cs cp).
Proof. intros H. simpl. now rewrite H. Qed.

Lemma go_chr_miss (p : ascii -> bool) (pr : option ascii) (r : list ascii)
  (cp : list (nat * list ascii)) (k : mstate -> option mstate) :
  stops p r -> go (Chr p) (MState pr r cp) k = None.
Proof. destruct r as [|c r]; simpl; [reflexivity | now intros ->]. Qed.

(** A greedy run over a character class stops where the class stops,
    when the rest of the pattern matches from there. *)
Lemma go_star_max (p : ascii -> bool) (w r : list ascii) :
  forallb p w = true -> stops p r ->
  forall pr cp k m,
    k (MState (after pr w) r cp) = Some m ->
    go (Star true (Chr p)) (MState pr (w ++ r) cp) k = Some m.
Proof.
  intros Hw Hr. induction w as [|c w IH]; intros pr cp k m Hk.
  - simpl app. rewrite go_star. cbn [star_loop rest].
    rewrite go_chr_miss by exact Hr. exact Hk.
  - simpl in Hw. apply andb_true_iff in Hw as [Hc Hw].
    simpl app. rewrite go_star. cbn [star_loop rest].
    rewrite go_chr_hit by exact Hc.
    unfold progressed. cbn [rest length].
    rewrite (proj2 (Nat.ltb_lt _ _)) by lia.
    change (star_loop (Chr p) true k (S (length (w ++ r))) (MState (Some c) (w ++ r) cp))
      with (go (Star true (Chr p)) (MState (Some c) (w ++ r) cp) k).
    rewrite (IH Hw (Some c) cp k m); [reflexivity | exact Hk].
Qed.

Lemma go_opt_miss (p : ascii -> bool) (pr : option ascii) (r : list ascii)
  (cp : list (nat * list ascii)) (k : mstate -> option mstate) :
  stops p r -> go (opt (Chr p)) (MState pr r cp) k = k (MState pr r cp).
Proof.
  intros H. unfold opt.
  change (go (Alt (Chr p) Eps) (MState pr r cp) k)
    with (match go (Chr p) (MState pr r cp) k with
          | Some m => Some m
          | None => k (MState pr r cp)
          end).
  now rewrite go_chr_miss.
Qed.

Lemma go_seqs_cons (r : regex) (l : list regex) (st : mstate) (k : mstate -> option mstate) :
  go (seqs (r :: l)) st k = go r st (fun st' => go (seqs l) st' k).
Proof. destruct l; reflexivity. Qed.

Lemma lower_char_refl (c : ascii) :
  Ascii.eqb (Py.lower_char c) (Py.lower_char c) = true.
Proof. apply Ascii.eqb_refl. Qed.

Lemma go_lit_ci (w : list ascii) :
  forall pr r cp k,
    go (seqs (map chr_ci w)) (MState pr (w ++ r) cp) k = k (MState (after pr w) r cp).
Proof.
  induction w as [|c w IH]; intros pr r cp k.
  - reflexivity.
  - cbn [map]. rewrite go_seqs_cons. simpl app. unfold chr_ci at 1.
    rewrite go_chr_hit by apply Ascii.eqb_refl. apply IH.
Qed.

Lemma go_star_max_ex (p : ascii -> bool) (w r : list ascii) (Q : mstate -> Prop)
  (pr : option ascii) (cp : list (nat * list ascii)) (k : mstate -> option mstate) :
  forallb p w = true -> stops p r ->
  (exists m, k (MState (after pr w) r cp) = Some m /\ Q m) ->
  exists m, go (Star true (Chr p)) (MState pr (w ++ r) cp) k = Some m /\ Q m.
Proof.
  intros Hw Hr [m [Hk HQ]]. exists m. split; [| exact HQ].
  now apply go_star_max.
Qed.

Lemma chars_app (a b : string) : Py.chars (a ++ b) = (Py.chars a ++ Py.chars b)%list.
Proof.
  unfold Py.chars. induction a as [|c a IH]; simpl; [reflexivity | now rewrite IH].
Qed.

Lemma lstrip_fix_stops (s : string) (x : list ascii) :
  Py.lstrip s = s -> stops Py.isspace x -> stops Py.isspace (Py.chars s ++ x).
Proof.
  unfold Py.lstrip. intros H Hx.
  assert (E : Py.lstrip_by Py.isspace (Py.chars s) = Py.chars s).
  { rewrite <- H at 2. now rewrite chars_str. }
  pose proof (lstrip_by_head Py.isspace (Py.chars s)) as Hh. rewrite E in Hh.
  destruct (Py.chars s); [exact Hx | exact Hh].
Qed.

Lemma strip_fix_lstrip (s : string) : Py.strip s = s -> Py.lstrip s = s.
Proof.
  unfold Py.strip, Py.lstrip. intros H.
  assert (E : Py.rstrip_by Py.isspace (Py.lstrip_by Py.isspace (Py.chars s)) = Py.chars s).
  { rewrite <- H at 2. now rewrite chars_str. }
  destruct (lstrip_by_suffix Py.isspace (Py.chars s)) as [pre [E1 _]].
  destruct (rstrip_by_prefix Py.isspace (Py.lstrip_by Py.isspace (Py.chars s)))
    as [suf [E2 _]].
  rewrite E in E2. rewrite E2 in E1.
  assert (L : length (Py.chars s)
              = (length pre + (length (Py.chars s) + length suf))%nat).
  { rewrite E1 at 1. now rewrite !length_app. }
  assert (pre = []) by (destruct pre; [reflexivity | simpl in L; lia]).
  assert (suf = []) by (destruct suf; [reflexivity | simpl in L; lia]).
  subst. rewrite app_nil_r in E2. rewrite E2. apply str_chars.
Qed.

Lemma kv_tail_at_newline (st0 : mstate) (pr : option ascii) (r : list ascii)
  (cp : list (nat * list ascii)) :
  exists m, go kv_tail (MState pr (newline :: r) cp)
               (fun st' => Some (close_group 0 st0 st')) = Some m
            /\ group m 1 = match assoc 1 cp with Some v => Py.str v | None => "" end.
Proof.
  set (st := MState pr (newline :: r) cp).
  set (kf := fun st' => Some (close_group 0 st0 st')).
  assert (Hm : matches kv_tail st st).
  { unfold kv_tail. cbn [seqs].
    apply M_Seq with st; [apply M_AltR, M_Eps |].
    apply M_Seq with st; [apply M_Star0 |].
    apply M_Seq with st; [apply M_AltR, M_Eps |].
    apply M_Eol. reflexivity. }
  destruct (go_complete _ _ _ Hm kf) as [m E]; [unfold kf; eauto |].
  exists m. split; [exact E |].
  apply go_sound in E as [st' [Hm' E]]. unfold kf in E. injection E as <-.
  apply matches_nogroup in Hm'; [| reflexivity].
  unfold group, close_group. cbn [caps assoc Nat.eqb]. now rewrite Hm'.
Qed.

(** X2.  A line [key: value] at the head of a text is read back as [value]. *)
Theorem kv_reads_back (n : nat) (key v text : string) :
  Py.lstrip key = key ->
  v <> "" -> Py.strip v = v ->
  Forall (fun c => ~ In c forbidden_in_value) (Py.chars v) ->
  _kv_from_block (kv_line n key v ++ text) key = Some v.
Proof.
  intros Hkey Hne Hstrip Hval.
  assert (Hv : forallb is_value_char (Py.chars v) = true).
  { rewrite forallb_forall. intros c Hc. rewrite List.Forall_forall in Hval.
    specialize (Hval c Hc). unfold is_value_char, is_quote.
    rewrite negb_true_iff, !orb_false_iff, !Ascii.eqb_neq.
    unfold forbidden_in_value in Hval. simpl in Hval. intuition congruence. }
  assert (Hhead : stops Py.isspace (Py.chars v ++ newline :: Py.chars text)).
  { pose proof (lstrip_fix_stops v [] (strip_fix_lstrip v Hstrip) I) as Hs.
    rewrite app_nil_r in Hs.
    destruct (Py.chars v) eqn:Ev; [| exact Hs].
    exfalso. apply Hne. rewrite <- (str_chars v), Ev. reflexivity. }
  destruct (Py.chars v) as [|c w] eqn:Ev.
  { exfalso. apply Hne. rewrite <- (str_chars v), Ev. reflexivity. }
  simpl in Hv. apply andb_true_iff in Hv as [Hc Hw].
  set (st0 := MState None (Py.chars (kv_line n key v ++ text)) []).
  assert (H : exists m, go (kv_re key) st0 (fun st' => Some (close_group 0 st0 st')) = Some m
                        /\ group m 1 = v).
  { unfold st0 at 1, kv_line, nl. rewrite !chars_app, Ev, <- !app_assoc.
    unfold spaces. rewrite chars_str.
    change (Py.chars ": ") with [":"%char; " "%char].
    change (Py.chars (String newline "")) with [newline].
    unfold kv_re. rewrite go_seqs_cons.
    change (go Bol ?st ?k) with (k st). cbv beta.
    rewrite go_seqs_cons. unfold star, ws at 1.
    apply go_star_max_ex.
    { clear. induction n; simpl; auto. }
    { apply lstrip_fix_stops; [exact Hkey | reflexivity]. }
    rewrite go_seqs_cons. unfold lit_ci. rewrite go_lit_ci. cbv beta.
    rewrite go_seqs_cons. unfold ws at 1.
    apply (go_star_max_ex Py.isspace []); [reflexivity | reflexivity |].
    cbn [after fold_left]. rewrite go_seqs_cons. unfold chr at 1.
    simpl app. rewrite go_chr_hit by reflexivity. cbv beta.
    rewrite go_seqs_cons. unfold ws at 1.
    apply (go_star_max_ex Py.isspace [" "%char]); [reflexivity | |].
    { simpl in Hhead. simpl. exact Hhead. }
    cbn [after fold_left]. rewrite go_seqs_cons.
    simpl app. rewrite go_opt_miss.
    2:{ simpl. unfold is_value_char in Hc. rewrite negb_true_iff in Hc.
        rewrite !orb_false_iff in Hc. tauto. }
    cbv beta. rewrite go_seqs_cons, go_grp. unfold plus. rewrite go_seq.
    rewrite go_chr_hit by exact Hc.
    apply go_star_max_ex; [exact Hw | reflexivity |].
    unfold close_group. cbn [rest prev caps].
    change (c :: w ++ newline :: Py.chars text)%list
      with ((c :: w) ++ newline :: Py.chars text)%list.
    rewrite consumed_app.
    destruct (kv_tail_at_newline st0 (after (Some c) w) (Py.chars text) [(1%nat, c :: w)])
      as [m [E G]].
    exists m. split; [exact E |].
    rewrite G. cbn [assoc Nat.eqb]. rewrite <- Ev. apply str_chars. }
  destruct H as [m [E G]].
  unfold _kv_from_block, search.
  assert (S : forall s, go (Grp 0 (kv_re key)) (MState None s []) Some = Some m ->
                        search_from (kv_re key) None s = Some m).
  { intros s Hs. destruct s; cbn [search_from]; now rewrite Hs. }
  rewrite (S _ E), G, Hstrip. reflexivity.
Qed.

(** At an input: a line of a block, followed by another one. *)
Lemma kv_reads_back_witness :
  _kv_from_block (kv_line 4 "port" "3307" ++ Samples.block_port) "port" = Some "3307".
Proof.
  apply (kv_reads_back 4 "port" "3307" Samples.block_port).
  - reflexivity.
  - discriminate.
  - reflexivity.
  - repeat constructor; intros H; simpl in H;
      repeat (destruct H as [H | H]; [discriminate H |]); exact H.
Defined.



(** ** The block pattern *)

Lemma go_seq_sound (a b : regex) (st : mstate) (k : mstate -> option mstate) (m : mstate) :
  go (Seq a b) st k = Some m -> exists mid, matches a st mid /\ go b mid k = Some m.
Proof. rewrite go_seq. intros H. now apply go_sound in H. Qed.

Lemma star_loop_go (a : regex) (g : bool) (k : mstate -> option mstate)
  (pr : option ascii) (l : list ascii) (cp : list (nat * list ascii)) :
  star_loop a g k (S (length l)) (MState pr l cp) = go (Star g a) (MState pr l cp) k.
Proof. reflexivity. Qed.

(** One step of a greedy star whose body reads one character. *)
Lemma go_star_step (p : ascii -> bool) (pr : option ascii) (c : ascii) (l : list ascii)
  (cp : list (nat * list ascii)) (k : mstate -> option mstate) :
  p c = true ->
  go (Star true (Chr p)) (MState pr (c :: l) cp) k
  = match go (Star true (Chr p)) (MState (Some c) l cp) k with
    | Some m => Some m
    | None => k (MState pr (c :: l) cp)
    end.
Proof.
  intros Hp. rewrite go_star. cbn [star_loop rest].
  rewrite go_chr_hit by exact Hp.
  unfold progressed. cbn [rest length]. rewrite (proj2 (Nat.ltb_lt _ _)) by lia.
  now rewrite star_loop_go.
Qed.

Lemma has_newline_cons (c : ascii) (l : list ascii) :
  has_newline (c :: l) = Ascii.eqb newline c || has_newline l.
Proof. reflexivity. Qed.

(** Text without a newline holds no line of a block. *)
Lemma star_dotall_none (tail : list ascii) :
  has_newline tail = false ->
  forall pr cp k,
    go (Star true dot_all) (MState pr tail cp) (fun s => go (chr newline) s k) = None.
Proof.
  induction tail as [|c tail IH]; intros Hn pr cp k.
  - reflexivity.
  - rewrite has_newline_cons in Hn. apply orb_false_iff in Hn as [Hc Hn].
    unfold dot_all. rewrite go_star_step by reflexivity.
    fold dot_all. rewrite IH by exact Hn.
    unfold chr. apply go_chr_miss. exact Hc.
Qed.

(** The greedy dot of a block line runs to the last newline of the
    text. *)
Lemma star_dotall_last (w tail : list ascii) :
  has_newline tail = false ->
  forall pr cp k m,
    k (MState (Some newline) tail cp) = Some m ->
    go (Star true dot_all) (MState pr (w ++ newline :: tail) cp)
       (fun s => go (chr newline) s k) = Some m.
Proof.
  intros Hn. induction w as [|c w IH]; intros pr cp k m Hk.
  - simpl app. unfold dot_all. rewrite go_star_step by reflexivity. fold dot_all.
    rewrite star_dotall_none by exact Hn.
    unfold chr. rewrite go_chr_hit by apply Ascii.eqb_refl. exact Hk.
  - simpl app. unfold dot_all. rewrite go_star_step by reflexivity. fold dot_all.
    now rewrite (IH (Some c) cp k m Hk).
Qed.

Lemma block_line_none (tail : list ascii) :
  has_newline tail = false ->
  forall pr cp k, go block_line (MState pr tail cp) k = None.
Proof.
  intros Hn pr cp k. unfold block_line. rewrite go_seqs_cons.
  destruct tail as [|c tail]; [reflexivity |].
  destruct (is_blank c) eqn:Eb.
  - rewrite go_chr_hit by exact Eb. rewrite go_seqs_cons.
    apply star_dotall_none. rewrite has_newline_cons in Hn.
    now apply orb_false_iff in Hn as [_ Hn].
  - apply go_chr_miss. exact Eb.
Qed.

(** Where the last newline of a text is. *)
Lemma split_last_newline (l : list ascii) :
  has_newline l = true ->
  exists w tail, l = (w ++ newline :: tail)%list /\ has_newline tail = false.
Proof.
  induction l as [|c l IH]; [discriminate |].
  rewrite has_newline_cons.
  intros H. destruct (has_newline l) eqn:El.
  - destruct (IH eq_refl) as [w [tail [-> Ht]]]. now exists (c :: w), tail.
  - rewrite orb_false_r in H. apply Ascii.eqb_eq in H as <-. now exists [], l.
Qed.

(** The lines of a block, as the matcher takes them: from a blank to
    the last newline of the text. *)
Lemma block_lines_run (st : mstate) (k : mstate -> option mstate) (m : mstate) :
  (forall st', is_Some (k st')) ->
  go (plus block_line) st k = Some m ->
  exists b w tail,
    rest st = (b :: w ++ newline :: tail)%list /\ is_blank b = true
    /\ has_newline tail = false
    /\ k (MState (Some newline) tail (caps st)) = Some m.
Proof.
  intros Hk. destruct st as [pr l cp]. cbn [rest caps].
  unfold plus. rewrite go_seq. unfold block_line at 1. rewrite go_seqs_cons.
  destruct l as [|b l]; [discriminate |].
  destruct (is_blank b) eqn:Eb.
  2:{ rewrite go_chr_miss by exact Eb. discriminate. }
  rewrite go_chr_hit by exact Eb. rewrite go_seqs_cons.
  change (seqs [chr newline]) with (chr newline).
  destruct (has_newline l) eqn:El.
  2:{ rewrite star_dotall_none by exact El. discriminate. }
  destruct (split_last_newline l El) as [w [tail [-> Ht]]].
  intros H. exists b, w, tail. repeat split; auto.
  assert (E : go (Star true block_line) (MState (Some newline) tail cp) k
              = k (MState (Some newline) tail cp)).
  { rewrite go_star. cbn [star_loop]. now rewrite block_line_none by exact Ht. }
  destruct (Hk (MState (Some newline) tail cp)) as [m' Hm'].
  rewrite (star_dotall_last w tail Ht (Some b) cp _ m') in H by (now rewrite E).
  congruence.
Qed.

Lemma has_newline_false (l : list ascii) : has_newline l = false <-> ~ In newline l.
Proof.
  unfold has_newline. split.
  - intros H Hin. assert (existsb (Ascii.eqb newline) l = true); [| congruence].
    apply existsb_exists. exists newline. split; [exact Hin | apply Ascii.eqb_refl].
  - intros H. destruct (existsb (Ascii.eqb newline) l) eqn:E; [| reflexivity].
    apply existsb_exists in E as [x [Hx E]]. apply Ascii.eqb_eq in E as <-. contradiction.
Qed.

(** X3.  A block that is found runs from its first blank to the last
    newline of the text: what follows it holds no newline. *)
Theorem extract_block_runs_to_last_newline (text section blk : string) :
  _extract_block text section = blk -> blk <> "" ->
  exists before tail : string,
    text = before ++ blk ++ tail
    /\ ~ In newline (Py.chars tail)
    /\ exists body, blk = body ++ nl.
Proof.
  unfold _extract_block, search. intros H Hne.
  destruct (search_from (block_re section) None (Py.chars text)) as [m|] eqn:E.
  2:{ subst blk. now contradiction Hne. }
  apply search_from_sound in E as [p [s' [E [pre Hpre]]]].
  rewrite go_grp in E. unfold block_re in E. cbn [seqs] in E.
  apply go_seq_sound in E as [s1 [H1 E]].
  apply go_seq_sound in E as [s2 [H2 E]].
  apply go_seq_sound in E as [s3 [H3 E]].
  apply go_seq_sound in E as [s4 [H4 E]].
  apply go_seq_sound in E as [s5 [H5 E]].
  apply go_seq_sound in E as [s6 [H6 E]].
  apply go_seq_sound in E as [s7 [H7 E]].
  assert (C7 : caps s7 = []).
  { apply matches_nogroup in H1, H2, H3, H4, H5, H6, H7;
      try reflexivity; try apply nogroup_lit. simpl in H1. congruence. }
  assert (R7 : exists u, s' = (u ++ rest s7)%list).
  { apply matches_rest in H1 as [u1 E1], H2 as [u2 E2], H3 as [u3 E3], H4 as [u4 E4],
      H5 as [u5 E5], H6 as [u6 E6], H7 as [u7 E7]. simpl in E1.
    exists (u1 ++ u2 ++ u3 ++ u4 ++ u5 ++ u6 ++ u7)%list.
    rewrite E1, E2, E3, E4, E5, E6, E7. now rewrite <- !app_assoc. }
  destruct R7 as [u R7].
  rewrite go_grp in E.
  change (plus (seqs [Chr is_blank; star dot_all; chr newline])) with (plus block_line) in E.
  apply block_lines_run in E; [| eauto].
  destruct E as [b [w [tail [Er [Eb [Ht E]]]]]].
  injection E as <-. rewrite C7 in H.
  unfold group, close_group in H. cbn [caps assoc Nat.eqb rest] in H.
  rewrite Er in H.
  replace (b :: w ++ newline :: tail)%list with ((b :: w ++ [newline]) ++ tail)%list in H
    by (simpl; now rewrite <- app_assoc).
  rewrite consumed_app in H.
  exists (Py.str (pre ++ u)), (Py.str tail). split; [| split].
  - rewrite <- (str_chars text), <- Hpre, R7, Er, <- H.
    rewrite <- (str_chars (_ ++ _)). f_equal.
    rewrite !chars_app, !chars_str. rewrite <- !app_assoc. simpl.
    now rewrite <- !app_assoc.
  - rewrite chars_str. now apply has_newline_false.
  - exists (Py.str (b :: w)). rewrite <- H.
    rewrite <- (str_chars (_ ++ _)). f_equal.
    now rewrite chars_app, chars_str.
Qed.

(** At an input: the service block of a config with a later block. *)
Lemma extract_block_runs_to_last_newline_witness :
  exists before tail : string,
    Examples.cfg_flavor_elsewhere = before ++ Samples.block_service ++ tail
    /\ ~ In newline (Py.chars tail)
    /\ exists body, Samples.block_service = body ++ nl.
Proof.
  apply (extract_block_runs_to_last_newline Examples.cfg_flavor_elsewhere "service"
           Samples.block_service).
  - vm_compute. reflexivity.
  - discriminate.
Defined.

End ConfigValues.

Section Dotenv.
Import Re ReSem Config ConfigText DbMigrate.



(** ** Dotenv lines *)

Lemma rmatch_matches (r : regex) (s : string) (m : mstate) :
  rmatch r s = Some m ->
  exists st, matches r (MState None (Py.chars s) []) st
             /\ m = close_group 0 (MState None (Py.chars s) []) st.
Proof.
  unfold rmatch, match_l. intros H. apply go_sound in H as [st' [Hm E]].
  injection E as <-. inversion Hm; subst. eauto.
Qed.

Lemma matches_chr_inv (p : ascii -> bool) (st st' : mstate) :
  matches (Chr p) st st' ->
  exists c, rest st = c :: rest st' /\ p c = true /\ caps st' = caps st
            /\ prev st' = Some c.
Proof. intros H. inversion H; subst. simpl. eauto. Qed.

(** What the pattern of a dotenv line takes for the key. *)
Lemma dotenv_rx_key (st0 st : mstate) :
  matches dotenv_rx st0 st ->
  exists w1 c w2 w3 x,
    rest st0 = (w1 ++ c :: w2 ++ w3 ++ "="%char :: x)%list
    /\ forallb Py.isspace w1 = true
    /\ is_ident_start c = true /\ forallb is_ident_char w2 = true
    /\ forallb Py.isspace w3 = true
    /\ assoc 1 (caps st) = Some (c :: w2).
Proof.
  unfold dotenv_rx. cbn [seqs]. intros H.
  apply matches_seq_inv in H as [s1 [H1 H]].
  apply matches_rest in H1 as R1. apply matches_nogroup in H1 as C1; [| reflexivity].
  assert (E0 : rest s1 = rest st0) by (inversion H1; subst; reflexivity). clear R1 H1.
  apply matches_seq_inv in H as [s2 [H2 H]].
  apply matches_star_chr in H2 as [w1 [E1 [F1 C2]]].
  apply matches_seq_inv in H as [s3 [H3 H]].
  apply matches_grp_inv in H3 as [s3' [H3 ->]].
  apply matches_seq_inv in H3 as [s3a [Hc H3]].
  apply matches_chr_inv in Hc as [c [Ec [Pc [Cc _]]]].
  apply matches_star_chr in H3 as [w2 [E2 [F2 C3]]].
  apply matches_seq_inv in H as [s4 [H4 H]].
  apply matches_star_chr in H4 as [w3 [E3 [F3 C4]]].
  apply matches_seq_inv in H as [s5 [H5 H]].
  apply matches_chr_inv in H5 as [e [Ee [Pe [C5 _]]]].
  apply Ascii.eqb_eq in Pe. subst e.
  apply matches_seq_inv in H as [s6 [H6 H]].
  apply matches_nogroup in H6 as C6; [| reflexivity].
  apply matches_seq_inv in H as [s7 [H7 H]].
  apply matches_grp_inv in H7 as [s7' [H7 ->]].
  apply matches_nogroup in H7 as C7; [| reflexivity].
  apply matches_seq_inv in H as [s8 [H8 H]].
  apply matches_nogroup in H8 as C8; [| reflexivity].
  apply matches_nogroup in H as C9; [| reflexivity].
  cbn [rest caps close_group] in *.
  exists w1, c, w2, w3, (rest s5).
  repeat split; auto.
  - rewrite <- E0, E1, Ec, E2, E3, Ee. reflexivity.
  - rewrite C9, C8. cbn [assoc Nat.eqb]. rewrite C7, C6, C5, C4. cbn [assoc Nat.eqb].
    f_equal. rewrite Ec, E2.
    change (c :: w2 ++ rest s3')%list with ((c :: w2) ++ rest s3')%list.
    apply consumed_app.
Qed.

Lemma ident_no_space (w : list ascii) :
  forallb is_ident_char w = true -> Py.startswith_l (Py.chars "export ") w = false.
Proof.
  intros H. cbn [Py.chars list_ascii_of_string].
  do 7 (destruct w as [|? w];
        [cbn [Py.startswith_l]; rewrite ?andb_false_r; reflexivity |];
        cbn [forallb] in H; apply andb_true_iff in H as [? H]).
  cbn [Py.startswith_l].
  repeat match goal with
  | |- (Ascii.eqb ?a ?b && _) = false =>
      destruct (Ascii.eqb a b) eqn:?; [cbn [andb] | reflexivity]
  end.
  repeat match goal with Hq : Ascii.eqb _ _ = true |- _ => apply Ascii.eqb_eq in Hq; subst end.
  discriminate.
Qed.

(** A line adds a key only when the key is an identifier. *)
Lemma dotenv_line_keys (out : gmap string string) (raw : string) :
  map_Forall (fun k _ => is_identifier k) out ->
  map_Forall (fun k _ => is_identifier k) (dotenv_line out raw).
Proof.
  intros Hout. unfold dotenv_line.
  destruct (negb (Py.truthy raw) || Py.startswith (Py.lstrip raw) "#"); [exact Hout |].
  destruct (rmatch dotenv_rx raw) as [m|] eqn:E; [| exact Hout].
  apply rmatch_matches in E as [st [Hm ->]].
  apply dotenv_rx_key in Hm as [w1 [c [w2 [w3 [x [_ [_ [Hc [Hw [_ Hk]]]]]]]]]].
  assert (G : group (close_group 0 (MState None (Py.chars raw) []) st) 1
              = Py.str (c :: w2)).
  { unfold group, close_group. cbn [caps assoc Nat.eqb]. now rewrite Hk. }
  rewrite G.
  assert (Hs : Py.startswith (Py.str (c :: w2)) "export " = false).
  { unfold Py.startswith. rewrite chars_str. apply ident_no_space.
    cbn [forallb]. rewrite Hw, andb_true_r. unfold is_ident_char. now rewrite Hc. }
  rewrite Hs. apply map_Forall_insert_2; [| exact Hout].
  exists c, w2. now rewrite chars_str.
Qed.

(** X4.  Every key of the map that _load_dotenv_map reads from a dotenv
    file is an identifier: a letter or an underscore, then letters,
    digits and underscores. *)
Theorem dotenv_keys_are_identifiers (fs : files) (env_name k v : string) :
  _load_dotenv_map fs env_name !! k = Some v -> is_identifier k.
Proof.
  unfold _load_dotenv_map.
  destruct (first_file fs _) as [text|]; [| now rewrite lookup_empty].
  assert (H : forall lines out,
            map_Forall (fun k _ => is_identifier k) out ->
            map_Forall (fun k _ => is_identifier k) (fold_left dotenv_line lines out)).
  { induction lines as [|l lines IH]; intros out Ho; [exact Ho |].
    simpl. apply IH. now apply dotenv_line_keys. }
  intros Hk. eapply (H _ ∅); [apply map_Forall_empty | exact Hk].
Qed.

(** At an input: a key of a dotenv file. *)
Lemma dotenv_keys_are_identifiers_witness : is_identifier "DATABASE_URL".
Proof.
  apply (dotenv_keys_are_identifiers Samples.files_dotenv "dev" "DATABASE_URL"
           "mysql://app:pw@db.internal/app").
  vm_compute. reflexivity.
Defined.

Lemma ident_start_not_space (c : ascii) : is_ident_start c = true -> Py.isspace c = false.
Proof.
  destruct c as [[] [] [] [] [] [] [] []]; vm_compute; congruence.
Qed.

Lemma ident_start_not_eq (c : ascii) : is_ident_start c = true -> c <> "="%char.
Proof. intros H ->. vm_compute in H. discriminate. Qed.

(** X5.  A line that starts with the word export adds nothing. *)
Theorem dotenv_export_line_is_skipped (out : gmap string string) (k v : string) :
  is_identifier k ->
  dotenv_line out ("export " ++ k ++ "=" ++ v) = out.
Proof.
  intros [c0 [w0 [Ek [Hc0 Hw0]]]]. unfold dotenv_line.
  destruct (negb (Py.truthy _) || Py.startswith _ "#"); [reflexivity |].
  destruct (rmatch dotenv_rx _) as [m|] eqn:E; [exfalso | reflexivity].
  apply rmatch_matches in E as [st [Hm _]].
  apply dotenv_rx_key in Hm as [w1 [c [w2 [w3 [x [E [F1 [Hc [F2 [F3 _]]]]]]]]]].
  cbn [rest] in E. rewrite !chars_app, Ek in E.
  change (Py.chars "export ") with ["e"; "x"; "p"; "o"; "r"; "t"; " "]%char in E.
  pose proof (ident_start_not_space _ Hc0) as Hs0.
  pose proof (ident_start_not_eq _ Hc0) as Hq0.
  destruct w1 as [|a w1].
  2:{ injection E as <- _. vm_compute in F1. discriminate. }
  simpl in E. injection E as <- E.
  (* the key the pattern takes is a prefix of the word export *)
  repeat (destruct w2 as [|a w2];
    [ simpl in E; destruct w3 as [|b w3];
      [ simpl in E; injection E as E _; first [discriminate E | congruence]
      | simpl in E; injection E as <- E; cbn [forallb] in F3;
        apply andb_true_iff in F3 as [F3a F3];
        first [ vm_compute in F3a; discriminate F3a
              | destruct w3 as [|b' w3];
                [ simpl in E; injection E as E _; congruence
                | simpl in E; injection E as <- _; cbn [forallb] in F3;
                  apply andb_true_iff in F3 as [F3b _]; congruence ] ] ]
    | simpl in E; injection E as <- E; cbn [forallb] in F2;
      apply andb_true_iff in F2 as [F2a F2];
      first [vm_compute in F2a; discriminate F2a | clear F2a] ]).
Qed.

(** At an input: the export line of a dotenv file. *)
Lemma dotenv_export_line_is_skipped_witness :
  dotenv_line ∅ ("export " ++ "TOKEN" ++ "=" ++ "abc") = ∅.
Proof.
  apply (dotenv_export_line_is_skipped ∅ "TOKEN" "abc").
  exists "T"%char, (Py.chars "OKEN"). repeat split; reflexivity.
Defined.

End Dotenv.

Section ContainerNames.
Import Re ReSem ReSub Config Names.



(** ** Container names *)

Lemma unsafe_run_hit (pr : option ascii) (c : ascii) (s : list ascii) :
  is_name_char c = false ->
  exists m, go (Grp 0 unsafe_run) (MState pr (c :: s) []) Some = Some m
            /\ exists n, length (Py.chars (group m 0)) = S n.
Proof.
  intros Hc.
  assert (Hm : matches (Grp 0 unsafe_run) (MState pr (c :: s) [])
                 (close_group 0 (MState pr (c :: s) []) (MState (Some c) s []))).
  { apply M_Grp. unfold unsafe_run, plus.
    apply M_Seq with (MState (Some c) s []); [| apply M_Star0].
    apply M_Chr. now rewrite Hc. }
  destruct (go_complete _ _ _ Hm Some) as [m E]; [eauto |].
  exists m. split; [exact E |].
  apply go_sound in E as [st' [Hm' E]]. injection E as <-.
  apply matches_grp_inv in Hm' as [st1 [Hm' ->]].
  apply matches_plus_chr in Hm' as [c' [w [Er _]]].
  unfold group, close_group. cbn [caps assoc Nat.eqb rest] in *.
  rewrite Er. change (c' :: w ++ rest st1)%list with ((c' :: w) ++ rest st1)%list.
  rewrite consumed_app, chars_str. simpl. eauto.
Qed.

Lemma unsafe_run_miss (pr : option ascii) (s : list ascii) :
  stops (fun c => negb (is_name_char c)) s ->
  go (Grp 0 unsafe_run) (MState pr s []) Some = None.
Proof.
  intros H. rewrite go_grp. unfold unsafe_run, plus. rewrite go_seq.
  now apply go_chr_miss.
Qed.

(** What the substitution leaves holds name characters only. *)
Lemma sub_unsafe_clean (s : list ascii) :
  forall pr skip,
    forallb is_name_char (sub_from unsafe_run (fun _ => ["-"%char]) pr s skip) = true.
Proof.
  induction s as [|c s IH]; intros pr skip; [reflexivity |].
  cbn [sub_from]. destruct skip as [|n]; [| apply IH].
  destruct (is_name_char c) eqn:Ec.
  - rewrite unsafe_run_miss by (simpl; now rewrite Ec).
    cbn [forallb]. now rewrite Ec, IH.
  - destruct (unsafe_run_hit pr c s Ec) as [m [-> [n ->]]].
    simpl. apply IH.
Qed.

(** A text of name characters is left as it is. *)
Lemma sub_unsafe_fix (s : list ascii) :
  forallb is_name_char s = true ->
  forall pr, sub_from unsafe_run (fun _ => ["-"%char]) pr s 0 = s.
Proof.
  induction s as [|c s IH]; intros H pr; [reflexivity |].
  cbn [forallb] in H. apply andb_true_iff in H as [Hc Hs].
  cbn [sub_from]. rewrite unsafe_run_miss by (simpl; now rewrite Hc).
  now rewrite IH.
Qed.

Lemma forallb_firstn {A} (p : A -> bool) (n : nat) (l : list A) :
  forallb p l = true -> forallb p (firstn n l) = true.
Proof.
  revert n. induction l as [|a l IH]; intros [|n] H; simpl in *; auto.
  apply andb_true_iff in H as [-> H]. simpl. now apply IH.
Qed.

Lemma truthy_chars (s : string) : Py.truthy s = false <-> Py.chars s = [].
Proof.
  unfold Py.truthy. rewrite negb_false_iff, String.eqb_eq. split.
  - now intros ->.
  - intros H. rewrite <- (str_chars s), H. reflexivity.
Qed.

Lemma sanitize_valid (n : string) : valid_name (_sanitize_name n).
Proof.
  unfold _sanitize_name, sub.
  set (l := sub_from _ _ _ _ _).
  assert (Hl : forallb is_name_char l = true) by apply sub_unsafe_clean.
  rewrite chars_str.
  destruct (Py.truthy (Py.str (firstn 63 l))) eqn:Et; [| split; [simpl; lia | reflexivity]].
  split.
  - rewrite chars_str. split.
    + destruct (firstn 63 l) eqn:E; [discriminate Et | simpl; lia].
    + apply firstn_le_length.
  - rewrite chars_str. now apply forallb_firstn.
Qed.

Lemma sanitize_fix (s : string) : valid_name s -> _sanitize_name s = s.
Proof.
  intros [[H1 H2] Hc]. unfold _sanitize_name, sub.
  rewrite sub_unsafe_fix by exact Hc.
  rewrite chars_str, firstn_all2 by lia. rewrite str_chars.
  destruct (Py.truthy s) eqn:Et; [reflexivity |].
  apply truthy_chars in Et. rewrite Et in H1. simpl in H1. lia.
Qed.

(** X6.  A sanitized name is never empty, is at most 63 characters long and
    is made of letters, digits, underscore, dot and hyphen; sanitizing
    it again changes nothing. *)
Theorem sanitize_name_is_valid_and_stable (n : string) :
  valid_name (_sanitize_name n)
  /\ _sanitize_name (_sanitize_name n) = _sanitize_name n.
Proof. split; [apply sanitize_valid | apply sanitize_fix, sanitize_valid]. Qed.

Lemma kv_result_stripped (block key v : string) :
  _kv_from_block block key = Some v -> Py.strip v = v.
Proof.
  unfold _kv_from_block. destruct (search (kv_re key) block); [| discriminate].
  intros [= <-]. apply strip_idem.
Qed.

(** X7.  The run flow and the build flow give a database service the same
    container name, from the same config text and service name. *)
Theorem db_container_name_agrees (text service_name : string) :
  _db_container_name text service_name = _db_default_container_name text service_name.
Proof.
  unfold _db_container_name, _db_default_container_name, _read_dev_compose_container_name.
  destruct (Py.truthy (_extract_block text "dev")) eqn:Ed; [| reflexivity].
  cbn [negb].
  destruct (search (block_re "compose") (_extract_block text "dev")) as [m|].
  - cbn [Py.otruthy Py.or_str].
    destruct (Py.truthy (group m 1)) eqn:Eg.
    + destruct (_kv_from_block (group m 1) "container_name") as [v|] eqn:Ek;
        [| reflexivity].
      apply kv_result_stripped in Ek. cbn [Py.otruthy Py.or_str].
      destruct (Py.truthy v) eqn:Ev; [| reflexivity].
      rewrite Ek. cbn [Py.or_str]. now rewrite Ev.
    + apply truthy_chars in Eg.
      assert (E : group m 1 = "") by (rewrite <- (str_chars (group m 1)), Eg; reflexivity).
      rewrite E. reflexivity.
  - reflexivity.
Qed.

End ContainerNames.

Section GlobalFlags.
Import Cli.


Lemma consume_acc (argv : list string) :
  forall dev theme out,
    consume argv dev theme out
    = let '(d, t, o) := consume argv false None [] in
      (dev || d, match t with Some v => Some v | None => theme end, (out ++ o)%list).
Proof.
  induction argv as [argv IH] using (induction_ltof1 _ (@length string)).
  unfold ltof in IH. intros dev theme out.
  destruct argv as [|a argv]; [simpl; now rewrite orb_false_r, app_nil_r |].
  assert (IH1 := IH argv ltac:(simpl; lia)).
  cbn [consume]. destruct (is_dev_flag a).
  - rewrite (IH1 true theme out), (IH1 true None []).
    destruct (consume argv false None []) as [[d t] o]. now destruct dev, d, t.
  - destruct argv as [|v argv].
    + simpl. now rewrite orb_false_r.
    + assert (IH2 := IH argv ltac:(simpl; lia)).
      destruct (String.eqb a "--theme").
      * rewrite (IH2 dev (Some v) out), (IH2 false (Some v) []).
        destruct (consume argv false None []) as [[d t] o]. now destruct dev, d, t.
      * rewrite (IH1 dev theme (out ++ [a])%list), (IH1 false None ([] ++ [a])%list).
        destruct (consume (v :: argv) false None []) as [[d t] o]. simpl.
        rewrite <- app_assoc. now destruct dev, d, t.
Qed.

(** X8.  What is left of the command line holds no flag the function would
    take again, and holds the other arguments in their order. *)
Theorem consume_global_flags_leaves_nothing (argv : list string) :
  let '(dev, theme, out) := _consume_global_flags argv in
  sublist out argv
  /\ Forall (fun a => is_dev_flag a = false) out
  /\ _consume_global_flags out = (false, None, out).
Proof.
  unfold _consume_global_flags.
  induction argv as [argv IH] using (induction_ltof1 _ (@length string)).
  unfold ltof in IH.
  destruct argv as [|a argv]; [simpl; repeat split; constructor |].
  cbn [consume]. destruct (is_dev_flag a) eqn:Ea.
  - rewrite consume_acc. specialize (IH argv ltac:(simpl; lia)).
    destruct (consume argv false None []) as [[d t] o]. simpl.
    destruct IH as [Hs [Hf Hi]]. repeat split; auto. now apply sublist_cons.
  - destruct argv as [|v argv].
    + simpl. rewrite Ea. repeat split; auto.
    + destruct (String.eqb a "--theme") eqn:Et.
      * rewrite consume_acc. specialize (IH argv ltac:(simpl; lia)).
        destruct (consume argv false None []) as [[d t] o]. simpl.
        destruct IH as [Hs [Hf Hi]]. repeat split; auto.
        now apply sublist_cons, sublist_cons.
      * rewrite consume_acc. specialize (IH (v :: argv) ltac:(simpl; lia)).
        destruct (consume (v :: argv) false None []) as [[d t] o]. simpl.
        destruct IH as [Hs [Hf Hi]]. repeat split.
        -- now apply sublist_skip.
        -- constructor; auto.
        -- rewrite Ea. destruct o as [|b o].
           ++ reflexivity.
           ++ rewrite Et. rewrite consume_acc, Hi. simpl. reflexivity.
Qed.

End GlobalFlags.

Section ImageReferences.
Import Re ReSem Aws.



(** ** Image references *)

Lemma has_char_app (c : ascii) (a b : string) :
  has_char c (a ++ b) = has_char c a || has_char c b.
Proof. unfold has_char. now rewrite chars_app, existsb_app. Qed.

Lemma split_once_l_char (c : ascii) (a b : list ascii) :
  existsb (Ascii.eqb c) a = false ->
  forall acc, DbMigrate.split_once_l [c] acc (a ++ c :: b) = Some (rev acc ++ a, b)%list.
Proof.
  induction a as [|x a IH]; intros H acc.
  - simpl. rewrite Ascii.eqb_refl. simpl. now rewrite app_nil_r.
  - simpl in H. apply orb_false_iff in H as [Hx Ha].
    simpl. rewrite Hx. simpl. rewrite IH by exact Ha. simpl. now rewrite <- app_assoc.
Qed.

Lemma split_once_l_none (c : ascii) (a : list ascii) :
  existsb (Ascii.eqb c) a = false ->
  forall acc, DbMigrate.split_once_l [c] acc a = None.
Proof.
  induction a as [|x a IH]; intros H acc; [reflexivity |].
  simpl in H. apply orb_false_iff in H as [Hx Ha].
  simpl. rewrite Hx. simpl. now apply IH.
Qed.

Lemma split1_at (c : ascii) (a b : string) :
  has_char c a = false -> split1 (a ++ String c b) c = (a, b).
Proof.
  intros H. unfold split1, DbMigrate.split_once.
  rewrite chars_app. change (Py.chars (String c "")) with [c].
  change (Py.chars (String c b)) with (c :: Py.chars b).
  rewrite split_once_l_char by exact H. simpl. now rewrite !str_chars.
Qed.

Lemma split1_none (c : ascii) (a : string) :
  has_char c a = false -> split1 a c = (a, "").
Proof.
  intros H. unfold split1, DbMigrate.split_once.
  change (Py.chars (String c "")) with [c].
  now rewrite split_once_l_none by exact H.
Qed.

Lemma rsplit1_at (c : ascii) (a b : string) :
  has_char c b = false -> rsplit1 (a ++ String c b) c = (a, b).
Proof.
  intros H. unfold rsplit1. rewrite chars_app.
  change (Py.chars (String c b)) with (c :: Py.chars b).
  rewrite rev_app_distr. simpl rev. rewrite <- app_assoc. simpl app.
  rewrite split_once_l_char.
  - simpl. now rewrite !rev_involutive, !str_chars.
  - unfold has_char in H. rewrite <- H. clear.
    induction (Py.chars b) as [|x l IH]; [reflexivity |].
    simpl. rewrite existsb_app, IH. simpl. now rewrite orb_false_r, orb_comm.
Qed.

Lemma rstrip_slash_id (s : string) : has_char "/" s = false -> Py.rstrip_slash s = s.
Proof.
  unfold has_char, Py.rstrip_slash, Py.rstrip_by. intros H.
  rewrite <- (str_chars s) at 2. f_equal.
  rewrite <- (rev_involutive (Py.chars s)) at 2. f_equal.
  apply lstrip_by_fix.
  destruct (rev (Py.chars s)) as [|c l] eqn:E; [exact I |].
  destruct (Ascii.eqb c "/") eqn:Ec; [| reflexivity].
  exfalso. apply Ascii.eqb_eq in Ec. subst c.
  assert (Hin : In "/"%char (Py.chars s)) by (apply in_rev; rewrite E; now left).
  assert (existsb (Ascii.eqb "/") (Py.chars s) = true); [| congruence].
  apply existsb_exists. exists "/"%char. split; [exact Hin | reflexivity].
Qed.

(** X9.  The reference that build composes from a registry host, a name and
    a version is taken apart again into the same three: the host
    alone decides what kind of reference it is. *)
Theorem composed_reference_parses_back (name version ecr : string) :
  has_char "/" ecr = false ->
  has_char "@" ecr = false -> has_char "@" name = false -> has_char "@" version = false ->
  has_char ":" version = false ->
  parse_ecr_image_ref (Build._compose_image_ref name version ecr)
  = classify_host ecr name version.
Proof.
  intros Hs He Hn Hv Hc. unfold Build._compose_image_ref, parse_ecr_image_ref.
  rewrite rstrip_slash_id by exact Hs.
  assert (Hat : has_char "@" (ecr ++ "/" ++ name ++ ":" ++ version) = false).
  { rewrite !has_char_app, He, Hn, Hv. reflexivity. }
  rewrite Hat.
  assert (Hsl : has_char "/" (ecr ++ "/" ++ name ++ ":" ++ version) = true).
  { rewrite !has_char_app. simpl. now rewrite orb_true_r. }
  rewrite Hsl. cbn [negb].
  change (ecr ++ "/" ++ name ++ ":" ++ version)
    with (ecr ++ String "/" (name ++ ":" ++ version)).
  rewrite split1_at by exact Hs.
  assert (Hco : has_char ":" (name ++ ":" ++ version) = true).
  { rewrite !has_char_app. simpl. now rewrite orb_true_r. }
  rewrite Hco.
  change (name ++ ":" ++ version) with (name ++ String ":" version).
  now rewrite rsplit1_at by exact Hc.
Qed.

(** At an input: a service of a private registry. *)
Lemma composed_reference_parses_back_witness :
  parse_ecr_image_ref (Build._compose_image_ref "billing" "1.2.0" Samples.registry_host)
  = classify_host Samples.registry_host "billing" "1.2.0".
Proof.
  apply (composed_reference_parses_back "billing" "1.2.0" Samples.registry_host);
    reflexivity.
Defined.



Lemma split1_fst_clean (c : ascii) (s : string) :
  has_char c s = true -> has_char c (fst (split1 s c)) = false.
Proof.
  unfold has_char, split1, DbMigrate.split_once.
  change (Py.chars (String c "")) with [c].
  intros H.
  assert (G : forall l acc, existsb (Ascii.eqb c) l = true ->
            exists a b, DbMigrate.split_once_l [c] acc l = Some (rev acc ++ a, b)%list
                        /\ existsb (Ascii.eqb c) a = false).
  { induction l as [|x l IH]; intros acc Hl; [discriminate |].
    simpl in Hl. simpl. destruct (Ascii.eqb c x) eqn:Ex; simpl.
    - exists [], l. now rewrite app_nil_r.
    - destruct (IH (x :: acc) Hl) as [a [b [E F]]].
      exists (x :: a), b. simpl in E. rewrite <- app_assoc in E. simpl in E.
      split; [exact E |]. simpl. now rewrite Ex. }
  destruct (G (Py.chars s) [] H) as [a [b [E F]]].
  rewrite E. simpl. now rewrite chars_str.
Qed.

(** ** The host of a parsed reference *)

Lemma matches_lit_l (l : list ascii) (st st' : mstate) :
  matches (seqs (map chr l)) st st' ->
  rest st = (l ++ rest st')%list /\ caps st' = caps st.
Proof.
  revert st. induction l as [|c l IH]; intros st H.
  - inversion H; subst. auto.
  - destruct l as [|c' l].
    + cbn [map seqs] in H. apply matches_chr_inv in H as [x [E [P [C _]]]].
      apply Ascii.eqb_eq in P. subst x. auto.
    + change (seqs (map chr (c :: c' :: l)))
        with (Seq (chr c) (seqs (map chr (c' :: l)))) in H.
      apply matches_seq_inv in H as [mid [H1 H2]].
      apply matches_chr_inv in H1 as [x [E [P [C _]]]].
      apply Ascii.eqb_eq in P. subst x.
      apply IH in H2 as [E2 C2]. rewrite E, E2, C2, C. auto.
Qed.

Lemma matches_times_chr (n : nat) (p : ascii -> bool) (st st' : mstate) :
  matches (times n (Chr p)) st st' ->
  exists w, length w = n /\ forallb p w = true
            /\ rest st = (w ++ rest st')%list /\ caps st' = caps st.
Proof.
  revert st. induction n as [|n IH]; intros st H.
  - inversion H; subst. now exists [].
  - destruct n as [|n].
    + cbn [times] in H. apply matches_chr_inv in H as [x [E [P [C _]]]].
      exists [x]. simpl. rewrite P. auto.
    + change (times (S (S n)) (Chr p)) with (Seq (Chr p) (times (S n) (Chr p))) in H.
      apply matches_seq_inv in H as [mid [H1 H2]].
      apply matches_chr_inv in H1 as [x [E [P [C _]]]].
      apply IH in H2 as [w [L [F [E2 C2]]]].
      exists (x :: w). simpl. rewrite P, F, L, E, E2, C2, C. auto.
Qed.

Lemma priv_host_shape (st0 st : mstate) :
  matches _PRIV_ECR_HOST st0 st ->
  exists acct region,
    rest st0 = (acct ++ Py.chars ".dkr.ecr." ++ region ++ Py.chars ".amazonaws.com"
                ++ rest st)%list
    /\ length acct = 12%nat /\ forallb Py.is_digit acct = true
    /\ region <> [] /\ forallb RunLocal.is_lower_digit_dash region = true
    /\ assoc 2 (caps st) = Some acct /\ assoc 3 (caps st) = Some region.
Proof.
  unfold _PRIV_ECR_HOST. cbn [seqs]. intros H.
  apply matches_grp_inv in H as [s1 [H ->]].
  apply matches_seq_inv in H as [s2 [H2 H]].
  apply matches_grp_inv in H2 as [s2' [H2 ->]].
  apply matches_times_chr in H2 as [acct [La [Fa [Ea Ca]]]].
  apply matches_seq_inv in H as [s3 [H3 H]].
  apply matches_lit_l in H3 as [E3 C3].
  apply matches_seq_inv in H as [s4 [H4 H]].
  apply matches_grp_inv in H4 as [s4' [H4 ->]].
  apply matches_plus_chr in H4 as [c [w [E4 [Pc [Fw C4]]]]].
  apply matches_lit_l in H as [E5 C5].
  cbn [rest caps close_group] in *.
  exists acct, (c :: w). repeat split.
  - rewrite Ea, E3, E4, E5. simpl. rewrite <- ?app_assoc. reflexivity.
  - exact La.
  - exact Fa.
  - discriminate.
  - simpl. now rewrite Pc, Fw.
  - cbn [assoc Nat.eqb]. rewrite C5. cbn [assoc Nat.eqb]. rewrite C4, C3.
    cbn [assoc Nat.eqb]. f_equal. rewrite Ea. apply consumed_app.
  - cbn [assoc Nat.eqb]. rewrite C5. cbn [assoc Nat.eqb]. f_equal. rewrite E4.
    change (c :: w ++ rest s4')%list with ((c :: w) ++ rest s4')%list.
    apply consumed_app.
Qed.

Lemma search_from_at (r : regex) (s : list ascii) :
  forall p m, search_from r p s = Some m ->
  exists pre s', s = (pre ++ s')%list
    /\ go (Grp 0 r) (MState (match rev pre with c :: _ => Some c | [] => p end) s' [])
          Some = Some m.
Proof.
  induction s as [|c s IH]; intros p m H; cbn [search_from] in H.
  - destruct (go (Grp 0 r) (MState p [] []) Some) eqn:E; [| discriminate].
    injection H as ->. exists [], []. auto.
  - destruct (go (Grp 0 r) (MState p (c :: s) []) Some) eqn:E.
    + injection H as ->. exists [], (c :: s). auto.
    + apply IH in H as [pre [s' [-> H]]].
      exists (c :: pre), s'. split; [reflexivity |].
      simpl rev. destruct (rev pre) as [|x l] eqn:Er; simpl; exact H.
Qed.

Lemma has_char_false_in (c : ascii) (s : string) (a b : list ascii) :
  has_char c s = false -> Py.chars s = (a ++ c :: b)%list -> False.
Proof.
  unfold has_char. intros H E. rewrite E, existsb_app in H. simpl in H.
  rewrite Ascii.eqb_refl, orb_true_r in H. discriminate.
Qed.

Lemma matches_alt_inv (a b : regex) (st st' : mstate) :
  matches (Alt a b) st st' -> matches a st st' \/ matches b st st'.
Proof. intros H. inversion H; subst; auto. Qed.

Lemma matches_bolstr_inv (st st' : mstate) :
  matches BolStr st st' -> st' = st /\ at_bos st = true.
Proof. intros H. inversion H; subst; auto. Qed.

Lemma matches_eolstr_inv (st st' : mstate) :
  matches EolStr st st' -> st' = st /\ at_eos st = true.
Proof. intros H. inversion H; subst; auto. Qed.

Lemma pub_host_exact (host : string) (m : mstate) :
  has_char "/" host = false ->
  search _PUB_ECR_HOST host = Some m ->
  host = "public.ecr.aws" \/ host = "public.ecr.aws" ++ ConfigText.nl.
Proof.
  intros Hs H. unfold search in H. apply search_from_at in H as [pre [s' [E H]]].
  apply go_sound in H as [st [Hm _]].
  apply matches_grp_inv in Hm as [st1 [Hm _]].
  unfold _PUB_ECR_HOST in Hm. cbn [seqs] in Hm.
  apply matches_seq_inv in Hm as [s1 [H1 Hm]].
  apply matches_seq_inv in Hm as [s2 [H2 H3]].
  apply matches_grp_inv in H2 as [s2' [H2 Es2]].
  apply matches_lit_l in H2 as [E2 _].
  assert (Hpre : pre = [] /\ rest s1 = s').
  { apply matches_alt_inv in H1 as [H1 | H1].
    - apply matches_bolstr_inv in H1 as [-> Hb]. split; [| reflexivity].
      unfold at_bos in Hb. cbn [prev] in Hb.
      destruct (rev pre) as [|x l] eqn:Er; [| discriminate].
      apply (f_equal (@rev ascii)) in Er. now rewrite rev_involutive in Er.
    - exfalso. apply matches_chr_inv in H1 as [x [Ex [Px _]]].
      apply Ascii.eqb_eq in Px. subst x. cbn [rest] in Ex.
      eapply (has_char_false_in "/" host pre); [exact Hs |]. rewrite E, Ex. reflexivity. }
  destruct Hpre as [Hpre Es1]. rewrite Hpre in E. cbn [app] in E.
  assert (Hrest : rest s2 = rest s2') by (rewrite Es2; reflexivity).
  assert (Hend : rest s2' = [] \/ rest s2' = [newline]).
  { apply matches_alt_inv in H3 as [H3 | H3].
    - exfalso. apply matches_chr_inv in H3 as [x [Ex [Px _]]].
      apply Ascii.eqb_eq in Px. subst x. rewrite Hrest in Ex.
      eapply (has_char_false_in "/" host (Py.chars "public.ecr.aws")); [exact Hs |].
      rewrite E, <- Es1, E2, Ex. reflexivity.
    - apply matches_eolstr_inv in H3 as [_ Hb].
      unfold at_eos in Hb. rewrite Hrest in Hb.
      destruct (rest s2') as [|x [|y l]]; [now left | | discriminate].
      apply Ascii.eqb_eq in Hb. subst x. now right. }
  rewrite <- Es1, E2 in E.
  destruct Hend as [Hn | Hn]; rewrite Hn in E; [left | right];
    rewrite <- (str_chars host), E; reflexivity.
Qed.

(** X10.  What parse_ecr_image_ref takes for an ECR reference.  The host is
    the text before the first slash.  A private reference has a host
    that begins with twelve digits, .dkr.ecr., a region of lower-case
    letters, digits and dashes, and .amazonaws.com (whatever follows),
    and the account and the region reported are those of the host.  A
    public reference has the host public.ecr.aws, with a line feed
    after it at most. *)
Theorem parsed_reference_host (image_ref : string) (r : ecr_ref) :
  parse_ecr_image_ref image_ref = Some r ->
  has_char "/" (ref_host r) = false
  /\ if ref_private r then
       exists suffix,
         ref_host r = ref_account r ++ ".dkr.ecr." ++ ref_region r
                      ++ ".amazonaws.com" ++ suffix
         /\ String.length (ref_account r) = 12%nat
         /\ forallb Py.is_digit (Py.chars (ref_account r)) = true
         /\ ref_region r <> ""
         /\ forallb RunLocal.is_lower_digit_dash (Py.chars (ref_region r)) = true
     else
       (ref_host r = "public.ecr.aws" \/ ref_host r = "public.ecr.aws" ++ ConfigText.nl)
       /\ ref_region r = "" /\ ref_account r = "".
Proof.
  unfold parse_ecr_image_ref.
  set (ref := if has_char "@" image_ref then _ else image_ref).
  destruct (has_char "/" ref) eqn:Hs; [| discriminate]. cbn [negb].
  pose proof (split1_fst_clean "/" ref Hs) as Hh.
  destruct (split1 ref "/") as [host rest_]. cbn [fst] in Hh.
  destruct (if has_char ":" rest_ then rsplit1 rest_ ":" else (rest_, "latest"))
    as [repository tag].
  destruct (rmatch _PRIV_ECR_HOST host) as [m|] eqn:Em.
  - intros E. injection E as <-. cbn [ref_host ref_private ref_account ref_region].
    split; [exact Hh |].
    apply rmatch_matches in Em as [st [Hm ->]].
    apply priv_host_shape in Hm as [acct [region [E [La [Fa [Nr [Fr [A2 A3]]]]]]]].
    cbn [rest] in E.
    unfold group. cbn [caps close_group assoc Nat.eqb]. rewrite A2, A3.
    exists (Py.str (rest st)). repeat split.
    + rewrite <- (str_chars host), E.
      rewrite <- (str_chars (Py.str acct ++ _)). f_equal.
      now rewrite !chars_app, !chars_str.
    + rewrite <- La. clear. induction acct; simpl; congruence.
    + now rewrite chars_str.
    + intros Hr. apply Nr. apply (f_equal Py.chars) in Hr. now rewrite chars_str in Hr.
    + now rewrite chars_str.
  - destruct (search _PUB_ECR_HOST host) as [m|] eqn:Ep; [| discriminate].
    intros E. injection E as <-. cbn [ref_host ref_private ref_account ref_region].
    split; [exact Hh |]. split; [| auto].
    eapply pub_host_exact; eauto.
Qed.

(** At an input: a reference to a private registry. *)
Lemma parsed_reference_host_witness :
  has_char "/" (ref_host Samples.parsed_ref) = false
  /\ exists suffix,
       ref_host Samples.parsed_ref
       = ref_account Samples.parsed_ref ++ ".dkr.ecr." ++ ref_region Samples.parsed_ref
         ++ ".amazonaws.com" ++ suffix
       /\ String.length (ref_account Samples.parsed_ref) = 12%nat
       /\ forallb Py.is_digit (Py.chars (ref_account Samples.parsed_ref)) = true
       /\ ref_region Samples.parsed_ref <> ""
       /\ forallb RunLocal.is_lower_digit_dash (Py.chars (ref_region Samples.parsed_ref))
          = true.
Proof.
  apply (parsed_reference_host (Samples.registry_host ++ "/billing:1.2.0")
           Samples.parsed_ref).
  vm_compute. reflexivity.
Defined.

Lemma has_char_strip (c : ascii) (s : string) :
  has_char c s = false -> has_char c (Py.strip s) = false.
Proof.
  unfold has_char. intros H.
  destruct (existsb (Ascii.eqb c) (Py.chars (Py.strip s))) eqn:E; [| reflexivity].
  apply existsb_exists in E as [x [Hx E]].
  assert (F : Forall (fun y => Ascii.eqb c y = false) (Py.chars s)).
  { apply List.Forall_forall. intros y Hy.
    destruct (Ascii.eqb c y) eqn:Ey; [| reflexivity].
    assert (existsb (Ascii.eqb c) (Py.chars s) = true); [| congruence].
    apply existsb_exists. eauto. }
  apply (strip_forall _ s) in F. rewrite List.Forall_forall in F.
  specialize (F x Hx). congruence.
Qed.

Lemma build_arg_item_keys (m : gmap string string) (item : string) :
  map_Forall (fun k _ => arg_key k) m ->
  map_Forall (fun k _ => arg_key k) (build_arg_item m item).
Proof.
  intros Hm. unfold build_arg_item.
  destruct (has_char "=" item) eqn:E; [| exact Hm].
  pose proof (split1_fst_clean "=" item E) as Hc.
  destruct (split1 item "=") as [k v]. simpl in Hc.
  destruct (Py.truthy (Py.strip k)) eqn:Et; [| exact Hm].
  apply map_Forall_insert_2; [| exact Hm].
  split; [| split].
  - intros Hk. unfold Py.truthy in Et. rewrite Hk in Et. discriminate.
  - apply strip_idem.
  - now apply has_char_strip.
Qed.

Lemma build_arg_map_keys (args : list string) :
  map_Forall (fun k _ => arg_key k) (_build_arg_map args).
Proof.
  unfold _build_arg_map.
  assert (H : forall l m, map_Forall (fun k _ => arg_key k) m ->
              map_Forall (fun k _ => arg_key k) (fold_left build_arg_item l m)).
  { induction l as [|x l IH]; intros m Hm; [exact Hm |].
    simpl. apply IH. now apply build_arg_item_keys. }
  apply H, map_Forall_empty.
Qed.

Lemma build_arg_item_rendered (m : gmap string string) (k v : string) :
  arg_key k -> build_arg_item m (k ++ "=" ++ v) = <[k := v]> m.
Proof.
  intros [Hne [Hs Hc]]. unfold build_arg_item.
  assert (E : has_char "=" (k ++ "=" ++ v) = true).
  { rewrite !has_char_app. simpl. now rewrite orb_true_r. }
  rewrite E. change (k ++ "=" ++ v) with (k ++ String "=" v).
  rewrite split1_at by exact Hc. rewrite Hs.
  destruct (Py.truthy k) eqn:Et; [reflexivity |].
  unfold Py.truthy in Et. rewrite negb_false_iff in Et.
  apply String.eqb_eq in Et. contradiction.
Qed.

Lemma fold_insert_lookup (l : list (string * string)) :
  NoDup l.*1 ->
  forall (acc : gmap string string) k,
    fold_left (fun m kv => <[kv.1 := kv.2]> m) l acc !! k
    = match (list_to_map l : gmap string string) !! k with
      | Some v => Some v
      | None => acc !! k
      end.
Proof.
  induction l as [|[a b] l IH]; intros Hnd acc k; [reflexivity |].
  simpl in *. apply NoDup_cons in Hnd as [Ha Hnd]. rewrite IH by exact Hnd.
  destruct (decide (a = k)) as [->|Hne].
  - rewrite lookup_insert_eq. rewrite (not_elem_of_list_to_map_1 _ k) by exact Ha.
    now rewrite lookup_insert_eq.
  - rewrite !(lookup_insert_ne _ a k) by exact Hne. reflexivity.
Qed.

(** X11.  The build arguments survive the trip from the map to the
    [KEY=VALUE] list the preflight is given and back. *)
Theorem build_args_round_trip (args : list string) :
  _build_arg_map (render_build_args (_build_arg_map args)) = _build_arg_map args.
Proof.
  pose proof (build_arg_map_keys args) as Hk.
  set (m := _build_arg_map args) in *.
  unfold _build_arg_map at 1, render_build_args.
  assert (H : forall l acc, Forall (fun kv => arg_key kv.1) l ->
            fold_left build_arg_item (map (fun kv => kv.1 ++ "=" ++ kv.2) l) acc
            = fold_left (fun m kv => <[kv.1 := kv.2]> m) l acc).
  { induction l as [|[a b] l IH]; intros acc Hl; [reflexivity |].
    apply Forall_cons in Hl as [Ha Hl]. simpl.
    rewrite build_arg_item_rendered by exact Ha. now apply IH. }
  rewrite H.
  - apply map_eq. intros k.
    rewrite fold_insert_lookup by apply NoDup_fst_map_to_list.
    rewrite list_to_map_to_list, lookup_empty. now destruct (m !! k).
  - apply List.Forall_forall. intros [a b] Hin. simpl.
    apply (Hk a b). apply elem_of_map_to_list. now apply list_elem_of_In.
Qed.

End ImageReferences.

(* ===================================================================== *)
(** * db_migrate.py: the run as a whole                                   *)
(* ===================================================================== *)

Section MigrationRuns.
Import DbMigrate MigrationRun.

Lemma executed_app (a b : list event) : executed (a ++ b) = (executed a ++ executed b)%list.
Proof. unfold executed. apply omap_app. Qed.

Lemma added_app (db : Db) (evs : list event) (l : gmap string string) :
  Ledger.added db {| ledger := l; history := history db ++ evs |} = evs.
Proof.
  unfold Ledger.added. simpl. rewrite skipn_app, Nat.sub_diag, skipn_all. reflexivity.
Qed.

Lemma added_of_history (db db' : Db) (evs : list event) :
  history db' = (history db ++ evs)%list -> Ledger.added db db' = evs.
Proof.
  unfold Ledger.added. intros ->. rewrite skipn_app, Nat.sub_diag, skipn_all. reflexivity.
Qed.

Lemma last_cons_ne {A} (x : A) (l : list A) : l <> [] -> last (x :: l) = last l.
Proof. destruct l; [congruence | reflexivity]. Qed.

(** The loop, file by file: what it adds to the events, which files it
    hands to the client, and which of them have their row when it
    ends. *)
Lemma apply_files_trace (c : Client) (applied : gmap string string) (fs : list sqlfile) :
  NoDup (map fname fs) ->
  forall db rc db',
    apply_files c applied fs db = (rc, db') ->
    exists evs,
      history db' = (history db ++ evs)%list
      /\ sublist (executed evs) (map fname fs)
      /\ (forall n, In n (executed evs) -> applied !! n = None)
      /\ (forall f, In f fs -> In (fname f) (executed evs) ->
            rc = 0 \/ last (executed evs) <> Some (fname f) ->
            ledger db' !! fname f = Some (_file_checksum c f)).
Proof.
  induction fs as [|g fs IH]; intros Hnd db rc db' H.
  - simpl in H. injection H as <- <-. eexists. split; [reflexivity |].
    split; [constructor |]. split; [intros n [] | intros f []].
  - cbn [map] in Hnd. apply NoDup_cons in Hnd as [Hg Hnd].
    specialize (IH Hnd). cbn [apply_files] in H.
    destruct (opt_str_eqb (applied !! fname g) (_file_checksum c g)) eqn:Es.
    { apply IH in H as [evs [Hh [Hs [Ha Hr]]]]. simpl in Hh.
      exists (Console "info" (fname g ++ " (already applied)") :: evs).
      split; [now rewrite Hh, <- app_assoc |].
      change (executed (Console "info" (fname g ++ " (already applied)") :: evs))
        with (executed evs).
      split; [now apply sublist_cons |]. split; [exact Ha |].
      intros f [<- | Hf] Hin Hl; [| now apply Hr].
      exfalso. apply Hg. eapply elem_of_sublist; [| exact Hs]. now apply list_elem_of_In. }
    destruct (match applied !! fname g with
              | Some old => negb (String.eqb old (_file_checksum c g))
              | None => false
              end) eqn:Em.
    { injection H as <- <-. eexists. split; [simpl; rewrite <- app_assoc; reflexivity |].
      split; [apply sublist_nil_l |]. split; [intros n [] | intros f _ []]. }
    assert (Hnone : applied !! fname g = None).
    { destruct (applied !! fname g) as [old|] eqn:Eo; [| reflexivity].
      simpl in Es. apply negb_false_iff in Em. congruence. }
    destruct (negb (exec_rc c _ g =? 0)) eqn:Ex.
    { injection H as <- <-.
      exists [Console "info" ("Applying " ++ fname g); Executed (fname g);
              Console "error" ("Migration failed: " ++ fname g)].
      split; [simpl; rewrite <- !app_assoc; reflexivity |].
      split; [apply sublist_skip, sublist_nil_l |].
      split; [intros n [<- | []]; exact Hnone |].
      intros f Hf [E | []] [Hrc | Hl].
      - apply negb_true_iff, Z.eqb_neq in Ex. contradiction.
      - simpl in Hl. congruence. }
    destruct (_insert_ledger c _ (fname g) (_file_checksum c g)) as [rec db2] eqn:Ei.
    apply insert_ledger_cases in Ei.
    destruct (negb (rec =? 0)) eqn:Er.
    { injection H as <- <-. apply negb_true_iff, Z.eqb_neq in Er.
      destruct Ei as [[_ ->] | [E0 _]]; [| contradiction].
      exists [Console "info" ("Applying " ++ fname g); Executed (fname g);
              Console "error" ("Failed to record migration in ledger: " ++ fname g)].
      split; [simpl; rewrite <- !app_assoc; reflexivity |].
      split; [apply sublist_skip, sublist_nil_l |].
      split; [intros n [<- | []]; exact Hnone |].
      intros f Hf [E | []] [Hrc | Hl]; [contradiction | simpl in Hl; congruence]. }
    apply negb_false_iff, Z.eqb_eq in Er.
    destruct Ei as [[Hrec _] | [_ [Habs ->]]]; [contradiction |].
    pose proof (apply_files_keeps_rows _ _ _ _ _ _ H) as Hk.
    apply IH in H as [evs [Hh [Hs [Ha Hr]]]]. simpl in Hh.
    exists (Console "info" ("Applying " ++ fname g) :: Executed (fname g)
            :: Inserted (fname g) (_file_checksum c g)
            :: Console "success" ("Applied " ++ fname g) :: evs).
    split; [rewrite Hh, <- !app_assoc; reflexivity |].
    change (executed (Console "info" ("Applying " ++ fname g) :: Executed (fname g)
                      :: Inserted (fname g) (_file_checksum c g)
                      :: Console "success" ("Applied " ++ fname g) :: evs))
      with (fname g :: executed evs).
    split; [now apply sublist_skip |].
    split; [intros n [<- | Hn]; [exact Hnone | now apply Ha] |].
    intros f [<- | Hf] Hin Hl.
    + apply Hk. simpl. apply lookup_insert_eq.
    + destruct Hin as [E | Hin].
      { exfalso. apply Hg. rewrite E. apply list_elem_of_In, in_map, Hf. }
      apply Hr; [exact Hf | exact Hin |].
      destruct Hl as [Hl | Hl]; [now left | right].
      rewrite last_cons_ne in Hl; [exact Hl |]. intros E. rewrite E in Hin. destruct Hin.
Qed.

Lemma sql_names_sublist (l : list (string * entry)) :
  sublist (map fname (omap sql_entry l)) l.*1.
Proof.
  induction l as [|[n e] l IH]; [constructor |].
  cbn [omap list_omap fmap list_fmap]. unfold sql_entry at 1. cbn [fst snd].
  destruct e as [bytes|]; [| now apply sublist_cons].
  destruct (endswith n ".sql"); [| now apply sublist_cons].
  cbn [map fname]. now apply sublist_skip.
Qed.

Lemma list_sql_files_nodup (d : directory) : NoDup (map fname (_list_sql_files d)).
Proof.
  unfold _list_sql_files.
  assert (P : Permutation (map fname (merge_sort name_le (omap sql_entry (map_to_list d))))
                          (map fname (omap sql_entry (map_to_list d)))).
  { apply Permutation_map. apply merge_sort_Permutation. }
  rewrite P. apply (sublist_NoDup _ (map_to_list d).*1);
    [apply NoDup_fst_map_to_list | apply sql_names_sublist].
Qed.

(** How a run of migrate ends: before the loop, with the ledger as it
    was and nothing but messages added, or with the loop over the
    listed files. *)
Lemma migrate_cases (w : World) (c : Client) (env_name : string) (db : Db)
  (rc : Z) (db' : Db) :
  migrate w c env_name db = Ok (rc, db') ->
  (ledger db' = ledger db
   /\ exists msgs, history db' = (history db ++ msgs)%list /\ executed msgs = [])
  \/ (exists d applied,
        db_dir w = Some d
        /\ _already_applied (select_rc c db) (select_rows db) = Ok applied
        /\ apply_files c applied (_list_sql_files d) db = (rc, db')).
Proof.
  assert (Hsay : forall level text,
            ledger (say db level text) = ledger db
            /\ exists msgs, history (say db level text) = (history db ++ msgs)%list
                            /\ executed msgs = []).
  { intros level text. split; [reflexivity |]. now exists [Console level text]. }
  assert (Hsame : ledger db = ledger db
            /\ exists msgs, history db = (history db ++ msgs)%list /\ executed msgs = []).
  { split; [reflexivity |]. exists []. now rewrite app_nil_r. }
  unfold migrate.
  destruct (negb (Py.truthy env_name)); [intros [= <- <-]; left; apply Hsay |].
  destruct (negb (mysql_bin w)); [intros [= <- <-]; left; apply Hsay |].
  destruct (negb (Py.truthy (_read_config_text (root_files w))));
    [intros [= <- <-]; left; apply Hsay |].
  destruct (negb (Py.otruthy _)); [intros [= <- <-]; left; apply Hsay |].
  destruct (_parse_mysql_like _ _); [| intros [= <- <-]; left; apply Hsay].
  destruct (negb (_wait_for_db w 60)); [intros [= <- <-]; left; apply Hsay |].
  destruct (negb (ensure_db_rc w =? 0)); [intros [= <- <-]; left; exact Hsame |].
  destruct (negb (ensure_ledger_rc w =? 0)); [intros [= <- <-]; left; exact Hsame |].
  unfold migrate_files.
  destruct (db_dir w) as [d|]; [| intros [= <- <-]; left; apply Hsay].
  destruct (_list_sql_files d) as [|f fs] eqn:El; [intros [= <- <-]; left; apply Hsay |].
  destruct (_already_applied _ _) as [applied|] eqn:Ea; [| discriminate].
  intros [= H]. right. exists d, applied. rewrite El. auto.
Qed.

(** X12.  Whatever a run of migrate does and however it ends, every row the
    ledger held before the run is there after it, unchanged. *)
Theorem migrate_keeps_ledger_rows (w : World) (c : Client) (env_name : string)
  (db : Db) (rc : Z) (db' : Db) :
  migrate w c env_name db = Ok (rc, db') -> Ledger.rows_kept db db'.
Proof.
  intros H. apply migrate_cases in H as [[E _] | [d [applied [_ [_ H]]]]].
  - intros n v Hn. now rewrite E.
  - eapply apply_files_keeps_rows; eauto.
Qed.

(** At an input: the row of a modified migration, after the run that
    refused it. *)
Lemma migrate_keeps_ledger_rows_witness :
  ledger Samples.db_refused !! "001_init.sql" = Some "sha256:CREATE TABLE t (a TEXT);".
Proof.
  apply (migrate_keeps_ledger_rows LedgerExamples.world_two MigrateExamples.client "dev"
           LedgerExamples.db_modified 1 Samples.db_refused).
  - vm_compute. reflexivity.
  - vm_compute. reflexivity.
Defined.

(** X13.  The files a run hands to the client are files of the list, in the
    order of the list and each at most once; and when the ledger could
    be read, none of them had a row. *)
Theorem migrate_runs_files_in_order (w : World) (c : Client) (env_name : string)
  (db : Db) (rc : Z) (db' : Db) :
  migrate w c env_name db = Ok (rc, db') ->
  match db_dir w with
  | Some d => sublist (executed (Ledger.added db db')) (map fname (_list_sql_files d))
  | None => executed (Ledger.added db db') = []
  end
  /\ (select_rc c db = 0 ->
      forall n, In n (executed (Ledger.added db db')) -> ledger db !! n = None).
Proof.
  intros H. apply migrate_cases in H as [[_ [msgs [Hh He]]] | [d [applied [Ed [Ea H]]]]].
  - rewrite (added_of_history _ _ _ Hh), He. split; [| intros _ n []].
    destruct (db_dir w); [apply sublist_nil_l | reflexivity].
  - rewrite Ed.
    apply apply_files_trace in H as [evs [Hh [Hs [Hn _]]]]; [| apply list_sql_files_nodup].
    rewrite (added_of_history _ _ _ Hh). split; [exact Hs |].
    intros Hsel n Hin.
    destruct (already_applied_reads (select_rc c db) db) as [applied' [Ea' [_ Hread]]].
    rewrite Ea in Ea'. injection Ea' as <-.
    rewrite <- (Hread Hsel); [now apply Hn |].
    apply list_elem_of_In in Hin. eapply elem_of_sublist in Hin; [| exact Hs].
    apply list_elem_of_In, in_map_iff in Hin as [f [<- Hf]].
    now apply (list_sql_files_named d).
Qed.

(** At an input: a first run over two migrations. *)
Lemma migrate_runs_files_in_order_witness :
  sublist (executed (Ledger.added MigrateExamples.empty_db LedgerExamples.db_after_first))
    (map fname (_list_sql_files MigrateExamples.db_dir_two))
  /\ (select_rc MigrateExamples.client MigrateExamples.empty_db = 0 ->
      forall n,
        In n (executed (Ledger.added MigrateExamples.empty_db LedgerExamples.db_after_first)) ->
        ledger MigrateExamples.empty_db !! n = None).
Proof.
  apply (migrate_runs_files_in_order LedgerExamples.world_two MigrateExamples.client "dev"
           MigrateExamples.empty_db 0 LedgerExamples.db_after_first).
  vm_compute. reflexivity.
Defined.

(** X14.  A file that was handed to the client has its row, with the
    checksum it was run with, when the run returns 0 or went on to a
    later file: only the last file of a failed run can have been run
    without being recorded. *)
Theorem migrate_records_what_it_ran (w : World) (c : Client) (env_name : string)
  (db : Db) (rc : Z) (db' : Db) (d : directory) (f : sqlfile) :
  migrate w c env_name db = Ok (rc, db') ->
  db_dir w = Some d -> In f (_list_sql_files d) ->
  In (fname f) (executed (Ledger.added db db')) ->
  rc = 0 \/ last (executed (Ledger.added db db')) <> Some (fname f) ->
  ledger db' !! fname f = Some (_file_checksum c f).
Proof.
  intros H Ed Hf Hin Hl.
  apply migrate_cases in H as [[_ [msgs [Hh He]]] | [d' [applied [Ed' [Ea H]]]]].
  - rewrite (added_of_history _ _ _ Hh), He in Hin. destruct Hin.
  - rewrite Ed in Ed'. injection Ed' as <-.
    apply apply_files_trace in H as [evs [Hh [_ [_ Hr]]]]; [| apply list_sql_files_nodup].
    rewrite (added_of_history _ _ _ Hh) in Hin, Hl. now apply Hr.
Qed.

(** At an input: the first file of a first run. *)
Lemma migrate_records_what_it_ran_witness :
  ledger LedgerExamples.db_after_first !! fname LedgerExamples.file_001
  = Some (_file_checksum MigrateExamples.client LedgerExamples.file_001).
Proof.
  apply (migrate_records_what_it_ran LedgerExamples.world_two MigrateExamples.client "dev"
           MigrateExamples.empty_db 0 LedgerExamples.db_after_first
           MigrateExamples.db_dir_two LedgerExamples.file_001).
  - vm_compute. reflexivity.
  - reflexivity.
  - vm_compute. left. reflexivity.
  - vm_compute. left. reflexivity.
  - left. reflexivity.
Defined.

(** X15.  After a run that returns 0 every listed file has its row, with the
    checksum the file has now. *)
Theorem migrate_success_records_every_file (w : World) (c : Client)
  (env_name : string) (db db' : Db) (d : directory) (f : sqlfile) :
  migrate w c env_name db = Ok (0, db') ->
  db_dir w = Some d -> In f (_list_sql_files d) ->
  ledger db' !! fname f = Some (_file_checksum c f).
Proof.
  intros H Ed Hf. apply migrate_reaches_files in H as [H _].
  rewrite (migrate_files_listed w c db d Ed) in H
    by (intros E; rewrite E in Hf; destruct Hf).
  destruct (already_applied_reads (select_rc c db) db) as [applied [Ea [Hsub _]]].
  rewrite Ea in H. injection H as H.
  eapply apply_files_records; eauto.
Qed.

(** At an input: the second file of a first run. *)
Lemma migrate_success_records_every_file_witness :
  ledger LedgerExamples.db_after_first !! fname LedgerExamples.file_002
  = Some (_file_checksum MigrateExamples.client LedgerExamples.file_002).
Proof.
  apply (migrate_success_records_every_file LedgerExamples.world_two
           MigrateExamples.client "dev" MigrateExamples.empty_db
           LedgerExamples.db_after_first MigrateExamples.db_dir_two
           LedgerExamples.file_002).
  - vm_compute. reflexivity.
  - reflexivity.
  - vm_compute. right. left. reflexivity.
Defined.

End MigrationRuns.

(* ===================================================================== *)
(** * run_local.py: auto_run and auto_stop                                *)
(* ===================================================================== *)

Section RunnerFlows.
Import RunLocal Names Runner.

Lemma bind_steps {A B : Type} (m : flow A) (f : A -> flow B) (P : step -> Prop) :
  Forall P (fst m) ->
  (forall a, snd m = Go a -> Forall P (fst (f a))) ->
  Forall P (fst (bind m f)).
Proof.
  destruct m as [evs [a | rc | e]]; simpl; intros Hm Hf; try exact Hm.
  specialize (Hf a eq_refl). destruct (f a) as [evs' o]. simpl in *.
  apply Forall_app. split; assumption.
Qed.

Lemma say_steps (P : step -> Prop) (level text : string) :
  P (Do (Console level text)) -> Forall P (fst (say level text)).
Proof. intros H. repeat constructor. exact H. Qed.

Lemma reset_data_gated (h : Host) (root : Path) (cfg env_name flavor : string)
  (insp : option inspect) :
  Forall (removes_gated h root cfg env_name)
    (map Do (auto_run_reset_data h root cfg env_name flavor insp)).
Proof.
  apply List.Forall_forall. intros s Hs. apply in_map_iff in Hs as [e [<- He]].
  destruct e as [l t | q | q | a]; simpl; trivial.
  eapply run_touches_gated; [exact He | now left].
Qed.

Lemma port_stage_console (h : Host) (strict_env : option string)
  (port_overrides : list string) (env_name : string) (cp hp : Z)
  (effs : list effect) (st : port_step) :
  auto_run_port h strict_env port_overrides env_name cp hp = Ok (effs, st) ->
  Forall (fun e => exists l t, e = Console l t) effs.
Proof.
  unfold auto_run_port. destruct port_overrides; [| intros [= <- <-]; constructor].
  destruct (_is_port_free h hp) as [[|]|]; try discriminate.
  - intros [= <- <-]. constructor.
  - destruct (str_in _ yes_words).
    + intros [= <- <-]. repeat constructor; eauto.
    + destruct (_find_free_port h (hp + 1) 50) as [[p|]|]; try discriminate;
        intros [= <- <-]; repeat constructor; eauto.
Qed.

Lemma db_args_made (h : Host) (cfg env_name flavor : string)
  (env_overrides : list string) (data_host_dir : option string) :
  Forall (fun e => exists q, e = Mkdir q)
    (fst (db_args h cfg env_name flavor env_overrides data_host_dir)).
Proof.
  unfold db_args. destruct (String.eqb flavor "db-mariadb"); simpl; repeat constructor.
  eauto.
Qed.

Ltac flow_steps side :=
  repeat match goal with
  | |- Forall _ (fst (bind _ _)) => apply bind_steps; [| intros ? ?]
  | |- Forall _ (fst (say _ _)) => apply say_steps; side
  | |- Forall _ (fst (ret _)) => constructor
  | |- Forall _ (fst (go_on _)) => constructor
  | |- Forall _ (fst (run _ _)) => repeat constructor; side
  | |- Forall _ (fst (if ?c then _ else _)) => destruct c eqn:?
  | |- Forall _ (fst (let '(_, _) := ?x in _)) => destruct x eqn:?
  | |- Forall _ (fst (match ?x with _ => _ end)) => destruct x eqn:?
  | |- Forall _ (fst (_, _)) => cbn [fst]
  | |- Forall _ [_] => repeat constructor; side
  | |- Forall _ [] => constructor
  end.

(** X16.  Whatever its arguments and however it ends, auto_run removes no
    directory but one the gate allows. *)
Theorem auto_run_removes_only_gated (h : Host) (dk : Docker) (env : environ)
  (root : Path) (cfg env_name : string) (image_override name_override : option string)
  (port_overrides env_overrides : list string) (data_host_dir : option string)
  (detach force_pull skip_aws dry_run : bool) :
  Forall (removes_gated h root cfg env_name)
    (fst (auto_run h dk env root cfg env_name image_override name_override
            port_overrides env_overrides data_host_dir detach force_pull skip_aws
            dry_run)).
Proof.
  unfold auto_run, run_rest, run_container_name, run_wants_redeploy, run_replace, effects.
  flow_steps ltac:(exact I).
  all: try (apply reset_data_gated).
  all: try (match goal with
            | E : auto_run_port _ _ _ _ _ _ = Ok (?effs, _) |- Forall _ (map Do ?effs) =>
                apply port_stage_console in E; apply List.Forall_forall;
                intros s Hs; apply in_map_iff in Hs as [e [<- He]];
                rewrite List.Forall_forall in E; destruct (E e He) as [? [? ->]]; exact I
            end).
  all: match goal with
       | E : db_args _ _ _ _ _ _ = (?made, _) |- Forall _ (map Do ?made) =>
           pose proof (db_args_made h cfg env_name (_detect_flavor cfg) env_overrides
                         data_host_dir) as Hm;
           rewrite E in Hm; apply List.Forall_forall;
           intros s Hs; apply in_map_iff in Hs as [e [<- He]];
           rewrite List.Forall_forall in Hm; destruct (Hm e He) as [? ->]; exact I
       end.
Qed.

Lemma dry_of_bind {A : Type} (dk : Docker) (m : flow A) (f g : A -> flow unit) :
  (forall a, snd m = Go a -> dry_of dk (f a) (g a)) ->
  dry_of dk (bind m f) (bind m g).
Proof.
  destruct m as [evs [a | rc | e]]; simpl; intros H; try (now left).
  destruct (H a eq_refl) as [E | [pre [cmd [Er Ed]]]].
  - left. now rewrite E.
  - right. exists (evs ++ pre)%list, cmd. rewrite Er, Ed, <- !app_assoc. auto.
Qed.

(** X17.  A dry run of auto_run does everything the run does, the removal of
    the old container and of its data included, up to the docker run
    command, which it prints instead of running it. *)
Theorem auto_run_dry_run_skips_only_the_last_step (h : Host) (dk : Docker)
  (env : environ) (root : Path) (cfg env_name : string)
  (image_override name_override : option string)
  (port_overrides env_overrides : list string) (data_host_dir : option string)
  (detach force_pull skip_aws : bool) :
  dry_of dk
    (auto_run h dk env root cfg env_name image_override name_override
       port_overrides env_overrides data_host_dir detach force_pull skip_aws true)
    (auto_run h dk env root cfg env_name image_override name_override
       port_overrides env_overrides data_host_dir detach force_pull skip_aws false).
Proof.
  unfold auto_run.
  destruct (negb (Py.truthy env_name)); [now left |].
  destruct (negb (docker_found dk)); [now left |].
  apply dry_of_bind. intros _ _.
  apply dry_of_bind. intros cname _.
  apply dry_of_bind. intros wants _. unfold run_rest.
  apply dry_of_bind. intros _ _.
  destruct (negb (Py.otruthy _)); [now left |].
  apply dry_of_bind. intros [cp hp] _.
  apply dry_of_bind. intros host_port _.
  apply dry_of_bind. intros _ _.
  apply dry_of_bind. intros _ _.
  destruct (db_args _ _ _ _ _ _) as [made db].
  do 7 (apply dry_of_bind; intros _ _).
  right. exists [], (run_command detach cname
                       (port_args port_overrides host_port cp)
                       (env_args env_overrides env_name) db
                       (Py.or_str (Py.or_opt image_override
                          (_compose_image cfg (_detect_flavor cfg)
                             (Py.or_str (Config._kv_top cfg "name") (PathOps.name root))
                             (Py.or_str (Config._kv_top cfg "version") "0.0.0")
                             env_name)) "")).
  split; reflexivity.
Qed.

Lemma bind_go {A B : Type} (evs : list step) (a : A) (f : A -> flow B) :
  bind (evs, Go a) f = ((evs ++ fst (f a))%list, snd (f a)).
Proof. simpl. now destruct (f a). Qed.

Lemma map_do_no_ask (l : list effect) : Forall not_ask (map Do l).
Proof. induction l; constructor; [exact I | assumption]. Qed.

Lemma run_rest_no_ask (h : Host) (dk : Docker) (env : environ) (root : Path)
  (cfg env_name name version flavor cname : string)
  (insp_existing : option container) (wants_redeploy : bool)
  (image_override : option string)
  (port_overrides env_overrides : list string) (data_host_dir : option string)
  (detach force_pull skip_aws dry_run : bool) :
  Forall not_ask
    (fst (run_rest h dk env root cfg env_name name version flavor cname insp_existing
            wants_redeploy image_override port_overrides env_overrides data_host_dir
            detach force_pull skip_aws dry_run)).
Proof.
  unfold run_rest, run_replace, effects.
  flow_steps ltac:(exact I).
  all: apply map_do_no_ask.
Qed.

Lemma container_name_quiet (dk : Docker) (cfg flavor name env_name : string)
  (name_override : option string) :
  Forall (quiet (legacy_name name env_name))
    (fst (run_container_name dk cfg flavor name env_name name_override)).
Proof.
  unfold run_container_name, legacy_name.
  flow_steps ltac:(first [exact I | eexists; reflexivity]).
Qed.

Lemma quiet_not_ask (legacy : string) (l : list step) :
  Forall (quiet legacy) l -> Forall not_ask l.
Proof.
  intros H. eapply Forall_impl; [exact H |].
  intros [e | p | | i a f]; simpl; try tauto.
Qed.

Lemma no_ask_in (l : list step) (prompt : string) :
  Forall not_ask l -> ~ In (Ask prompt) l.
Proof. intros H Hin. rewrite List.Forall_forall in H. exact (H _ Hin). Qed.

(** X18.  When the user declines to redeploy a running container, auto_run
    stops with 0 right after the question: up to there it has printed
    messages and at most removed a container under the legacy name; it
    has not touched the running container, its image or its data. *)
Theorem auto_run_declined_stops_at_once (h : Host) (dk : Docker) (env : environ)
  (root : Path) (cfg env_name : string) (image_override name_override : option string)
  (port_overrides env_overrides : list string) (data_host_dir : option string)
  (detach force_pull skip_aws dry_run : bool) (prompt : string) :
  let out := auto_run h dk env root cfg env_name image_override name_override
               port_overrides env_overrides data_host_dir detach force_pull skip_aws
               dry_run in
  confirm dk = false ->
  In (Ask prompt) (fst out) ->
  snd out = Stop 0
  /\ exists pre,
       fst out = (pre ++ [Ask "Redeploy the container now?";
                          Do (Console "info" "OK. Leaving the running container as-is.")])%list
       /\ Forall (quiet (legacy_name
                           (Py.or_str (Config._kv_top cfg "name") (PathOps.name root))
                           env_name)) pre.
Proof.
  intros out Hc. subst out. unfold auto_run.
  destruct (negb (Py.truthy env_name)).
  { simpl. intuition discriminate. }
  destruct (negb (docker_found dk)).
  { simpl. intuition discriminate. }
  set (name := Py.or_str (Config._kv_top cfg "name") (PathOps.name root)).
  set (W := if negb (Py.truthy cfg) then _ else _).
  assert (HW : exists w, W = (w, Go tt) /\ Forall (quiet (legacy_name name env_name)) w).
  { unfold W. destruct (negb (Py.truthy cfg)); eexists; (split; [reflexivity |]);
      repeat constructor. }
  destruct HW as [w [-> Hw]]. rewrite bind_go. cbn [fst snd].
  pose proof (container_name_quiet dk cfg (_detect_flavor cfg) name env_name name_override)
    as Hn.
  destruct (run_container_name dk cfg (_detect_flavor cfg) name env_name name_override)
    as [n [cname | rc | e]]; cbn [fst] in Hn.
  2,3: (simpl; rewrite app_nil_r || idtac; intros Hin; exfalso;
        apply in_app_or in Hin as [Hin | Hin];
        eapply no_ask_in; try exact Hin; eapply quiet_not_ask; eassumption).
  rewrite bind_go. cbn [fst snd]. unfold run_wants_redeploy.
  destruct (inspect_first dk cname) as [c|] eqn:Ei.
  - destruct (is_running c) eqn:Er.
    + rewrite Hc. cbn. intros _. split; [reflexivity |].
      eexists (w ++ n ++ [_])%list. split.
      * rewrite <- !app_assoc. reflexivity.
      * apply Forall_app. split; [exact Hw |]. apply Forall_app. split; [exact Hn |].
        repeat constructor.
    + intros Hin. exfalso. revert Hin. apply no_ask_in.
      apply Forall_app. split; [eapply quiet_not_ask; exact Hw |].
      apply Forall_app. split; [eapply quiet_not_ask; exact Hn |].
      apply bind_steps; [flow_steps ltac:(exact I) | intros ? _; apply run_rest_no_ask].
  - intros Hin. exfalso. revert Hin. apply no_ask_in.
    apply Forall_app. split; [eapply quiet_not_ask; exact Hw |].
    apply Forall_app. split; [eapply quiet_not_ask; exact Hn |].
    apply bind_steps; [flow_steps ltac:(exact I) | intros ? _; apply run_rest_no_ask].
Qed.

(** At an input: a running container of an application, and a user who
    declines. *)
Lemma auto_run_declined_stops_at_once_witness :
  snd (auto_run Examples.host Samples.docker_declined ∅ Samples.app_root Samples.cfg_app
         "dev" None None [] [] None true false false false) = Stop 0
  /\ exists pre,
       fst (auto_run Examples.host Samples.docker_declined ∅ Samples.app_root
              Samples.cfg_app "dev" None None [] [] None true false false false)
       = (pre ++ [Ask "Redeploy the container now?";
                  Do (Console "info" "OK. Leaving the running container as-is.")])%list
       /\ Forall (quiet (legacy_name
                           (Py.or_str (Config._kv_top Samples.cfg_app "name")
                              (PathOps.name Samples.app_root))
                           "dev")) pre.
Proof.
  apply (auto_run_declined_stops_at_once Examples.host Samples.docker_declined ∅
           Samples.app_root Samples.cfg_app "dev" None None [] [] None true false false
           false "Redeploy the container now?").
  - reflexivity.
  - vm_compute. right. left. reflexivity.
Defined.

Lemma stop_actions_cases (cname : string) (insp : option inspect) (a : list string) :
  In a (stop_actions cname insp) ->
  a = ["docker"; "stop"; cname] \/ a = ["docker"; "rm"; cname].
Proof.
  unfold stop_actions. destruct insp as [o|]; [| intros []].
  destruct (Running o); simpl; intuition.
Qed.

Lemma stop_host_dir_some (h : Host) (cfg env_name flavor : string)
  (data_cont : option string) (insp : option inspect) (keep_data : bool) (p : Path) :
  stop_host_dir h cfg env_name flavor data_cont insp keep_data = Some p ->
  flavor = "db-mariadb" /\ keep_data = false.
Proof.
  unfold stop_host_dir.
  destruct (String.eqb flavor "db-mariadb") eqn:Ef; [| discriminate].
  destruct keep_data; [discriminate |]. intros _.
  apply String.eqb_eq in Ef. auto.
Qed.

(** X19.  Whatever the service, the container and the flags, auto_stop only
    prints, stops or removes the one container it names, and removes a
    directory only for a database without --keep-data and only when the
    gate allows the path; it creates nothing, and with --dry-run it
    prints only. *)
Theorem auto_stop_effects_are_bounded (h : Host) (dk : Docker) (root : Path)
  (cfg env_name : string) (name_override : option string) (keep_data dry_run : bool) :
  Forall (stop_effect_ok h root cfg env_name name_override keep_data dry_run)
    (fst (auto_stop h dk root cfg env_name name_override keep_data dry_run)).
Proof.
  unfold auto_stop.
  destruct (negb (Py.truthy env_name)); [repeat constructor |].
  destruct (negb (docker_found dk)); [repeat constructor |].
  fold (stop_container_name root cfg env_name name_override).
  set (cname := stop_container_name root cfg env_name name_override).
  unfold stop_container_name in cname.
  set (insp := inspect_first dk _).
  set (data_cont := if String.eqb _ _ then Some _ else None).
  unfold auto_stop_tail.
  pose proof (stop_actions_cases cname (option_map c_inspect insp)) as Ha.
  pose proof (stop_host_dir_some h cfg env_name (_detect_flavor cfg) data_cont
                (option_map c_inspect insp) keep_data) as Hd.
  revert Ha Hd.
  generalize (stop_actions cname (option_map c_inspect insp)) as actions.
  generalize (stop_host_dir h cfg env_name (_detect_flavor cfg) data_cont
                (option_map c_inspect insp) keep_data) as host_dir.
  intros host_dir actions Ha Hd.
  assert (Hran : dry_run = false ->
                 Forall (stop_effect_ok h root cfg env_name name_override keep_data dry_run)
                   (map Run actions)).
  { intros Hdry. apply List.Forall_forall. intros e He.
    apply in_map_iff in He as [a [<- Hin]]. split; [exact Hdry |]. exact (Ha a Hin). }
  assert (Hhead : forall e1 e2 e3 e4 t1 t2 t3 t4 e5 t5 tail,
    Forall (stop_effect_ok h root cfg env_name name_override keep_data dry_run) tail ->
    Forall (stop_effect_ok h root cfg env_name name_override keep_data dry_run)
      ([Console e1 t1; Console e2 t2; Console e3 t3; Console e4 t4; Console e5 t5]
         ++ tail)).
  { intros. repeat (constructor; [exact I |]). assumption. }
  assert (Hfifth : exists l t,
    match insp with
    | None => Console "warn" ("Container '" ++ cname ++ "' not found.")
    | Some c => Console "info" ("Current state: " ++ Py.or_str (c_status c) "unknown")
    end = Console l t) by (destruct insp; eauto).
  destruct Hfifth as [l5 [t5 ->]].
  destruct dry_run.
  - cbn [fst]. apply Hhead.
    apply Forall_app. split.
    + constructor; [exact I |]. apply List.Forall_forall. intros e He.
      apply in_map_iff in He as [a [<- _]]. exact I.
    + destruct host_dir; repeat constructor.
  - specialize (Hran eq_refl).
    destruct host_dir as [p|]; [| cbn [fst]; apply Hhead; exact Hran].
    destruct (Hd p eq_refl) as [Hf Hk].
    destruct (path_exists h (resolve h p));
      [| cbn [fst]; apply Hhead; apply Forall_app; split; [exact Hran | repeat constructor]].
    destruct (_allowed_delete_host_dir h (resolve h p) root cfg env_name) eqn:Eg;
      [| cbn [fst]; apply Hhead; apply Forall_app; split; [exact Hran | repeat constructor]].
    destruct (rmtree_ok h (resolve h p)); cbn [fst]; apply Hhead; apply Forall_app;
      (split; [exact Hran |]); (constructor; [simpl; auto | repeat constructor]).
Qed.

Lemma startswith_l_app (p s : list ascii) :
  Py.startswith_l p s = true -> exists v, s = (p ++ v)%list.
Proof.
  revert s. induction p as [|a p IH]; intros s H; [now exists s |].
  destruct s as [|b s]; [discriminate |]. simpl in H.
  apply andb_true_iff in H as [Hab Hp]. apply Ascii.eqb_eq in Hab. subst b.
  destruct (IH s Hp) as [v ->]. now exists v.
Qed.

Lemma startswith_app (s p : string) :
  Py.startswith s p = true -> exists v, s = p ++ v.
Proof.
  unfold Py.startswith. intros H. apply startswith_l_app in H as [v E].
  exists (Py.str v). rewrite <- (str_chars s), E.
  rewrite <- (str_chars (p ++ Py.str v)). f_equal. now rewrite chars_app, chars_str.
Qed.

Lemma env_args_app_env (env_overrides : list string) (env_name : string) :
  exists v pre post,
    env_args env_overrides env_name
    = (pre ++ ["-e"; ("APP_ENV=" ++ v)%string] ++ post)%list
    /\ (v = env_name \/ In ("APP_ENV=" ++ v)%string env_overrides).
Proof.
  unfold env_args.
  destruct (existsb (fun s => Py.startswith s "APP_ENV=") env_overrides) eqn:E.
  - apply existsb_exists in E as [s [Hin Hs]].
    apply startswith_app in Hs as [v ->].
    apply in_split in Hin as Hsplit. destruct Hsplit as [l1 [l2 ->]].
    exists v,
      (flat_map (fun e => if Aws.has_char "=" e then ["-e"; e] else []) l1),
      (flat_map (fun e => if Aws.has_char "=" e then ["-e"; e] else []) l2).
    split; [| now right].
    rewrite flat_map_app. cbn [flat_map].
    assert (Hc : Aws.has_char "=" ("APP_ENV=" ++ v) = true) by reflexivity.
    rewrite Hc, app_nil_r. reflexivity.
  - exists env_name. eexists. exists []. split; [reflexivity | now left].
Qed.

Lemma rm_cmd_not_run (b : bool) (n : string) (args : list string) :
  rm_cmd b n <> "docker" :: "run" :: args.
Proof. unfold rm_cmd. destruct b; discriminate. Qed.

Lemma run_command_app_env (detach : bool) (cname : string) (ports db : list string)
  (image : string) (env_overrides : list string) (env_name : string) :
  sets_app_env env_overrides env_name
    (Do (Run (run_command detach cname ports (env_args env_overrides env_name) db image))).
Proof.
  intros args E. unfold run_command in E. cbn [app] in E. injection E as <-.
  destruct (env_args_app_env env_overrides env_name) as [v [pre [post [-> Hv]]]].
  exists v, ((if detach then ["-d"] else []) ++ ["--name"; cname] ++ ports ++ pre)%list,
    (post ++ db ++ [image])%list.
  split; [| exact Hv]. rewrite <- !app_assoc. reflexivity.
Qed.

(** X20.  Every docker run command that auto_run starts gives the container
    an APP_ENV setting: the one an override of the caller carries, or
    else the name of the environment. *)
Theorem auto_run_always_sets_app_env (h : Host) (dk : Docker) (env : environ)
  (root : Path) (cfg env_name : string) (image_override name_override : option string)
  (port_overrides env_overrides : list string) (data_host_dir : option string)
  (detach force_pull skip_aws dry_run : bool) :
  Forall (sets_app_env env_overrides env_name)
    (fst (auto_run h dk env root cfg env_name image_override name_override
            port_overrides env_overrides data_host_dir detach force_pull skip_aws
            dry_run)).
Proof.
  unfold auto_run, run_rest, run_container_name, run_wants_redeploy, run_replace, effects.
  flow_steps ltac:(first [ exact I
                         | intros ? E; exfalso; exact (rm_cmd_not_run _ _ _ E)
                         | apply run_command_app_env ]).
  all: apply List.Forall_forall; intros s Hs; apply in_map_iff in Hs as [e [<- He]].
  all: try (match goal with
            | E : auto_run_port _ _ _ _ _ _ = Ok (?effs, _), He : In _ ?effs |- _ =>
                apply port_stage_console in E;
                rewrite List.Forall_forall in E; destruct (E _ He) as [? [? ->]]; exact I
            end).
  all: try (match goal with
            | E : db_args _ _ _ _ _ _ = (?made, _), He : In _ ?made |- _ =>
                pose proof (db_args_made h cfg env_name (_detect_flavor cfg) env_overrides
                              data_host_dir) as Hm;
                rewrite E in Hm;
                rewrite List.Forall_forall in Hm; destruct (Hm _ He) as [? ->]; exact I
            end).
  all: pose proof (reset_data_gated h root cfg env_name (_detect_flavor cfg)) as Hr.
  all: match goal with
       | He : In ?e (auto_run_reset_data _ _ _ _ _ ?i) |- _ =>
           destruct e; try exact I; exfalso;
           unfold auto_run_reset_data in He;
           repeat match type of He with
                  | In _ (if ?c then _ else _) => destruct c
                  | In _ (_ ++ _)%list => apply in_app_or in He as [He | He]
                  | In _ (_ :: _) => destruct He as [He | He]; [discriminate |]
                  | In _ [] => destruct He
                  end
       end.
Qed.

(** ** Ports *)

Lemma isdigit_char_plain (c : ascii) :
  PyInt.isdigit_char c = true ->
  PyInt.int_space c = false /\ Ascii.eqb c "-" = false /\ Ascii.eqb c "+" = false.
Proof.
  destruct c as [[] [] [] [] [] [] [] []]; vm_compute; intros H;
    first [discriminate H | repeat split].
Qed.

Lemma digit_val_nonneg (c : ascii) : Py.is_digit c = true -> 0 <= PyInt.digit_val c.
Proof.
  destruct c as [[] [] [] [] [] [] [] []]; vm_compute; intros H;
    first [discriminate H | discriminate].
Qed.

Lemma digits_result (l : list ascii) :
  forall acc n, 0 <= acc ->
  match PyInt.digits l acc n with
  | Some (v, m) => 0 <= v /\ (m <= n + length l)%nat
  | None => forallb Py.is_digit l = false
  end.
Proof.
  induction l as [l IH] using (induction_ltof1 _ (@length ascii)). unfold ltof in IH.
  intros acc n Hacc. destruct l as [|c l]; [simpl; split; [exact Hacc | lia] |].
  cbn [PyInt.digits forallb]. destruct (Py.is_digit c) eqn:Ec.
  - pose proof (digit_val_nonneg c Ec) as Hd.
    specialize (IH l ltac:(simpl; lia) (10 * acc + PyInt.digit_val c) (S n) ltac:(lia)).
    destruct (PyInt.digits l _ _) as [[v m]|]; [| exact IH].
    destruct IH as [Hv Hm]. split; [exact Hv | simpl; lia].
  - destruct (Ascii.eqb c "_"); [| reflexivity].
    destruct l as [|d l]; [reflexivity |].
    destruct (Py.is_digit d) eqn:Ed; [| reflexivity].
    pose proof (digit_val_nonneg d Ed) as Hd.
    specialize (IH l ltac:(simpl; lia) (10 * acc + PyInt.digit_val d) (S n) ltac:(lia)).
    destruct (PyInt.digits l _ _) as [[v m]|]; [| reflexivity].
    destruct IH as [Hv Hm]. split; [exact Hv | simpl; lia].
Qed.

(** On a text that passes [isdigit], [int] gives a number that is not
    negative, or it refuses: then the text holds a character that is
    no ASCII digit, or more than 4300 characters. *)
Lemma int_isdigit (s : string) :
  PyInt.isdigit s = true ->
  match PyInt.int s with
  | Some v => 0 <= v
  | None => forallb Py.is_digit (Py.chars s) = false
            \/ (4300 < length (Py.chars s))%nat
  end.
Proof.
  unfold PyInt.isdigit, PyInt.int.
  destruct (Py.chars s) as [|c r] eqn:El; [discriminate |]. intros Hall.
  assert (Hl : Py.lstrip_by PyInt.int_space (c :: r) = c :: r).
  { apply lstrip_by_fix. simpl in Hall. apply andb_true_iff in Hall as [Hc _].
    apply isdigit_char_plain in Hc as [Hc _]. simpl. now rewrite Hc. }
  rewrite Hl.
  assert (Hr : Py.rstrip_by PyInt.int_space (c :: r) = c :: r).
  { unfold Py.rstrip_by. rewrite <- (rev_involutive (c :: r)) at 2. f_equal.
    apply lstrip_by_fix.
    destruct (rev (c :: r)) as [|x t] eqn:Er; [exact I |].
    assert (Hin : In x (c :: r)) by (apply in_rev; rewrite Er; now left).
    rewrite forallb_forall in Hall. apply Hall in Hin.
    apply isdigit_char_plain in Hin as [Hx _]. simpl. now rewrite Hx. }
  rewrite Hr.
  simpl in Hall. apply andb_true_iff in Hall as [Hc Hrest].
  destruct (isdigit_char_plain c Hc) as [_ [Hm Hp]]. rewrite Hm, Hp.
  destruct (Py.is_digit c) eqn:Ec; [| left; simpl; now rewrite Ec].
  pose proof (digits_result r (PyInt.digit_val c) 1 (digit_val_nonneg c Ec)) as Hd.
  destruct (PyInt.digits r (PyInt.digit_val c) 1) as [[v n]|].
  - destruct Hd as [Hv Hn]. destruct (n <=? 4300)%nat eqn:En; [exact Hv |].
    right. apply Nat.leb_gt in En. simpl. lia.
  - left. simpl. now rewrite Ec.
Qed.

Lemma digits_or_result (p : option string) (dflt : Z) :
  0 <= dflt ->
  match digits_or p dflt with
  | Ok v => 0 <= v
  | Raise _ =>
      exists s, p = Some s /\ PyInt.isdigit s = true
                /\ (forallb Py.is_digit (Py.chars s) = false
                    \/ (4300 < length (Py.chars s))%nat)
  end.
Proof.
  intros Hd. unfold digits_or.
  destruct (Py.otruthy p && PyInt.isdigit (Py.or_str p "")) eqn:E; [| exact Hd].
  apply andb_true_iff in E as [Ht Hi].
  destruct p as [s|]; [| discriminate]. simpl in Ht.
  assert (Es : Py.or_str (Some s) "" = s) by (simpl; now rewrite Ht).
  rewrite Es in *. pose proof (int_isdigit s Hi) as H.
  destruct (PyInt.int s); [exact H |]. exists s. auto.
Qed.

(** X21.  _guess_ports gives a container port that is not negative, and 3306
    for a database.  It raises only when the port of the config that it
    converts (service.port for a database, default.APP_PORT otherwise)
    passes isdigit and is yet refused by int: the text holds a
    character that is no ASCII digit (a superscript digit), or more
    than 4300 characters. *)
Theorem guess_ports_outcomes (text flavor env_name : string) :
  match _guess_ports text flavor env_name with
  | Ok (container_port, host_port) =>
      0 <= container_port /\ (flavor = "db-mariadb" -> container_port = 3306)
  | Raise _ =>
      exists p,
        (if String.eqb flavor "db-mariadb"
         then Config._kv_from_block (Config._extract_block text "service") "port"
         else Config._kv_from_block (Config._extract_block text "default") "APP_PORT") = Some p
        /\ PyInt.isdigit p = true
        /\ (forallb Py.is_digit (Py.chars p) = false \/ (4300 < length (Py.chars p))%nat)
  end.
Proof.
  unfold _guess_ports. destruct (String.eqb flavor "db-mariadb") eqn:Ef.
  - destruct (negb (or_int (_env_port text env_name) 0 =? 0)); [split; [lia | reflexivity] |].
    pose proof (digits_or_result (Config._kv_from_block (Config._extract_block text "service") "port")
                  3306 ltac:(lia)) as H.
    destruct (digits_or _ 3306); [split; [lia | reflexivity] | exact H].
  - pose proof (digits_or_result (Config._kv_from_block (Config._extract_block text "default") "APP_PORT")
                  8000 ltac:(lia)) as H.
    destruct (digits_or _ 8000) as [cport|]; [| exact H].
    split; [exact H |]. intros ->. discriminate.
Qed.

(** X22.  For a database service the --name option has no effect: auto_run
    and auto_stop work on the container named by the config (or after
    the service) whatever name the caller passes. *)
Theorem database_ignores_name_override (h : Host) (dk : Docker) (env : environ)
  (root : Path) (cfg env_name : string) (image_override n1 n2 : option string)
  (port_overrides env_overrides : list string) (data_host_dir : option string)
  (detach force_pull skip_aws keep_data dry_run : bool) :
  _detect_flavor cfg = "db-mariadb" ->
  auto_run h dk env root cfg env_name image_override n1 port_overrides env_overrides
    data_host_dir detach force_pull skip_aws dry_run
  = auto_run h dk env root cfg env_name image_override n2 port_overrides env_overrides
      data_host_dir detach force_pull skip_aws dry_run
  /\ auto_stop h dk root cfg env_name n1 keep_data dry_run
     = auto_stop h dk root cfg env_name n2 keep_data dry_run.
Proof.
  intros Hf. unfold auto_run, auto_stop, run_container_name. rewrite Hf.
  change (String.eqb "db-mariadb" "db-mariadb") with true. cbv iota.
  split; reflexivity.
Qed.

(** At an input: a database service, run and stopped under another
    name. *)
Lemma database_ignores_name_override_witness :
  auto_run Examples.host Samples.docker_declined ∅ Examples.service_root
    Examples.cfg_data_dir_elsewhere "local" None (Some "other") [] [] None true false
    false false
  = auto_run Examples.host Samples.docker_declined ∅ Examples.service_root
      Examples.cfg_data_dir_elsewhere "local" None None [] [] None true false false false
  /\ auto_stop Examples.host Samples.docker_declined Examples.service_root
       Examples.cfg_data_dir_elsewhere "local" (Some "other") false false
     = auto_stop Examples.host Samples.docker_declined Examples.service_root
         Examples.cfg_data_dir_elsewhere "local" None false false.
Proof.
  apply (database_ignores_name_override Examples.host Samples.docker_declined ∅
           Examples.service_root Examples.cfg_data_dir_elsewhere "local" None
           (Some "other") None [] [] None true false false false false).
  vm_compute. reflexivity.
Defined.

End RunnerFlows.

(* ===================================================================== *)
(** * helm_release.py: the pull check, from the loop's side               *)
(* ===================================================================== *)

Section PullChecks.
Import HelmRelease PullCheck.

Lemma poll_loop_events (answers : list observation) :
  ~ In DeletePod (fst (poll_loop answers))
  /\ (polls (fst (poll_loop answers)) <= length answers)%nat.
Proof.
  induction answers as [|o later [IH1 IH2]]; [simpl; split; [tauto | unfold polls; simpl; lia] |].
  cbn [poll_loop].
  assert (Hk : ~ In DeletePod
                 (fst (let '(evs, e) := poll_loop later in (Poll :: Sleep :: evs, e)))
               /\ (polls (fst (let '(evs, e) := poll_loop later in (Poll :: Sleep :: evs, e)))
                   <= length (o :: later))%nat).
  { destruct (poll_loop later) as [evs e]. cbn [fst] in *. split.
    - intros [E | [E | E]]; [discriminate | discriminate | tauto].
    - unfold polls in *. simpl. lia. }
  destruct o as [[|st sts]|]; try exact Hk.
  destruct (Py.truthy _).
  - split; [intros [E | [E | []]]; discriminate | unfold polls; simpl; lia].
  - destruct (RunLocal.str_in _ _); [| exact Hk].
    split; [intros [E | []]; discriminate | unfold polls; simpl; lia].
Qed.

Lemma poll_loop_pulled (answers : list observation) :
  snd (poll_loop answers) = Pulled ->
  exists pre st others later,
    answers = (pre ++ Some (st :: others) :: later)%list
    /\ forallb undecided pre = true
    /\ Py.or_str (imageID st) "" <> "".
Proof.
  induction answers as [|o later IH]; [discriminate |].
  cbn [poll_loop].
  assert (Hk : snd (let '(evs, e) := poll_loop later in (Poll :: Sleep :: evs, e)) = Pulled ->
               undecided o = true ->
               exists pre st others later',
                 o :: later = (pre ++ Some (st :: others) :: later')%list
                 /\ forallb undecided pre = true
                 /\ Py.or_str (imageID st) "" <> "").
  { destruct (poll_loop later) as [evs e]. cbn [snd] in *. intros E Ho.
    destruct (IH E) as [pre [st [others [later' [-> [Hpre Hid]]]]]].
    exists (o :: pre), st, others, later'. simpl. rewrite Ho, Hpre. auto. }
  destruct o as [[|st sts]|]; try (intros E; now apply Hk).
  destruct (Py.truthy (Py.or_str (imageID st) "")) eqn:Et.
  - intros _. exists [], st, sts, later. simpl. repeat split.
    intros E. rewrite E in Et. discriminate.
  - destruct (RunLocal.str_in _ _) eqn:Er; [discriminate |].
    intros E. apply Hk; [exact E |]. unfold undecided. now rewrite Et, Er.
Qed.

(** X23.  However the pull check ends once kubectl is there (the pod could
    not be created, the image was pulled, the pull failed, the time ran
    out), its last step deletes the probe pod, and it does so once; it
    polls at most once per answer.  Without kubectl it touches
    nothing. *)
Theorem pull_check_deletes_its_pod (have_kubectl : bool) (apply_rc : Z)
  (answers : list observation) :
  let out := _verify_namespace_can_pull_image have_kubectl apply_rc answers in
  if have_kubectl then
    exists evs, snd out = (evs ++ [DeletePod])%list
                /\ ~ In DeletePod evs
                /\ (polls evs <= length answers)%nat
  else out = (127, [Console "error" "kubectl is required for image pull preflight."]).
Proof.
  cbv zeta. unfold _verify_namespace_can_pull_image.
  destruct have_kubectl; [| reflexivity]. cbn [negb].
  destruct (negb (apply_rc =? 0)).
  - eexists [_]. cbn [snd app]. split; [reflexivity |].
    split; [intros [E | []]; discriminate | unfold polls; simpl; lia].
  - destruct (poll_loop_events answers) as [Hd Hp].
    destruct (poll_loop answers) as [evs e]. cbn [fst] in Hd, Hp.
    destruct e as [| reason message |].
    + exists evs. cbn [snd]. auto.
    + eexists (evs ++ [_])%list. cbn [snd]. split; [now rewrite <- app_assoc |].
      split.
      * intros Hin. apply in_app_or in Hin as [Hin | [E | []]]; [tauto | discriminate].
      * unfold polls in *. rewrite List.filter_app, length_app. simpl. lia.
    + eexists (evs ++ [_; _])%list. cbn [snd]. split; [now rewrite <- app_assoc |].
      split.
      * intros Hin. apply in_app_or in Hin as [Hin | [E | [E | []]]];
          [tauto | discriminate | discriminate].
      * unfold polls in *. rewrite List.filter_app, length_app. simpl. lia.
Qed.

Lemma pull_check_zero (have_kubectl : bool) (apply_rc : Z) (answers : list observation) :
  fst (_verify_namespace_can_pull_image have_kubectl apply_rc answers) = 0 ->
  have_kubectl = true /\ apply_rc = 0 /\ Release.pulled answers.
Proof.
  unfold _verify_namespace_can_pull_image.
  destruct have_kubectl; [| discriminate]. cbn [negb].
  destruct (apply_rc =? 0) eqn:Ea; cbn [negb].
  2:{ cbn [fst]. intros E. apply Z.eqb_neq in Ea. contradiction. }
  apply Z.eqb_eq in Ea.
  pose proof (poll_loop_pulled answers) as Hp.
  destruct (poll_loop answers) as [evs e]. cbn [snd] in Hp.
  destruct e; cbn [fst]; try discriminate.
  intros _. unfold Release.pulled. auto.
Qed.

(** X24.  The pull check returns 0 exactly when kubectl is there, the probe
    pod was created, and some answer, after answers that decided
    nothing, carried an image digest in its first container status. *)
Theorem pull_check_succeeds_iff_digest (have_kubectl : bool) (apply_rc : Z)
  (answers : list observation) :
  fst (_verify_namespace_can_pull_image have_kubectl apply_rc answers) = 0
  <-> have_kubectl = true /\ apply_rc = 0 /\ Release.pulled answers.
Proof.
  split; [apply pull_check_zero |].
  intros [-> [-> [pre [st [others [later [-> [Hpre Hid]]]]]]]].
  unfold _verify_namespace_can_pull_image. cbn [negb Z.eqb].
  rewrite (poll_loop_undecided pre _ Hpre). cbn [poll_loop].
  apply truthy_true_iff in Hid. rewrite Hid. reflexivity.
Qed.

End PullChecks.

(* ===================================================================== *)
(** * helm_release.py: the preflight and the release                      *)
(* ===================================================================== *)

Section Releases.
Import HelmRelease Aws Release.

Lemma pull_check_rc (k : Cluster) (ns image release_name : string)
  (secret : option string) :
  snd (pull_check k ns image release_name secret) = 0 ->
  have_kubectl k = true /\ pulled (answers k).
Proof.
  unfold pull_check. intros H.
  pose proof (pull_check_zero (have_kubectl k) (pod_apply_rc k) (answers k)) as Hz.
  destruct (_verify_namespace_can_pull_image _ _ _) as [rc evs].
  cbn [fst snd] in *. destruct (Hz H) as [Hk [_ Hp]]. auto.
Qed.

Lemma pull_check_steps (k : Cluster) (ns image release_name : string)
  (secret : option string) :
  exists evs, fst (pull_check k ns image release_name secret)
              = [PullCheck ns image release_name secret evs].
Proof.
  unfold pull_check. destruct (_verify_namespace_can_pull_image _ _ _) as [rc evs].
  now exists evs.
Qed.

(** X25.  For an image of an ECR registry, the preflight returns 0 only when
    kubectl is there and the probe pod of the pull check reported an
    image digest, that is when the cluster has pulled the image. *)
Theorem preflight_passes_only_after_pull (k : Cluster)
  (namespace image_repo tag release_name : string) :
  snd (snd (_preflight_ecr_for_k8s_pull k namespace image_repo tag release_name)) = 0 ->
  parse_ecr_image_ref (image_repo ++ ":" ++ tag) = None
  \/ (have_kubectl k = true /\ pulled (answers k)).
Proof.
  unfold _preflight_ecr_for_k8s_pull.
  destruct (parse_ecr_image_ref (image_repo ++ ":" ++ tag)) as [parts|]; [| now left].
  intros H. right. revert H.
  destruct (ref_private parts).
  - destruct (negb (Py.truthy (ref_region parts))); [discriminate |].
    destruct (negb (sts_rc k (ref_region parts) =? 0)) eqn:Es.
    { cbn [snd]. intros E. rewrite E in Es. discriminate. }
    destruct (login k (ref_region parts)) as [rc password].
    destruct (negb (rc =? 0) || negb (Py.truthy password)) eqn:El.
    { cbn [snd]. destruct (rc =? 0) eqn:Er; [discriminate |].
      intros E. rewrite E in Er. discriminate. }
    destruct (_ensure_ecr_pull_secret k namespace _ _ password) as [sec rc2].
    destruct (negb (rc2 =? 0)) eqn:E2.
    { cbn [snd]. intros E. rewrite E in E2. discriminate. }
    pose proof (pull_check_rc k namespace (image_repo ++ ":" ++ tag) release_name
                  (Some ("ecr-pull-" ++ release_name))) as Hc.
    destruct (pull_check k namespace _ release_name _) as [chk rc3].
    cbn [snd] in *. destruct (negb (rc3 =? 0)) eqn:E3; cbn [snd].
    + intros E. rewrite E in E3. discriminate.
    + intros _. apply Hc. apply negb_false_iff, Z.eqb_eq in E3. exact E3.
  - pose proof (pull_check_rc k namespace (image_repo ++ ":" ++ tag) release_name None)
      as Hc.
    destruct (pull_check k namespace _ release_name None) as [chk rc3].
    cbn [snd] in *. exact Hc.
Qed.

(** At an input: an image of a private registry, pulled at the second
    answer of the probe pod. *)
Lemma preflight_passes_only_after_pull_witness :
  parse_ecr_image_ref ((Samples.registry_host ++ "/billing") ++ ":" ++ "1.2.0") = None
  \/ (have_kubectl Samples.cluster = true /\ pulled (answers Samples.cluster)).
Proof.
  apply (preflight_passes_only_after_pull Samples.cluster "dev"
           (Samples.registry_host ++ "/billing") "1.2.0" "billing").
  vm_compute. reflexivity.
Defined.

(** X26.  The preflight asks for the AWS identity, fetches a registry
    password or writes a pull secret only for an image of a private
    ECR registry; and it hands helm an imagePullSecrets setting only
    then, and only when it returns 0. *)
Theorem preflight_uses_credentials_for_private_only (k : Cluster)
  (namespace image_repo tag release_name : string) :
  let out := _preflight_ecr_for_k8s_pull k namespace image_repo tag release_name in
  let private :=
    exists parts, parse_ecr_image_ref (image_repo ++ ":" ++ tag) = Some parts
                  /\ ref_private parts = true in
  Forall (fun a => uses_credentials a = true -> private) (fst out)
  /\ (fst (snd out) = []
      \/ (private /\ snd (snd out) = 0
          /\ fst (snd out) = ["--set"; "imagePullSecrets[0]=ecr-pull-" ++ release_name])).
Proof.
  cbv zeta. unfold _preflight_ecr_for_k8s_pull.
  destruct (parse_ecr_image_ref (image_repo ++ ":" ++ tag)) as [parts|].
  2:{ split; [repeat constructor; discriminate | now left]. }
  destruct (ref_private parts) eqn:Ep.
  - assert (Hpriv : exists parts0, Some parts = Some parts0 /\ ref_private parts0 = true)
      by (exists parts; auto).
    assert (Hall : forall l : list action,
              Forall (fun a => uses_credentials a = true ->
                        exists parts0, Some parts = Some parts0
                                       /\ ref_private parts0 = true) l).
    { intros l. apply List.Forall_forall. intros a _ _. exact Hpriv. }
    destruct (negb (Py.truthy (ref_region parts))); [split; [apply Hall | now left] |].
    destruct (negb (sts_rc k (ref_region parts) =? 0)); [split; [apply Hall | now left] |].
    destruct (login k (ref_region parts)) as [rc password].
    destruct (negb (rc =? 0) || negb (Py.truthy password));
      [split; [apply Hall | now left] |].
    destruct (_ensure_ecr_pull_secret k namespace _ _ password) as [sec rc2].
    destruct (negb (rc2 =? 0)); [split; [apply Hall | now left] |].
    destruct (pull_check k namespace _ release_name _) as [chk rc3].
    split; [apply Hall |]. cbn [fst snd].
    destruct (negb (rc3 =? 0)); [now left |]. right. auto.
  - pose proof (pull_check_steps k namespace (image_repo ++ ":" ++ tag) release_name None)
      as [evs Hc].
    destruct (pull_check k namespace _ release_name None) as [chk rc3].
    cbn [fst snd] in *. subst chk. split; [| now left].
    destruct (Py.truthy (ref_region parts)); repeat constructor; discriminate.
Qed.

Ltac each_action :=
  cbn [fst];
  repeat match goal with
  | |- Forall _ (_ ++ _)%list => apply Forall_app; split
  | |- Forall _ (_ :: _) => constructor; [reflexivity |]
  | |- Forall _ [] => constructor
  | |- Forall _ (if ?b then _ else _) => destruct b
  | |- Forall _ _ => assumption
  end.

Lemma preflight_no_helm (k : Cluster) (namespace image_repo tag release_name : string) :
  Forall (fun a => is_helm a = false)
    (fst (_preflight_ecr_for_k8s_pull k namespace image_repo tag release_name)).
Proof.
  unfold _preflight_ecr_for_k8s_pull.
  destruct (parse_ecr_image_ref (image_repo ++ ":" ++ tag)) as [parts|];
    [| repeat constructor].
  destruct (ref_private parts).
  - destruct (negb (Py.truthy (ref_region parts))); [each_action |].
    destruct (negb (sts_rc k (ref_region parts) =? 0)); [each_action |].
    destruct (login k (ref_region parts)) as [rc password].
    destruct (negb (rc =? 0) || negb (Py.truthy password)); [each_action |].
    assert (Hsec : Forall (fun a => is_helm a = false)
                     (fst (_ensure_ecr_pull_secret k namespace ("ecr-pull-" ++ release_name)
                             (ref_host parts) password))).
    { unfold _ensure_ecr_pull_secret. destruct (negb (have_kubectl k)); repeat constructor. }
    destruct (_ensure_ecr_pull_secret k namespace _ _ password) as [sec rc2].
    cbn [fst] in Hsec.
    destruct (negb (rc2 =? 0)); [each_action |].
    pose proof (pull_check_steps k namespace (image_repo ++ ":" ++ tag) release_name
                  (Some ("ecr-pull-" ++ release_name))) as [evs Hc].
    destruct (pull_check k namespace _ release_name _) as [chk rc3].
    cbn [fst] in *. subst chk. unfold _adopt_for_helm. each_action.
  - pose proof (pull_check_steps k namespace (image_repo ++ ":" ++ tag) release_name None)
      as [evs Hc].
    destruct (pull_check k namespace _ release_name None) as [chk rc3].
    cbn [fst] in *. subst chk. each_action.
Qed.

(** X27.  release runs helm at most once, as its last step, and returns
    helm's exit code then; and it runs helm only when the preflight
    passed: for an image of an ECR registry, only after the cluster
    has pulled the image. *)
Theorem release_runs_helm_only_after_pull (k : Cluster) (env : environ)
  (app_root : Path) (cfg : option string) (env_name : string)
  (cmd : list string) (cwd : string) :
  let out := release k env app_root cfg env_name in
  In (Helm cmd cwd) (fst out) ->
  (exists pre, fst out = (pre ++ [Helm cmd cwd])%list
               /\ Forall (fun a => is_helm a = false) pre)
  /\ snd out = helm_rc k cmd
  /\ exists image_repo,
       release_image_repo env (Py.or_str cfg "")
         (fst (_name_version (Py.or_str cfg "") app_root)) = Some image_repo
       /\ (parse_ecr_image_ref
             (image_repo ++ ":" ++ snd (_name_version (Py.or_str cfg "") app_root)) = None
           \/ (have_kubectl k = true /\ pulled (answers k))).
Proof.
  cbv zeta. unfold release.
  destruct (negb (Py.truthy env_name)); [intros [E | []]; discriminate |].
  destruct (negb (have_helm k)); [intros [E | []]; discriminate |].
  destruct (negb (Py.otruthy cfg)); [intros [E | []]; discriminate |].
  destruct (negb (helm_dir_is_dir k)); [intros [E | [E | []]]; discriminate |].
  destruct (_name_version (Py.or_str cfg "") app_root) as [name ver]. cbn [fst snd].
  destruct (release_image_repo env (Py.or_str cfg "") name) as [image_repo|];
    [| intros [E | [E | []]]; discriminate].
  assert (Hns : Forall (fun a => is_helm a = false) (fst (_ensure_namespace k env_name))).
  { unfold _ensure_namespace. destruct (negb (have_kubectl k)); repeat constructor. }
  destruct (_ensure_namespace k env_name) as [ns_steps ns_rc]. cbn [fst] in Hns.
  assert (Hno : forall l, Forall (fun a => is_helm a = false) l -> ~ In (Helm cmd cwd) l).
  { intros l Hl Hin. rewrite List.Forall_forall in Hl. specialize (Hl _ Hin). discriminate. }
  destruct (negb (ns_rc =? 0)); [cbn [fst]; intros Hin; exfalso; exact (Hno _ Hns Hin) |].
  set (secret_steps := (_apply_opaque_secret k env_name _ _ ++ _adopt_for_helm k _ _ _ _)%list).
  assert (Hsec : Forall (fun a => is_helm a = false) secret_steps).
  { unfold secret_steps, _apply_opaque_secret, _adopt_for_helm.
    destruct (negb (have_kubectl k)); repeat constructor. }
  pose proof (preflight_no_helm k env_name image_repo ver name) as Hpre.
  pose proof (preflight_passes_only_after_pull k env_name image_repo ver name) as Hpass.
  destruct (_preflight_ecr_for_k8s_pull k env_name image_repo ver name)
    as [pre_steps [extra_sets rc]].
  cbn [fst snd] in Hpre, Hpass.
  destruct (negb (rc =? 0)) eqn:Er; cbn [fst snd].
  - intros Hin. exfalso. revert Hin. apply Hno.
    repeat (apply Forall_app; split; [assumption |]). repeat constructor.
  - apply negb_false_iff, Z.eqb_eq in Er.
    rewrite !app_assoc.
    match goal with
    | |- In _ (?front ++ ?msgs)%list -> _ =>
        assert (Hfront : Forall (fun a => is_helm a = false) front)
          by (repeat (apply Forall_app; split; [| assumption]); assumption)
    end.
    intros Hin. apply in_app_or in Hin as [Hin | Hin]; [exfalso; exact (Hno _ Hfront Hin) |].
    simpl in Hin.
    repeat (destruct Hin as [E | Hin]; [try discriminate |]); [| destruct Hin].
    injection E as <- <-.
    split; [| split; [reflexivity | exists image_repo; split; [reflexivity | now apply Hpass]]].
    match goal with
    | |- exists pre, (?front ++ [?a1; ?a2; ?a3; ?a4; ?a5; ?a6; ?a7; ?h])%list = _ /\ _ =>
        exists (front ++ [a1; a2; a3; a4; a5; a6; a7])%list
    end.
    split.
    + apply (app_assoc _ [_; _; _; _; _; _; _] [_]).
    + apply Forall_app. split; [exact Hfront | repeat constructor].
Qed.

(** At an input: the release of an application whose image is in a
    private registry. *)
Lemma release_runs_helm_only_after_pull_witness :
  (exists pre,
     fst (release Samples.cluster ∅ Samples.app_root (Some Samples.cfg_release) "dev")
     = (pre ++ [Helm Samples.release_cmd "/opt/plsr/helm"])%list
     /\ Forall (fun a => is_helm a = false) pre)
  /\ snd (release Samples.cluster ∅ Samples.app_root (Some Samples.cfg_release) "dev")
     = helm_rc Samples.cluster Samples.release_cmd
  /\ exists image_repo,
       release_image_repo ∅ (Py.or_str (Some Samples.cfg_release) "")
         (fst (_name_version (Py.or_str (Some Samples.cfg_release) "") Samples.app_root))
       = Some image_repo
       /\ (parse_ecr_image_ref
             (image_repo
              ++ ":" ++ snd (_name_version (Py.or_str (Some Samples.cfg_release) "")
                               Samples.app_root)) = None
           \/ (have_kubectl Samples.cluster = true /\ pulled (answers Samples.cluster))).
Proof.
  apply (release_runs_helm_only_after_pull Samples.cluster ∅ Samples.app_root
           (Some Samples.cfg_release) "dev" Samples.release_cmd "/opt/plsr/helm").
  vm_compute. repeat (first [left; reflexivity | right]).
Defined.

(** X28.  Without an environment name, without helm, without a config, without
    the chart directory or without an image repository, release prints
    messages and returns 2 or 127: it contacts neither the cluster nor
    AWS. *)
Theorem release_gives_up_before_the_cluster (k : Cluster) (env : environ)
  (app_root : Path) (cfg : option string) (env_name : string) :
  negb (Py.truthy env_name) || negb (have_helm k) || negb (Py.otruthy cfg)
  || negb (helm_dir_is_dir k)
  || negb (is_Some_b (release_image_repo env (Py.or_str cfg "")
                        (fst (_name_version (Py.or_str cfg "") app_root)))) = true ->
  let out := release k env app_root cfg env_name in
  Forall (fun a => is_say a = true) (fst out) /\ (snd out = 2 \/ snd out = 127).
Proof.
  cbv zeta. unfold release. intros H.
  destruct (negb (Py.truthy env_name)); [split; [repeat constructor | now left] |].
  destruct (negb (have_helm k)); [split; [repeat constructor | now right] |].
  destruct (negb (Py.otruthy cfg)); [split; [repeat constructor | now left] |].
  destruct (negb (helm_dir_is_dir k)); [split; [repeat constructor | now left] |].
  destruct (_name_version (Py.or_str cfg "") app_root) as [name ver]. cbn [fst] in H.
  destruct (release_image_repo env (Py.or_str cfg "") name);
    [discriminate | split; [repeat constructor | now left]].
Qed.

(** At an input: a config that names neither an image repository nor a
    registry. *)
Lemma release_gives_up_before_the_cluster_witness :
  Forall (fun a => is_say a = true)
    (fst (release Samples.cluster ∅ Samples.app_root (Some Samples.cfg_no_image) "dev"))
  /\ (snd (release Samples.cluster ∅ Samples.app_root (Some Samples.cfg_no_image) "dev") = 2
      \/ snd (release Samples.cluster ∅ Samples.app_root (Some Samples.cfg_no_image) "dev")
         = 127).
Proof.
  apply (release_gives_up_before_the_cluster Samples.cluster ∅ Samples.app_root
           (Some Samples.cfg_no_image) "dev").
  vm_compute. reflexivity.
Defined.

End Releases.

(* ===================================================================== *)
(** * build.py: the database image in the registry                        *)
(* ===================================================================== *)

Section DatabaseImage.
Import Aws EnsureImage.

Lemma stop_local_consented (g : Registry) (env : environ) (cname : string) :
  image_exists g = true -> rebuild_confirmed g = true ->
  Forall (consented g) (fst (_stop_local_container_and_delete_data_if_exists g env cname)).
Proof.
  intros Hi Hc. unfold _stop_local_container_and_delete_data_if_exists.
  destruct (negb (docker_present g)); [constructor |].
  destruct (negb (container_exists g cname)); [constructor |].
  repeat constructor; assumption.
Qed.

(** X29.  ensure_db_image_in_ecr stops a local container or deletes the tag
    in the registry only when the image is there and the user has
    agreed to rebuild it; it builds without cache exactly in that case,
    and builds with cache only when the image is missing. *)
Theorem ensure_db_image_changes_need_consent (g : Registry) (env : environ)
  (text mode : string) :
  Forall (consented g) (fst (ensure_db_image_in_ecr g env text mode)).
Proof.
  unfold ensure_db_image_in_ecr.
  destruct (Build._read_fields_from_config_yaml env text) as [[[name ver] ecr] flavor].
  destruct (negb (Py.otruthy name) || negb (Py.otruthy ver)); [repeat constructor |].
  destruct (negb (String.eqb flavor "db-mariadb")); [constructor |].
  destruct (negb (Py.otruthy ecr)); [repeat constructor |].
  destruct (parse_ecr_image_ref _) as [parts|]; [| repeat constructor].
  destruct (negb (ref_private parts)); [repeat constructor |].
  destruct (negb (ecr_login_rc g _ _ =? 0)); [repeat constructor |].
  destruct (negb (ensure_repo_rc g =? 0)); [repeat constructor |].
  destruct (image_exists g) eqn:Hi; cbn [negb].
  2:{ cbn [fst app]. repeat (constructor; [exact I |]).
      constructor; [| constructor]. simpl. rewrite Hi. split; [reflexivity | discriminate]. }
  destruct (rebuild_confirmed g) eqn:Hc.
  2:{ cbn [fst app]. repeat constructor. }
  pose proof (fun cname => stop_local_consented g env cname Hi Hc) as Hstop.
  pose proof (Hstop (Names._db_default_container_name text (Py.or_str name ""))) as H1.
  destruct (_stop_local_container_and_delete_data_if_exists g env
              (Names._db_default_container_name text (Py.or_str name "")))
    as [stop1 stop_rc1].
  cbn [fst] in H1.
  set (second := if negb (String.eqb _ _) then _ else _).
  assert (H2 : Forall (consented g) (fst second)).
  { unfold second. destruct (negb (String.eqb _ _)); [| constructor].
    match goal with
    | |- context [_stop_local_container_and_delete_data_if_exists g env ?c] =>
        pose proof (Hstop c) as H2;
        destruct (_stop_local_container_and_delete_data_if_exists g env c)
    end.
    exact H2. }
  destruct second as [stop2 stop_rc]. cbn [fst] in H2.
  assert (Hfront : forall warned tail,
    Forall (consented g) warned -> Forall (consented g) tail ->
    Forall (consented g)
      (([Login (ref_host parts) (ref_region parts);
         EnsureRepo (ref_host parts) (ref_region parts) (ref_repository parts)
           (ref_account parts);
         QueryImage (ref_host parts) (ref_region parts) (ref_repository parts)
           (ref_tag parts) (ref_account parts)]
        ++ [Confirm ("ECR image already exists: "
                     ++ Build._compose_image_ref (Py.or_str name "") (Py.or_str ver "")
                          (Py.or_str ecr "")
                     ++ ". Rebuild from scratch?")]
        ++ stop1 ++ stop2 ++ warned
        ++ [Note "info" "Deleting existing tag from ECR";
            DeleteTag (ref_host parts) (ref_region parts) (ref_repository parts)
              (ref_tag parts) (ref_account parts)]) ++ tail)%list).
  { intros warned tail Hw Ht. cbn [app]. repeat (constructor; [exact I |]).
    rewrite <- !app_assoc.
    repeat (apply Forall_app; split; [assumption |]).
    cbn [app]. constructor; [exact I |]. constructor; [split; assumption | exact Ht]. }
  assert (Hw : Forall (consented g)
                 (if negb (stop_rc =? 0)
                  then [Note "warn"
                          "Local stop/cleanup reported a non-zero exit; continuing with rebuild."]
                  else [])).
  { destruct (negb (stop_rc =? 0)); repeat constructor. }
  destruct (negb (delete_tag_rc g =? 0)); cbn [fst].
  - rewrite <- (app_nil_r (_ ++ _ ++ _ ++ _ ++ _ ++ _)%list).
    apply Hfront; [exact Hw | constructor].
  - apply Hfront; [exact Hw |]. constructor; [exact I |].
    constructor; [| constructor]. simpl. rewrite Hi. split; [reflexivity | intros _; exact Hc].
Qed.

End DatabaseImage.

